(** * Outfit / pose history state machine of the virtual try-on studio

    A shallow embedding of the history logic of [App.tsx] and of the pose
    navigation of [components/Canvas.tsx], with the properties of the
    specification stated over it.

    React state is a record [AppState]; a handler is a function of the
    state its closure captured (the render it was created in) that yields
    the queued state updates, to be applied to the state that is current
    when they run.  An [async] handler yields the updates queued before
    its [await], the request it awaits, and the updates queued once the
    request settles. *)

From Stdlib Require Import ZArith List String Bool Lia.
Import ListNotations.
Open Scope string_scope.
Open Scope list_scope.
Open Scope Z_scope.

(** ** JavaScript primitives used by the handlers *)

Module Js.

(** Truthiness of a [string | null | undefined] value: absent and the
    empty string are falsy. *)
Definition truthy (v : option string) : bool :=
  match v with
  | Some s => negb (String.eqb s "")
  | None => false
  end.

(** [a ?? b] *)
Definition nullish {A} (a b : option A) : option A :=
  match a with
  | Some _ => a
  | None => b
  end.

(** [arr[i]] for an integer [i]: [undefined] out of range. *)
Definition get {A} (arr : list A) (i : Z) : option A :=
  if i <? 0 then None else nth_error arr (Z.to_nat i).

(** [arr.length] *)
Definition length {A} (arr : list A) : Z := Z.of_nat (List.length arr).

(** Relative index of [Array.prototype.slice]: a negative index counts
    from the end, and the result is clamped to [0, len]. *)
Definition rel_index (len i : Z) : Z :=
  if i <? 0 then Z.max (len + i) 0 else Z.min i len.

(** [arr.slice(b, e)] *)
Definition slice {A} (arr : list A) (b e : Z) : list A :=
  let len := length arr in
  let k := rel_index len b in
  let final := rel_index len e in
  firstn (Z.to_nat (final - k)) (skipn (Z.to_nat k) arr).

(** [arr.findIndex(p)]: first index satisfying [p], [-1] if none. *)
Fixpoint findIndex {A} (p : A -> bool) (arr : list A) : Z :=
  match arr with
  | [] => -1
  | x :: rest =>
      if p x then 0
      else let r := findIndex p rest in
           if r <? 0 then -1 else r + 1
  end.

(** [arr.indexOf(x)] on an array of strings, for a value [x] that may be
    [undefined] (strict equality: [undefined] is found nowhere). *)
Definition indexOf (arr : list string) (x : option string) : Z :=
  match x with
  | Some s => findIndex (String.eqb s) arr
  | None => -1
  end.

(** A value used as a computed property key: [undefined] becomes the
    key ["undefined"]. *)
Definition propKey (k : option string) : string :=
  match k with
  | Some s => s
  | None => "undefined"
  end.

(** [arr.map((x, index) => f(x, index))] *)
Fixpoint mapi_from {A B} (f : A -> Z -> B) (i : Z) (arr : list A) : list B :=
  match arr with
  | [] => []
  | x :: rest => f x i :: mapi_from f (i + 1) rest
  end.

Definition mapi {A B} (f : A -> Z -> B) (arr : list A) : list B :=
  mapi_from f 0 arr.

(** [a % b] on integers: the remainder takes the sign of the dividend.
    (With a zero divisor JavaScript yields NaN, which has no integer
    counterpart; the divisors here are lengths of non-empty arrays.) *)
Definition rem (a b : Z) : Z := Z.rem a b.

(** [arr.find(p)] used as a condition: is some element found? *)
Definition found {A} (p : A -> bool) (arr : list A) : bool := existsb p arr.

End Js.

(** ** types.ts *)

Inductive GarmentCategory := shirt | outerwear | pants | shoes | hat.

Definition GarmentCategory_eqb (a b : GarmentCategory) : bool :=
  match a, b with
  | shirt, shirt | outerwear, outerwear | pants, pants
  | shoes, shoes | hat, hat => true
  | _, _ => false
  end.

Record WardrobeItem := mkWardrobeItem {
  id : string;
  name : string;
  url : string;
  category : GarmentCategory
}.

(** [Record<string, string>]: a JavaScript object keeps its string keys in
    insertion order, and that order is observable here ([Object.keys],
    [Object.values(..)[0]]), so the object is an association list in
    insertion order.  (Keys that are canonical array indices would be
    enumerated first, and a key naming a member of [Object.prototype]
    would read that member; pose labels are sentences, never such
    keys.) *)
Definition PoseImages := list (string * string).

Module Obj.

(** [obj[key]] *)
Fixpoint get (obj : PoseImages) (key : string) : option string :=
  match obj with
  | [] => None
  | (k, v) :: rest => if String.eqb k key then Some v else get rest key
  end.

(** [{ ...obj, [key]: v }]: an existing key keeps its place and takes
    the new value, a new key goes last. *)
Fixpoint set (obj : PoseImages) (key v : string) : PoseImages :=
  match obj with
  | [] => [(key, v)]
  | (k, w) :: rest =>
      if String.eqb k key then (k, v) :: rest else (k, w) :: set rest key v
  end.

Definition keys (obj : PoseImages) : list string := map fst obj.
Definition values (obj : PoseImages) : list string := map snd obj.

End Obj.

Record OutfitLayer := mkOutfitLayer {
  garment : option WardrobeItem;   (* null represents the base model layer *)
  poseImages : PoseImages
}.

(** ** App.tsx: state *)

Record HistoryState := mkHistoryState {
  outfitHistory : list OutfitLayer;
  currentOutfitIndex : Z;
  currentPoseIndex : Z
}.

Record AppState := mkAppState {
  originalUserImageUrl : option string;
  generatedModelUrl : option string;
  history : list HistoryState;
  historyIndex : Z;
  isLoading : bool;
  loadingMessage : string;
  error : option string;
  isSheetCollapsed : bool;
  wardrobe : list WardrobeItem;
  isShareModalOpen : bool
}.

(** The [useState] setters. *)
Definition setOriginalUserImageUrl v (s : AppState) : AppState :=
  mkAppState v (generatedModelUrl s) (history s) (historyIndex s) (isLoading s)
    (loadingMessage s) (error s) (isSheetCollapsed s) (wardrobe s) (isShareModalOpen s).
Definition setGeneratedModelUrl v (s : AppState) : AppState :=
  mkAppState (originalUserImageUrl s) v (history s) (historyIndex s) (isLoading s)
    (loadingMessage s) (error s) (isSheetCollapsed s) (wardrobe s) (isShareModalOpen s).
Definition setHistory v (s : AppState) : AppState :=
  mkAppState (originalUserImageUrl s) (generatedModelUrl s) v (historyIndex s) (isLoading s)
    (loadingMessage s) (error s) (isSheetCollapsed s) (wardrobe s) (isShareModalOpen s).
Definition setHistoryIndex v (s : AppState) : AppState :=
  mkAppState (originalUserImageUrl s) (generatedModelUrl s) (history s) v (isLoading s)
    (loadingMessage s) (error s) (isSheetCollapsed s) (wardrobe s) (isShareModalOpen s).
Definition setIsLoading v (s : AppState) : AppState :=
  mkAppState (originalUserImageUrl s) (generatedModelUrl s) (history s) (historyIndex s) v
    (loadingMessage s) (error s) (isSheetCollapsed s) (wardrobe s) (isShareModalOpen s).
Definition setLoadingMessage v (s : AppState) : AppState :=
  mkAppState (originalUserImageUrl s) (generatedModelUrl s) (history s) (historyIndex s)
    (isLoading s) v (error s) (isSheetCollapsed s) (wardrobe s) (isShareModalOpen s).
Definition setError v (s : AppState) : AppState :=
  mkAppState (originalUserImageUrl s) (generatedModelUrl s) (history s) (historyIndex s)
    (isLoading s) (loadingMessage s) v (isSheetCollapsed s) (wardrobe s) (isShareModalOpen s).
Definition setIsSheetCollapsed v (s : AppState) : AppState :=
  mkAppState (originalUserImageUrl s) (generatedModelUrl s) (history s) (historyIndex s)
    (isLoading s) (loadingMessage s) (error s) v (wardrobe s) (isShareModalOpen s).
Definition setWardrobe v (s : AppState) : AppState :=
  mkAppState (originalUserImageUrl s) (generatedModelUrl s) (history s) (historyIndex s)
    (isLoading s) (loadingMessage s) (error s) (isSheetCollapsed s) v (isShareModalOpen s).
Definition setIsShareModalOpen v (s : AppState) : AppState :=
  mkAppState (originalUserImageUrl s) (generatedModelUrl s) (history s) (historyIndex s)
    (isLoading s) (loadingMessage s) (error s) (isSheetCollapsed s) (wardrobe s) v.

(** ** The image service boundary *)

(** A [File] handed to the service: an opaque payload with a name. *)
Record File := mkFile { fileName : string; fileType : string }.

(** A value thrown inside a handler and caught by its [catch] clause. *)
Inductive Thrown :=
| ErrorObj (message : string)     (* [new Error(message)] *)
| ServiceError (detail : string). (* whatever the service rejects with *)

(** The two calls the handlers await. *)
Inductive Request :=
| VirtualTryOn (baseImage : string) (garmentFile : File) (cat : GarmentCategory)
| PoseVariation (baseImage : string) (poseInstruction : option string).

(** How an awaited call settles. *)
Inductive Outcome :=
| Resolved (imageUrl : string)
| Rejected (err : Thrown).

(** What a handler does.  [Return u]: it ran to its end, queueing the
    updates [u].  [Await u req k]: it queued [u], then awaits [req]; once
    the call has settled with [out] it queues [k out].  Queued updates are
    functions of the state that is current when they apply, as with
    React's setters; what the handler read from its closure is already
    fixed inside them. *)
Inductive Async :=
| Return (u : AppState -> AppState)
| Await (u : AppState -> AppState) (req : Request)
        (k : Outcome -> AppState -> AppState).

(** The request a handler awaits, if any. *)
Definition synthesisRequest (a : Async) : option Request :=
  match a with
  | Return _ => None
  | Await _ req _ => Some req
  end.

(** The updates queued before the handler returns or suspends. *)
Definition before (a : Async) : AppState -> AppState :=
  match a with
  | Return u => u
  | Await u _ _ => u
  end.

(** The updates queued after the awaited call settles with [out]. *)
Definition after (a : Async) (out : Outcome) : AppState -> AppState :=
  match a with
  | Return _ => fun s => s
  | Await _ _ k => k out
  end.

(** The handler run from state [s] with nothing happening in between: its
    awaited call, if any, settles with [out]. *)
Definition settle (a : Async) (out : Outcome) (s : AppState) : AppState :=
  after a out (before a s).

(** ** components/Canvas.tsx: pose navigation *)

Module Canvas.
Section Props.

(** The props the two handlers read. *)
Variable isLoading : bool.
Variable poseInstructions : list string.
Variable currentPoseIndex : Z.
Variable availablePoseKeys : list string.

(** Both handlers end in at most one call [onSelectPose(i)]: the result
    is [Some i] for that call and [None] when the handler returns
    without calling. *)
Definition handlePreviousPose : option Z :=
  if isLoading || (Js.length availablePoseKeys <=? 1) then None
  else
    let currentPoseInstruction := Js.get poseInstructions currentPoseIndex in
    let currentIndexInAvailable := Js.indexOf availablePoseKeys currentPoseInstruction in
    (* Fallback if current pose not in available list (shouldn't happen) *)
    if currentIndexInAvailable =? -1 then
      Some (Js.rem (currentPoseIndex - 1 + Js.length poseInstructions) (Js.length poseInstructions))
    else
      let prevIndexInAvailable :=
        Js.rem (currentIndexInAvailable - 1 + Js.length availablePoseKeys) (Js.length availablePoseKeys) in
      let prevPoseInstruction := Js.get availablePoseKeys prevIndexInAvailable in
      let newGlobalPoseIndex := Js.indexOf poseInstructions prevPoseInstruction in
      if negb (newGlobalPoseIndex =? -1) then Some newGlobalPoseIndex else None.

Definition handleNextPose : option Z :=
  if isLoading then None
  else
    let currentPoseInstruction := Js.get poseInstructions currentPoseIndex in
    let currentIndexInAvailable := Js.indexOf availablePoseKeys currentPoseInstruction in
    (* Fallback or if there are no generated poses yet *)
    if (currentIndexInAvailable =? -1) || (Js.length availablePoseKeys =? 0) then
      Some (Js.rem (currentPoseIndex + 1) (Js.length poseInstructions))
    else
      let nextIndexInAvailable := currentIndexInAvailable + 1 in
      if nextIndexInAvailable <? Js.length availablePoseKeys then
        (* There is another generated pose, navigate to it *)
        let nextPoseInstruction := Js.get availablePoseKeys nextIndexInAvailable in
        let newGlobalPoseIndex := Js.indexOf poseInstructions nextPoseInstruction in
        if negb (newGlobalPoseIndex =? -1) then Some newGlobalPoseIndex else None
      else
        (* At the end of generated poses, generate the next one from the master list *)
        Some (Js.rem (currentPoseIndex + 1) (Js.length poseInstructions)).

End Props.
End Canvas.

(** ** App.tsx: derived values and handlers *)

Definition POSE_INSTRUCTIONS : list string := [
  (* Standard & Classic *)
  "Full frontal view, hands on hips";
  "Slightly turned, 3/4 view";
  "Side profile view";
  "Back view, looking over shoulder";
  "Leaning against a neutral wall";
  (* Walking & Action *)
  "Walking towards camera, in mid-stride";
  "Jumping in the air, joyful expression";
  "Twirling, capturing fabric motion";
  "Striding confidently, runway walk";
  "A dynamic action pose, mid-movement";
  (* Sitting & Relaxed *)
  "Sitting casually on a modern stool";
  "Lounging gracefully on a chaise lounge";
  "Sitting on the floor, cross-legged";
  "Leaning forward, hands on knees";
  "Crouching, athletic stance";
  (* Expressive & Editorial *)
  "Confident power pose, one hand in pocket";
  "Playful pose, hands in hair";
  "Hands framing face, high-fashion look";
  "Looking up, hopeful expression";
  "Arms crossed, serious and direct look"
].

(** wardrobe.ts *)
Definition defaultWardrobe : list WardrobeItem := [
  mkWardrobeItem "gemini-tee" "Tee" "https://i.imghippo.com/files/kgxo8893iM.webp" shirt;
  mkWardrobeItem "gemini-sweat" "outerwear" "https://i.imghippo.com/files/EAdD7305YQ.webp" outerwear;
  mkWardrobeItem "classic-jeans" "pants" "https://i.imghippo.com/files/IuBH8049xRk.webp" pants;
  mkWardrobeItem "white-sneakers" "shoes" "https://i.imghippo.com/files/WxdW1574eZg.webp" shoes;
  mkWardrobeItem "black-cap" "hat" "https://i.imghippo.com/files/ZWYH3713Jcw.webp" hat
].

(** [{ ...state, field: v }] *)
Definition withOutfitHistory (v : list OutfitLayer) (h : HistoryState) : HistoryState :=
  mkHistoryState v (currentOutfitIndex h) (currentPoseIndex h).
Definition withCurrentOutfitIndex (v : Z) (h : HistoryState) : HistoryState :=
  mkHistoryState (outfitHistory h) v (currentPoseIndex h).
Definition withCurrentPoseIndex (v : Z) (h : HistoryState) : HistoryState :=
  mkHistoryState (outfitHistory h) (currentOutfitIndex h) v.
Definition withPoseImages (v : PoseImages) (l : OutfitLayer) : OutfitLayer :=
  mkOutfitLayer (garment l) v.

(** The state of a freshly mounted [App]. *)
Definition initialAppState : AppState :=
  mkAppState None None [] (-1) false "" None false defaultWardrobe false.

Module App.
Section Handlers.

(** [POSE_INSTRUCTIONS], the master pose list.  No handler depends on
    what its entries are, so it is kept general here and instantiated
    where a property needs a given list. *)
Variable poseInstructions : list string.

(** [getFriendlyErrorMessage(err, context)] of [lib/utils]: turns a
    caught value into the message shown to the user. *)
Variable getFriendlyErrorMessage : Thrown -> string -> string.

(** *** Values derived from the state on each render *)

Definition currentState (s : AppState) : option HistoryState :=
  Js.get (history s) (historyIndex s).

Definition outfitHistory (s : AppState) : list OutfitLayer :=
  match currentState s with
  | Some cs => outfitHistory cs
  | None => []
  end.

Definition currentOutfitIndex (s : AppState) : Z :=
  match currentState s with
  | Some cs => currentOutfitIndex cs
  | None => 0
  end.

Definition currentPoseIndex (s : AppState) : Z :=
  match currentState s with
  | Some cs => currentPoseIndex cs
  | None => 0
  end.

Definition canUndo (s : AppState) : bool := historyIndex s >? 0.
Definition canRedo (s : AppState) : bool := historyIndex s <? Js.length (history s) - 1.

Definition activeOutfitLayers (s : AppState) : list OutfitLayer :=
  Js.slice (outfitHistory s) 0 (currentOutfitIndex s + 1).

(** [layer.garment?.id] *)
Definition garmentId (layer : OutfitLayer) : option string :=
  option_map id (garment layer).

(** [layer.garment?.category] *)
Definition garmentCategory (layer : OutfitLayer) : option GarmentCategory :=
  option_map category (garment layer).

Definition activeGarmentIds (s : AppState) : list string :=
  flat_map (fun layer =>
              match garmentId layer with
              | Some i => if Js.truthy (Some i) then [i] else []
              | None => []
              end)
           (activeOutfitLayers s).

Definition displayImageUrl (s : AppState) : option string :=
  if Js.length (outfitHistory s) =? 0 then generatedModelUrl s
  else
    match Js.get (outfitHistory s) (currentOutfitIndex s) with
    | None => generatedModelUrl s
    | Some currentLayer =>
        let poseInstruction := Js.get poseInstructions (currentPoseIndex s) in
        Js.nullish (Obj.get (poseImages currentLayer) (Js.propKey poseInstruction))
                   (Js.get (Obj.values (poseImages currentLayer)) 0)
    end.

Definition availablePoseKeys (s : AppState) : list string :=
  if Js.length (outfitHistory s) =? 0 then []
  else
    match Js.get (outfitHistory s) (currentOutfitIndex s) with
    | Some currentLayer => Obj.keys (poseImages currentLayer)
    | None => []
    end.

(** *** Handlers

    The first argument [c] of a handler is the state of the render whose
    closure it is; the function it yields is applied to the state that
    is current when the queued updates run. *)

Definition recordNewState (c : AppState) (newState : HistoryState)
  : AppState -> AppState :=
  let newHistory := Js.slice (history c) 0 (historyIndex c + 1) ++ [newState] in
  fun s => setHistoryIndex (Js.length newHistory - 1) (setHistory newHistory s).

Definition handleModelFinalized (originalUrl generatedUrl : string)
  : AppState -> AppState :=
  let initialState :=
    mkHistoryState
      [mkOutfitLayer None [(Js.propKey (Js.get poseInstructions 0), generatedUrl)]]
      0 0 in
  fun s =>
    setHistoryIndex 0
      (setHistory [initialState]
         (setGeneratedModelUrl (Some generatedUrl)
            (setOriginalUserImageUrl (Some originalUrl) s))).

Definition handleStartOver : AppState -> AppState :=
  fun s =>
    setWardrobe defaultWardrobe
      (setIsSheetCollapsed false
         (setError None
            (setLoadingMessage ""
               (setIsLoading false
                  (setHistoryIndex (-1)
                     (setHistory []
                        (setGeneratedModelUrl None
                           (setOriginalUserImageUrl None s)))))))).

Definition handleShare : AppState -> AppState := setIsShareModalOpen true.
Definition handleCloseShareModal : AppState -> AppState := setIsShareModalOpen false.

(** [onClick={() => setIsSheetCollapsed(!isSheetCollapsed)}] of the
    panel's handle. *)
Definition toggleSheet (c : AppState) : AppState -> AppState :=
  setIsSheetCollapsed (negb (isSheetCollapsed c)).

Definition handleUndo (c : AppState) : AppState -> AppState :=
  fun s => if canUndo c then setHistoryIndex (historyIndex s - 1) s else s.

Definition handleRedo (c : AppState) : AppState -> AppState :=
  fun s => if canRedo c then setHistoryIndex (historyIndex s + 1) s else s.

(** The [finally] clause shared by the two asynchronous handlers. *)
Definition clearLoading : AppState -> AppState :=
  fun s => setLoadingMessage "" (setIsLoading false s).

(** [nextLayer && nextLayer.garment?.id === garmentInfo.id] *)
Definition isGarmentRedo (c : AppState) (garmentInfo : WardrobeItem) : bool :=
  match Js.get (outfitHistory c) (currentOutfitIndex c + 1) with
  | Some nextLayer =>
      match garmentId nextLayer with
      | Some i => String.eqb i (id garmentInfo)
      | None => false
      end
  | None => false
  end.

(** [layer.garment?.category === garmentInfo.category] *)
Definition sameCategory (garmentInfo : WardrobeItem) (layer : OutfitLayer) : bool :=
  match garmentCategory layer with
  | Some cat => GarmentCategory_eqb cat (category garmentInfo)
  | None => false
  end.

(** [baseHistorySlice]: the layers the new garment is built on. *)
Definition baseHistorySlice (c : AppState) (garmentInfo : WardrobeItem)
  : list OutfitLayer :=
  let activeLayers := Js.slice (outfitHistory c) 0 (currentOutfitIndex c + 1) in
  (* Find if a garment of the same category already exists in the active stack. *)
  let existingLayerIndex := Js.findIndex (sameCategory garmentInfo) activeLayers in
  (* If replacing, we build from the layer *before* the one being replaced.
     If adding, we build from the current top layer. *)
  if negb (existingLayerIndex =? -1) && (existingLayerIndex >? 0)
  then Js.slice (outfitHistory c) 0 existingLayerIndex
  else activeLayers.

Definition handleGarmentSelect (c : AppState) (garmentFile : File)
           (garmentInfo : WardrobeItem) : Async :=
  match currentState c with
  | None => Return (fun s => s)
  | Some cs =>
    if negb (Js.truthy (generatedModelUrl c)) || isLoading c then Return (fun s => s)
    else if isGarmentRedo c garmentInfo then
      (* re-applying a garment from later in the history stack: a "redo" action *)
      Return (recordNewState c
                (withCurrentPoseIndex 0
                   (withCurrentOutfitIndex (currentOutfitIndex c + 1) cs)))
    else
      let starting := fun s =>
        setLoadingMessage ("Adding " ++ name garmentInfo ++ "...")%string
          (setIsLoading true (setError None s)) in
      let caught := fun err s =>
        clearLoading
          (setError (Some (getFriendlyErrorMessage err "Failed to apply garment")) s) in
      let base := baseHistorySlice c garmentInfo in
      match Js.get base (Js.length base - 1) with
      | None =>
          Return (fun s =>
            caught (ErrorObj "Could not find a base layer for generation.") (starting s))
      | Some baseLayer =>
          let currentPoseInstruction := Js.get poseInstructions (currentPoseIndex c) in
          let baseImageForGeneration :=
            Js.nullish (Obj.get (poseImages baseLayer) (Js.propKey currentPoseInstruction))
                       (Js.get (Obj.values (poseImages baseLayer)) 0) in
          match baseImageForGeneration with
          | Some img =>
            if Js.truthy (Some img) then
              Await starting
                (VirtualTryOn img garmentFile (category garmentInfo))
                (fun out s =>
                   match out with
                   | Resolved newImageUrl =>
                       let newLayer :=
                         mkOutfitLayer (Some garmentInfo)
                           [(Js.propKey currentPoseInstruction, newImageUrl)] in
                       (* Any layers after a replacement are discarded. *)
                       let updatedOutfitHistory := base ++ [newLayer] in
                       clearLoading
                         ((fun prev =>
                             setWardrobe
                               (if Js.found (fun item => String.eqb (id item) (id garmentInfo))
                                            (wardrobe prev)
                                then wardrobe prev
                                else wardrobe prev ++ [garmentInfo]) prev)
                            (recordNewState c
                               (mkHistoryState updatedOutfitHistory
                                  (Js.length updatedOutfitHistory - 1)
                                  (currentPoseIndex c)) s))
                   | Rejected err => caught err s
                   end)
            else
              Return (fun s =>
                caught (ErrorObj "Could not find a base image for generation.") (starting s))
          | None =>
              Return (fun s =>
                caught (ErrorObj "Could not find a base image for generation.") (starting s))
          end
      end
  end.

Definition handleRemoveLastGarment (c : AppState) : AppState -> AppState :=
  match currentState c with
  | Some cs =>
      if currentOutfitIndex c >? 0 then
        recordNewState c
          (withCurrentPoseIndex 0
             (withCurrentOutfitIndex (currentOutfitIndex c - 1) cs))
      else fun s => s
  | None => fun s => s
  end.

Definition handlePoseSelect (c : AppState) (newIndex : Z) : Async :=
  match currentState c with
  | None => Return (fun s => s)
  | Some cs =>
    if isLoading c || (Js.length (outfitHistory c) =? 0) || (newIndex =? currentPoseIndex c)
    then Return (fun s => s)
    else
      let poseInstruction := Js.get poseInstructions newIndex in
      match Js.get (outfitHistory c) (currentOutfitIndex c) with
      | None =>
          (* [currentLayer.poseImages] on [undefined] throws outside the
             [try]: the handler's promise rejects, nothing is queued *)
          Return (fun s => s)
      | Some currentLayer =>
          if Js.truthy (Obj.get (poseImages currentLayer) (Js.propKey poseInstruction))
          then Return (recordNewState c (withCurrentPoseIndex newIndex cs))
          else
            match Js.get (Obj.values (poseImages currentLayer)) 0 with
            | Some baseImageForPoseChange =>
              if Js.truthy (Some baseImageForPoseChange) then
                Await
                  (fun s =>
                     setLoadingMessage "Changing pose..."
                       (setIsLoading true (setError None s)))
                  (PoseVariation baseImageForPoseChange poseInstruction)
                  (fun out s =>
                     match out with
                     | Resolved newImageUrl =>
                         let newOutfitHistory :=
                           Js.mapi
                             (fun layer index =>
                                if index =? currentOutfitIndex c then
                                  withPoseImages
                                    (Obj.set (poseImages layer)
                                             (Js.propKey poseInstruction) newImageUrl)
                                    layer
                                else layer)
                             (outfitHistory c) in
                         clearLoading
                           (recordNewState c
                              (withCurrentPoseIndex newIndex
                                 (withOutfitHistory newOutfitHistory cs)) s)
                     | Rejected err =>
                         clearLoading
                           (setError
                              (Some (getFriendlyErrorMessage err "Failed to change pose")) s)
                     end)
              else Return (fun s => s)
            | None => Return (fun s => s)
            end
      end
  end.

(** *** The pose arrows of [<Canvas>]

    [App] renders [<Canvas isLoading={isLoading}
    onSelectPose={handlePoseSelect} poseInstructions={POSE_INSTRUCTIONS}
    currentPoseIndex={currentPoseIndex}
    availablePoseKeys={availablePoseKeys} ... />]; a click on an arrow
    runs the Canvas handler on these props, and the index it selects
    goes to [handlePoseSelect]. *)

Definition onSelectPose (c : AppState) (selected : option Z) : Async :=
  match selected with
  | Some newIndex => handlePoseSelect c newIndex
  | None => Return (fun s => s)
  end.

Definition previousPose (c : AppState) : Async :=
  onSelectPose c
    (Canvas.handlePreviousPose (isLoading c) poseInstructions
                               (currentPoseIndex c) (availablePoseKeys c)).

Definition nextPose (c : AppState) : Async :=
  onSelectPose c
    (Canvas.handleNextPose (isLoading c) poseInstructions
                           (currentPoseIndex c) (availablePoseKeys c)).

End Handlers.
End App.

(** ** components/WardrobeModal.tsx: the wardrobe panel *)

Module WardrobePanel.

(** The tab selected: ['all'] or one category. *)
Inductive Tab := TabAll | TabOf (c : GarmentCategory).

(** The panel's own state. *)
Record State := mkState {
  error : option string;
  selectedCategory : Tab
}.

Definition setError (v : option string) (st : State) : State :=
  mkState v (selectedCategory st).
Definition setSelectedCategory (v : Tab) (st : State) : State :=
  mkState (error st) v.

(** What a handler of the panel does: the updates it queues on the
    panel's state and the call [onGarmentSelect(file, info)] it makes, if
    it makes one. *)
Record Effect := mkEffect {
  update : State -> State;
  selected : option (File * WardrobeItem)
}.

Definition detailedError : string :=
  "Failed to load wardrobe item. This is often a CORS issue. Check the developer console for details.".

(** How [urlToFile(url, filename)] settles.  The image is loaded and drawn
    on a canvas, and the canvas gives a blob: [blob] is that blob's type,
    or nothing when the promise rejects (the image does not load, no
    canvas context, no blob).  The file resolved carries the given name
    and [blob.type || 'image/png']. *)
Definition urlToFile (url filename : string) (blob : option string) : option File :=
  match blob with
  | Some blobType =>
      Some (mkFile filename (if Js.truthy (Some blobType) then blobType else "image/png"))
  | None => None
  end.

Section Props.

Variable activeGarmentIds : list string.
Variable isLoading : bool.
Variable wardrobe : list WardrobeItem.

(** [handleGarmentClick(item)]; [converted] is how [urlToFile(item.url,
    item.name)] settles: the file, or nothing when it rejects. *)
Definition handleGarmentClick (item : WardrobeItem) (converted : option File) : Effect :=
  if isLoading || existsb (String.eqb (id item)) activeGarmentIds
  then mkEffect (fun st => st) None
  else
    match converted with
    | Some file => mkEffect (setError None) (Some (file, item))
    | None => mkEffect (fun st => setError (Some detailedError) (setError None st)) None
    end.

(** [handleFileChange(e)] on the files of the input; [now] is
    [Date.now()] as it prints and [objectUrl] what
    [URL.createObjectURL(file)] returns. *)
Definition handleFileChange (st : State) (files : list File) (now objectUrl : string)
  : Effect :=
  match files with
  | [] => mkEffect (fun st => st) None
  | file :: _ =>
      if negb (String.prefix "image/" (fileType file)) then
        mkEffect (setError (Some "Please select an image file.")) None
      else
        (* Assign the category based on the currently selected tab.
           Default to 'shirt' if 'All' is selected. *)
        let categoryForUpload :=
          match selectedCategory st with
          | TabAll => shirt
          | TabOf c => c
          end in
        let customGarmentInfo :=
          mkWardrobeItem ("custom-" ++ now)%string (fileName file) objectUrl
                         categoryForUpload in
        mkEffect (fun st => st) (Some (file, customGarmentInfo))
  end.

Definition filteredWardrobe (st : State) : list WardrobeItem :=
  match selectedCategory st with
  | TabAll => wardrobe
  | TabOf c => filter (fun item => GarmentCategory_eqb (category item) c) wardrobe
  end.

End Props.
End WardrobePanel.

(** ** The running application

    The state on screen together with what is still pending, and the
    user's actions as the rendered controls allow them: each action runs
    its handler as a closure of the state on screen.

    Two kinds of work are pending.  A click on a wardrobe tile first
    awaits [urlToFile]; when that conversion ends, the handler calls the
    [onGarmentSelect] it was rendered with, that is [handleGarmentSelect]
    as a closure of the state at the click, whatever has happened since.
    An awaited call of the image service stays in flight until a
    [Settle] delivers its outcome.

    The wardrobe panel keeps its tab and its message to itself; they are
    not part of [App]'s state.  The tab can be changed at any time, so a
    tile click may be on any item of the wardrobe (the tab "All" lists
    them all) and an upload carries the tab selected at that moment. *)

Definition WardrobeItem_eqb (a b : WardrobeItem) : bool :=
  String.eqb (id a) (id b) && String.eqb (name a) (name b)
  && String.eqb (url a) (url b) && GarmentCategory_eqb (category a) (category b).

Module Sys.
Section Machine.

Variable poseInstructions : list string.
Variable getFriendlyErrorMessage : Thrown -> string -> string.

Record t := mk {
  ui : AppState;
  (* tile clicks whose image is being converted: the state at the click,
     and the item *)
  converting : list (AppState * WardrobeItem);
  inflight : list (Outcome -> AppState -> AppState)
}.

Inductive Event :=
| Proceed (userImageUrl generatedUrl : string) (* StartScreen: [onModelFinalized] *)
| StartOver
| Undo
| Redo
| Share
| CloseShareModal
| ToggleSheet
| GarmentClick (item : WardrobeItem)              (* a wardrobe tile *)
| Converted (n : nat) (blob : option string)      (* the [n]-th conversion ends *)
| GarmentUpload (files : list File) (tab : WardrobePanel.Tab)
                (now objectUrl : string)          (* "Upload Item" *)
| RemoveLastGarment
| PoseMenu (index : Z)
| PreviousPose
| NextPose
| Settle (n : nat) (out : Outcome).   (* the [n]-th call in flight settles *)

Definition initial : t := mk initialAppState [] [].

(** [App] shows the start screen until there is a model image, and the
    dressing screen after. *)
Definition dressing (s : AppState) : bool := Js.truthy (generatedModelUrl s).

(** [Canvas] renders the pose controls under
    [displayImageUrl && !isLoading]. *)
Definition poseControls (s : AppState) : bool :=
  dressing s && Js.truthy (App.displayImageUrl poseInstructions s)
  && negb (isLoading s).

(** [App] renders the share modal under
    [isShareModalOpen && originalUserImageUrl && displayImageUrl]. *)
Definition shareModal (s : AppState) : bool :=
  isShareModalOpen s && Js.truthy (originalUserImageUrl s)
  && Js.truthy (App.displayImageUrl poseInstructions s).

(** Which control can be operated in the state on screen. *)
Definition enabled (sys : t) (e : Event) : bool :=
  let s := ui sys in
  match e with
  | Proceed userImageUrl generatedUrl =>
      negb (dressing s) && Js.truthy (Some userImageUrl) && Js.truthy (Some generatedUrl)
  | StartOver => dressing s
  | Undo => dressing s && App.canUndo s
  | Redo => dressing s && App.canRedo s
  | Share => dressing s
  | CloseShareModal => shareModal s
  | ToggleSheet => dressing s
  | GarmentClick item =>
      dressing s && existsb (WardrobeItem_eqb item) (wardrobe s)
      && negb (isLoading s
               || existsb (String.eqb (id item)) (App.activeGarmentIds s))
  | Converted n _ => (n <? List.length (converting sys))%nat
  | GarmentUpload _ _ _ _ => dressing s && negb (isLoading s)
  | RemoveLastGarment => dressing s
  | PoseMenu index =>
      poseControls s && (0 <=? index) && (index <? Js.length poseInstructions)
      && negb (isLoading s || (index =? App.currentPoseIndex s))
  | PreviousPose | NextPose => poseControls s
  | Settle n _ => (n <? List.length (inflight sys))%nat
  end.

(** A handler starts: its first updates apply, its awaited call, if it
    has one, joins the calls in flight. *)
Definition launch (sys : t) (a : Async) : t :=
  match a with
  | Return u => mk (u (ui sys)) (converting sys) (inflight sys)
  | Await u _ k => mk (u (ui sys)) (converting sys) (inflight sys ++ [k])
  end.

Definition removeNth {A} (n : nat) (l : list A) : list A :=
  firstn n l ++ skipn (S n) l.

(** The panel calls [onGarmentSelect(file, info)], if it does: the
    handler it calls is [handleGarmentSelect] as a closure of [c]. *)
Definition onGarmentSelect (sys : t) (c : AppState)
           (selected : option (File * WardrobeItem)) : t :=
  match selected with
  | Some (garmentFile, info) =>
      launch sys
        (App.handleGarmentSelect poseInstructions getFriendlyErrorMessage
                                 c garmentFile info)
  | None => sys
  end.

Definition step (sys : t) (e : Event) : t :=
  if negb (enabled sys e) then sys
  else
    let s := ui sys in
    match e with
    | Proceed userImageUrl generatedUrl =>
        mk (App.handleModelFinalized poseInstructions userImageUrl generatedUrl s)
           (converting sys) (inflight sys)
    | StartOver => mk (App.handleStartOver s) (converting sys) (inflight sys)
    | Undo => mk (App.handleUndo s s) (converting sys) (inflight sys)
    | Redo => mk (App.handleRedo s s) (converting sys) (inflight sys)
    | Share => mk (App.handleShare s) (converting sys) (inflight sys)
    | CloseShareModal => mk (App.handleCloseShareModal s) (converting sys) (inflight sys)
    | ToggleSheet => mk (App.toggleSheet s s) (converting sys) (inflight sys)
    | GarmentClick item =>
        (* [handleGarmentClick] up to its [await urlToFile(...)] *)
        mk s (converting sys ++ [(s, item)]) (inflight sys)
    | Converted n blob =>
        (* [handleGarmentClick] from its [await] on, on the props of the
           click *)
        match nth_error (converting sys) n with
        | Some (c, item) =>
            onGarmentSelect
              (mk s (removeNth n (converting sys)) (inflight sys)) c
              (WardrobePanel.selected
                 (WardrobePanel.handleGarmentClick
                    (App.activeGarmentIds c) (isLoading c) item
                    (WardrobePanel.urlToFile (url item) (name item) blob)))
        | None => sys
        end
    | GarmentUpload files tab now objectUrl =>
        onGarmentSelect sys s
          (WardrobePanel.selected
             (WardrobePanel.handleFileChange (WardrobePanel.mkState None tab)
                                             files now objectUrl))
    | RemoveLastGarment =>
        mk (App.handleRemoveLastGarment s s) (converting sys) (inflight sys)
    | PoseMenu index =>
        launch sys (App.handlePoseSelect poseInstructions getFriendlyErrorMessage s index)
    | PreviousPose =>
        launch sys (App.previousPose poseInstructions getFriendlyErrorMessage s)
    | NextPose =>
        launch sys (App.nextPose poseInstructions getFriendlyErrorMessage s)
    | Settle n out =>
        match nth_error (inflight sys) n with
        | Some k => mk (k out s) (converting sys) (removeNth n (inflight sys))
        | None => sys
        end
    end.

Definition run (events : list Event) : t := fold_left step events initial.

(** Every action of the list could be taken when its turn came. *)
Fixpoint acceptedFrom (sys : t) (events : list Event) : bool :=
  match events with
  | [] => true
  | e :: rest => enabled sys e && acceptedFrom (step sys e) rest
  end.

Definition accepted (events : list Event) : bool := acceptedFrom initial events.

(** The states the application can show. *)
Definition reachable (s : AppState) : Prop :=
  exists events, ui (run events) = s.

(** A call is outstanding. *)
Definition busy (sys : t) : bool := negb ((List.length (inflight sys) =? 0)%nat).

End Machine.
End Sys.

(** ** Concrete data for the scenarios of the specification *)

Module Sample.

(** A stand-in for [getFriendlyErrorMessage] where an example needs a
    concrete one: the context followed by the raw message. *)
Definition friendly (err : Thrown) (context : string) : string :=
  match err with
  | ErrorObj m | ServiceError m => (context ++ ". " ++ m)%string
  end.

Definition shirtA : WardrobeItem := mkWardrobeItem "gemini-tee" "Tee" "tee.webp" shirt.
Definition shirtB : WardrobeItem := mkWardrobeItem "custom-1" "polo.png" "blob:polo" shirt.
Definition pantsX : WardrobeItem := mkWardrobeItem "classic-jeans" "pants" "jeans.webp" pants.

Definition P0 : string := "Full frontal view, hands on hips".

Definition base : OutfitLayer := mkOutfitLayer None [(P0, "model.png")].
Definition layerA : OutfitLayer := mkOutfitLayer (Some shirtA) [(P0, "a.png")].
Definition layerX : OutfitLayer := mkOutfitLayer (Some pantsX) [(P0, "x.png")].

(** A dressing screen showing snapshot [cursor] of the log [log]. *)
Definition showing (log : list HistoryState) (cursor : Z) : AppState :=
  mkAppState (Some "user.png") (Some "model.png") log cursor false "" None false
             defaultWardrobe false.

(** Snapshots [s0], [s1], [s2], [s3] of a session: the bare model, then
    the shirt, then the pants, and a snapshot yet to be recorded. *)
Definition s0 : HistoryState := mkHistoryState [base] 0 0.
Definition s1 : HistoryState := mkHistoryState [base; layerA] 1 0.
Definition s2 : HistoryState := mkHistoryState [base; layerA; layerX] 2 0.
Definition s3 : HistoryState := mkHistoryState [base; layerA] 1 1.

(** Active layers [[base, shirtA, pantsX]]. *)
Definition dressed : AppState := showing [s0; s1; s2] 2.

(** Active layers [[base, shirtA]], nothing beyond. *)
Definition wearingA : AppState := showing [s0; s1] 1.

(** A layer that has the poses [A] and [C] generated, in that order, and
    the snapshot showing it in the pose of master index [poseIndex]. *)
Definition posed (A C imgA imgC : string) (poseIndex : Z) : HistoryState :=
  mkHistoryState [mkOutfitLayer None [(A, imgA); (C, imgC)]] 0 poseIndex.

(** The master list [[A, B, C, D]]; the screen at [A], and at [C] after
    one "next". *)
Definition ABCD : list string := ["A"; "B"; "C"; "D"].
Definition atA : AppState := showing [posed "A" "C" "a.png" "c.png" 0] 0.
Definition atC : AppState :=
  showing [posed "A" "C" "a.png" "c.png" 0; posed "A" "C" "a.png" "c.png" 2] 1.

(** A session on the real pose list: pose 2 is generated for the model,
    the tee is applied in that pose, pose 3 is generated for the tee,
    the tee is removed and then selected again.  A tile click is followed
    by the end of its conversion, which gives a PNG blob. *)
Definition teeFile : File := mkFile "Tee" "image/png".
Definition tee : WardrobeItem :=
  mkWardrobeItem "gemini-tee" "Tee" "https://i.imghippo.com/files/kgxo8893iM.webp" shirt.
Definition jeans : WardrobeItem :=
  mkWardrobeItem "classic-jeans" "pants" "https://i.imghippo.com/files/IuBH8049xRk.webp" pants.

Definition reselect : list Sys.Event := [
  Sys.Proceed "user.png" "model.png";
  Sys.PoseMenu 2; Sys.Settle 0 (Resolved "model-2.png");
  Sys.GarmentClick tee; Sys.Converted 0 (Some "image/png");
  Sys.Settle 0 (Resolved "tee-2.png");
  Sys.PoseMenu 3; Sys.Settle 0 (Resolved "tee-3.png");
  Sys.RemoveLastGarment;
  Sys.GarmentClick tee; Sys.Converted 0 (Some "image/png")
].

Definition reselected : AppState :=
  Sys.ui (Sys.run POSE_INSTRUCTIONS friendly reselect).

(** The same session up to the pose 3 of the tee; then the jeans are
    applied and removed again. *)
Definition unlayer : list Sys.Event := [
  Sys.Proceed "user.png" "model.png";
  Sys.PoseMenu 2; Sys.Settle 0 (Resolved "model-2.png");
  Sys.GarmentClick tee; Sys.Converted 0 (Some "image/png");
  Sys.Settle 0 (Resolved "tee-2.png");
  Sys.PoseMenu 3; Sys.Settle 0 (Resolved "tee-3.png");
  Sys.GarmentClick jeans; Sys.Converted 0 (Some "image/png");
  Sys.Settle 0 (Resolved "jeans-3.png");
  Sys.RemoveLastGarment
].

Definition unlayered : AppState :=
  Sys.ui (Sys.run POSE_INSTRUCTIONS friendly unlayer).

(** A session in which the jeans are requested while the tee is on,
    and the call is still in flight. *)
Definition waiting : list Sys.Event := [
  Sys.Proceed "user.png" "model.png";
  Sys.GarmentClick tee; Sys.Converted 0 (Some "image/png");
  Sys.Settle 0 (Resolved "tee-0.png");
  Sys.GarmentClick jeans; Sys.Converted 0 (Some "image/png")
].

(** A session in which the tee is removed, a pose is generated for the
    bare model, and that last step is undone: the snapshot with the new
    pose is ahead of the cursor, and the tee layer is kept beyond the
    active index. *)
Definition branched : list Sys.Event := [
  Sys.Proceed "user.png" "model.png";
  Sys.GarmentClick tee; Sys.Converted 0 (Some "image/png");
  Sys.Settle 0 (Resolved "tee-0.png");
  Sys.RemoveLastGarment;
  Sys.PoseMenu 1; Sys.Settle 0 (Resolved "model-1.png");
  Sys.Undo
].

Definition undone : AppState :=
  Sys.ui (Sys.run POSE_INSTRUCTIONS friendly branched).

(** The snapshot on screen in [undone], and the one ahead of the cursor. *)
Definition teeOn : OutfitLayer := mkOutfitLayer (Some tee) [(P0, "tee-0.png")].
Definition removed : HistoryState := mkHistoryState [base; teeOn] 0 0.
Definition ahead : HistoryState :=
  mkHistoryState
    [mkOutfitLayer None [(P0, "model.png"); ("Slightly turned, 3/4 view", "model-1.png")];
     teeOn]
    0 1.

Definition waitingSys : Sys.t := Sys.run POSE_INSTRUCTIONS friendly waiting.

End Sample.

(** ** Invariants of the data model

    What the specification's data model asserts of every snapshot and of
    the log: the base layer has no garment, the garments of a stack are
    of different categories (a layer of a category already present is
    replaced, never added), the active index points into the stack, and
    the cursor points into the log whenever the log is not empty. *)

Definition categories (layers : list OutfitLayer) : list GarmentCategory :=
  flat_map (fun layer =>
              match garment layer with
              | Some g => [category g]
              | None => []
              end) layers.

Record GoodSnapshot (h : HistoryState) : Prop := mkGoodSnapshot {
  good_base : exists bottom rest,
      outfitHistory h = bottom :: rest /\ garment bottom = None;
  good_categories : NoDup (categories (outfitHistory h));
  good_index : 0 <= currentOutfitIndex h < Js.length (outfitHistory h)
}.

Definition GoodState (s : AppState) : Prop :=
  Forall GoodSnapshot (history s)
  /\ ((history s = [] /\ historyIndex s = -1)
      \/ 0 <= historyIndex s < Js.length (history s)).

(** The state on screen is good, so was the state at every click still
    converting, and so is whatever a call in flight will make of a good
    state when it settles. *)
Definition GoodSys (sys : Sys.t) : Prop :=
  GoodState (Sys.ui sys)
  /\ Forall (fun click => GoodState (fst click)) (Sys.converting sys)
  /\ Forall (fun k => forall out s, GoodState s -> GoodState (k out s))
            (Sys.inflight sys).

(** ** components/StartScreen.tsx *)

Module StartScreen.

Record State := mkState {
  userImageUrl : option string;
  generatedModelUrl : option string;
  isGenerating : bool;
  error : option string
}.

Definition initial : State := mkState None None false None.

Definition setUserImageUrl v (st : State) : State :=
  mkState v (generatedModelUrl st) (isGenerating st) (error st).
Definition setGeneratedModelUrl v (st : State) : State :=
  mkState (userImageUrl st) v (isGenerating st) (error st).
Definition setIsGenerating v (st : State) : State :=
  mkState (userImageUrl st) (generatedModelUrl st) v (error st).
Definition setError v (st : State) : State :=
  mkState (userImageUrl st) (generatedModelUrl st) (isGenerating st) v.

Section Handlers.

Variable getFriendlyErrorMessage : Thrown -> string -> string.

(** [handleFileSelect(file)] up to the reading of the file: a file that
    is not an image is refused with a message ([None]: nothing is read);
    an image is handed to the [FileReader] ([Some file]). *)
Definition handleFileSelect (file : File) : (State -> State) * option File :=
  if negb (String.prefix "image/" (fileType file)) then
    (setError (Some "Please select an image file."), None)
  else (fun st => st, Some file).

(** [reader.onload], before its [await generateModelImage(file)]:
    [dataUrl] is what the reader produced. *)
Definition onload (dataUrl : string) : State -> State :=
  fun st =>
    setError None
      (setGeneratedModelUrl None
         (setIsGenerating true
            (setUserImageUrl (Some dataUrl) st))).

(** [reader.onload], once [generateModelImage(file)] has settled. *)
Definition generated (out : Outcome) : State -> State :=
  fun st =>
    setIsGenerating false
      (match out with
       | Resolved result => setGeneratedModelUrl (Some result) st
       | Rejected err =>
           setUserImageUrl None
             (setError (Some (getFriendlyErrorMessage err "Failed to create model")) st)
       end).

(** [handleFileChange(e)]: the first file of the input, if there is one. *)
Definition handleFileChange (files : list File) : (State -> State) * option File :=
  match files with
  | file :: _ => handleFileSelect file
  | [] => (fun st => st, None)
  end.

(** [handleProceed()]: the call [onModelFinalized(userImageUrl,
    generatedModelUrl)] it makes, if it makes one. *)
Definition handleProceed (st : State) : option (string * string) :=
  match userImageUrl st, generatedModelUrl st with
  | Some u, Some g =>
      if Js.truthy (Some u) && Js.truthy (Some g) then Some (u, g) else None
  | _, _ => None
  end.

Definition reset : State -> State :=
  fun st =>
    setError None
      (setIsGenerating false
         (setGeneratedModelUrl None
            (setUserImageUrl None st))).

End Handlers.
End StartScreen.

(** ** Further invariants of the running application *)

(** A handler keeps a property of states: the updates it queues, before
    and after its call, take states with the property to states with
    it. *)
Definition Preserves (P : AppState -> Prop) (a : Async) : Prop :=
  forall s, P s -> P (before a s) /\ forall out, P (after a out s).

(** Every snapshot's pose index points into the master list. *)
Definition PosesInRange (poseInstructions : list string) (s : AppState) : Prop :=
  Forall (fun h => 0 <= currentPoseIndex h < Js.length poseInstructions) (history s).

(** Every layer of every snapshot holds at least one pose image. *)
Definition LayersHaveImages (s : AppState) : Prop :=
  Forall (fun h => Forall (fun layer => poseImages layer <> []) (outfitHistory h))
         (history s).

(** The wardrobe lists each id once, the default items first. *)
Definition WardrobeOk (s : AppState) : Prop :=
  NoDup (map id (wardrobe s))
  /\ exists customs, wardrobe s = defaultWardrobe ++ customs.

(** The busy flag is set only while a call is in flight, and every call
    in flight clears it when it settles. *)
Definition BusyOk (sys : Sys.t) : Prop :=
  (isLoading (Sys.ui sys) = true -> Sys.inflight sys <> [])
  /\ Forall (fun k => forall out s, isLoading (k out s) = false) (Sys.inflight sys).

(** What a handler does to the busy flag: without a call it does not
    set it, and once its call has settled the flag is clear. *)
Definition BusyHandler (a : Async) : Prop :=
  (synthesisRequest a = None ->
   forall s, isLoading (before a s) = true -> isLoading s = true)
  /\ forall out s, synthesisRequest a <> None -> isLoading (after a out s) = false.

(** A property of states holds on screen, held at every click still
    converting, and is kept by every call in flight. *)
Definition KeptSys (P : AppState -> Prop) (sys : Sys.t) : Prop :=
  P (Sys.ui sys)
  /\ Forall (fun click => P (fst click)) (Sys.converting sys)
  /\ Forall (fun k => forall out s, P s -> P (k out s)) (Sys.inflight sys).

(** ** Further concrete data *)

Module Scenario.

(** The snapshot on screen, for a state that shows one. *)
Definition onScreen (s : AppState) : HistoryState :=
  match App.currentState s with
  | Some h => h
  | None => Sample.s0
  end.

(** The tee layer of [Sample.reselected], with its two poses. *)
Definition teeTwice : OutfitLayer :=
  mkOutfitLayer (Some Sample.tee)
    [("Side profile view", "tee-2.png");
     ("Back view, looking over shoulder", "tee-3.png")].

(** The layer of [Sample.atA] and [Sample.atC]. *)
Definition layerAC : OutfitLayer :=
  mkOutfitLayer None [("A", "a.png"); ("C", "c.png")].

Definition photo : File := mkFile "polo.png" "image/png".
Definition notes : File := mkFile "notes.txt" "text/plain".

(** A second tile is clicked while the image of the first is still
    being converted; then both conversions end. *)
Definition twoClicks : list Sys.Event := [
  Sys.Proceed "user.png" "model.png";
  Sys.GarmentClick Sample.tee; Sys.GarmentClick Sample.jeans;
  Sys.Converted 0 (Some "image/png"); Sys.Converted 0 (Some "image/png")
].

(** The share modal is opened; the panel's sheet is collapsed. *)
Definition sharing : list Sys.Event := [Sys.Proceed "user.png" "model.png"; Sys.Share].
Definition collapsing : list Sys.Event :=
  [Sys.Proceed "user.png" "model.png"; Sys.ToggleSheet].

(** The wardrobe panel on the tab "Pants". *)
Definition onPants : WardrobePanel.State :=
  WardrobePanel.mkState None (WardrobePanel.TabOf pants).

End Scenario.

(** * Properties *)

(** Splits a conjunction into its parts, and nothing else. *)
Ltac conjuncts := repeat match goal with |- _ /\ _ => split end.

(** Closes a closed equation by evaluation. *)
Ltac evaluate := vm_compute; reflexivity.

(** ** Facts about the JavaScript primitives *)

Section JsFacts.
Context {A : Type}.
Implicit Types (l : list A) (i e : Z).

Lemma length_nonneg l : 0 <= Js.length l.
Proof. unfold Js.length. lia. Qed.

Lemma length_snoc l (x : A) : Js.length (l ++ [x]) = Js.length l + 1.
Proof. unfold Js.length. rewrite length_app. simpl. lia. Qed.

(** [slice(0, e)] with [e >= 0] is the prefix of [e] elements. *)
Lemma slice_prefix l e : 0 <= e -> Js.slice l 0 e = firstn (Z.to_nat e) l.
Proof.
  intros He. unfold Js.slice, Js.rel_index, Js.length.
  assert (H0 : (0 <? 0) = false) by reflexivity. rewrite H0.
  assert (He' : (e <? 0) = false) by (apply Z.ltb_ge; exact He). rewrite He'.
  rewrite (Z.min_l 0) by lia. simpl skipn. rewrite Z.sub_0_r.
  destruct (Z.le_ge_cases e (Z.of_nat (List.length l))) as [Hle | Hge].
  - rewrite Z.min_l by exact Hle. reflexivity.
  - rewrite Z.min_r by exact Hge. rewrite Nat2Z.id.
    rewrite !firstn_all2; [reflexivity | lia | lia].
Qed.

Lemma get_in_range l i :
  0 <= i < Js.length l -> exists x, Js.get l i = Some x.
Proof.
  unfold Js.get, Js.length. intros [Hlo Hhi].
  assert (Hi : (i <? 0) = false) by (apply Z.ltb_ge; exact Hlo). rewrite Hi.
  destruct (nth_error l (Z.to_nat i)) as [x |] eqn:E.
  - exists x. reflexivity.
  - apply nth_error_None in E. lia.
Qed.

Lemma get_Some_range l i (x : A) :
  Js.get l i = Some x -> 0 <= i < Js.length l.
Proof.
  unfold Js.get, Js.length. destruct (i <? 0) eqn:Hi; [discriminate |].
  apply Z.ltb_ge in Hi. intros E.
  assert (Hn : nth_error l (Z.to_nat i) <> None) by (rewrite E; discriminate).
  apply nth_error_Some in Hn. lia.
Qed.

Lemma get_nat l (n : nat) : Js.get l (Z.of_nat n) = nth_error l n.
Proof.
  unfold Js.get.
  assert (Hn : (Z.of_nat n <? 0) = false) by (apply Z.ltb_ge; lia).
  rewrite Hn, Nat2Z.id. reflexivity.
Qed.

(** The element just appended is the last one. *)
Lemma get_last l (x : A) : Js.get (l ++ [x]) (Js.length (l ++ [x]) - 1) = Some x.
Proof.
  rewrite length_snoc. unfold Js.length.
  replace (Z.of_nat (List.length l) + 1 - 1) with (Z.of_nat (List.length l)) by lia.
  rewrite get_nat, nth_error_app2 by lia.
  rewrite Nat.sub_diag. reflexivity.
Qed.

(** Reading inside a prefix reads the array. *)
Lemma get_firstn l (n : nat) i :
  i < Z.of_nat n -> Js.get (firstn n l) i = Js.get l i.
Proof.
  intros Hi. unfold Js.get. destruct (i <? 0) eqn:Hneg; [reflexivity |].
  apply Z.ltb_ge in Hneg. rewrite nth_error_firstn.
  assert (Hlt : (Z.to_nat i <? n)%nat = true) by (apply Nat.ltb_lt; lia).
  rewrite Hlt. reflexivity.
Qed.

Lemma get_app_l l l' i : i < Js.length l -> Js.get (l ++ l') i = Js.get l i.
Proof.
  unfold Js.get, Js.length. intros Hi. destruct (i <? 0) eqn:Hneg; [reflexivity |].
  apply Z.ltb_ge in Hneg. apply nth_error_app1. lia.
Qed.

(** What [findIndex] returns: [-1], or the first index whose element
    satisfies the predicate. *)
Lemma findIndex_range (p : A -> bool) l :
  Js.findIndex p l = -1 \/ 0 <= Js.findIndex p l < Js.length l.
Proof.
  unfold Js.length. induction l as [| x rest IH]; simpl.
  - left. reflexivity.
  - destruct (p x).
    + right. lia.
    + destruct IH as [IH | IH].
      * rewrite IH. left. reflexivity.
      * assert (Hr : (Js.findIndex p rest <? 0) = false) by (apply Z.ltb_ge; lia).
        rewrite Hr. right. lia.
Qed.

Lemma findIndex_found (p : A -> bool) l i :
  Js.findIndex p l = i -> 0 <= i ->
  exists x, Js.get l i = Some x /\ p x = true
            /\ forall j y, 0 <= j < i -> Js.get l j = Some y -> p y = false.
Proof.
  revert i. induction l as [| x rest IH]; simpl; intros i Hi Hpos; cbv zeta in Hi.
  - lia.
  - destruct (p x) eqn:Hx.
    + subst i. exists x. split; [reflexivity |]. split; [exact Hx |].
      intros j y Hj. lia.
    + destruct (Js.findIndex p rest <? 0) eqn:Hr; [lia |].
      apply Z.ltb_ge in Hr.
      destruct (IH (Js.findIndex p rest) eq_refl Hr) as (z & Hz & Hpz & Hmin).
      exists z. subst i. split; [| split].
      * unfold Js.get in *.
        assert (H1 : (Js.findIndex p rest + 1 <? 0) = false) by (apply Z.ltb_ge; lia).
        rewrite H1.
        assert (H2 : (Js.findIndex p rest <? 0) = false) by (apply Z.ltb_ge; lia).
        rewrite H2 in Hz.
        replace (Z.to_nat (Js.findIndex p rest + 1))
          with (S (Z.to_nat (Js.findIndex p rest))) by lia.
        exact Hz.
      * exact Hpz.
      * intros j y Hj Hy.
        destruct (Z.eq_dec j 0) as [-> | Hne].
        -- unfold Js.get in Hy. simpl in Hy. injection Hy as <-. exact Hx.
        -- apply (Hmin (j - 1) y); [lia |].
           unfold Js.get in *.
           assert (H1 : (j <? 0) = false) by (apply Z.ltb_ge; lia).
           assert (H2 : (j - 1 <? 0) = false) by (apply Z.ltb_ge; lia).
           rewrite H1 in Hy. rewrite H2.
           replace (Z.to_nat j) with (S (Z.to_nat (j - 1))) in Hy by lia.
           exact Hy.
Qed.

Lemma get_In l i (x : A) : Js.get l i = Some x -> In x l.
Proof.
  unfold Js.get. destruct (i <? 0); [discriminate |]. apply nth_error_In.
Qed.

(** An element satisfying the predicate bounds the index found. *)
Lemma findIndex_hit (p : A -> bool) l i (x : A) :
  Js.get l i = Some x -> p x = true -> 0 <= Js.findIndex p l <= i.
Proof.
  revert i. induction l as [| y rest IH]; intros i Hget Hx.
  - apply get_Some_range in Hget. unfold Js.length in Hget. simpl in Hget. lia.
  - pose proof (get_Some_range _ _ _ Hget) as Hrange.
    simpl. destruct (p y) eqn:Hy; [lia |]. cbv zeta.
    destruct (Z.eq_dec i 0) as [-> | Hne].
    + unfold Js.get in Hget. simpl in Hget. injection Hget as ->. congruence.
    + assert (Hrest : Js.get rest (i - 1) = Some x).
      { unfold Js.get in *.
        assert (H1 : (i <? 0) = false) by (apply Z.ltb_ge; lia).
        assert (H2 : (i - 1 <? 0) = false) by (apply Z.ltb_ge; lia).
        rewrite H1 in Hget. rewrite H2.
        replace (Z.to_nat i) with (S (Z.to_nat (i - 1))) in Hget by lia.
        exact Hget. }
      specialize (IH (i - 1) Hrest Hx).
      assert (Hr : (Js.findIndex p rest <? 0) = false) by (apply Z.ltb_ge; lia).
      rewrite Hr. lia.
Qed.

End JsFacts.

(** [indexOf] finds an index that holds the value looked for. *)
Lemma indexOf_found (arr : list string) (x : option string) (i : Z) :
  Js.indexOf arr x = i -> i <> -1 -> Js.get arr i = x.
Proof.
  unfold Js.indexOf. destruct x as [s |]; [| intros <- H; contradiction].
  intros Hi Hne.
  destruct (findIndex_range (String.eqb s) arr) as [H | H]; [congruence |].
  destruct (findIndex_found (String.eqb s) arr i Hi ltac:(lia)) as (y & Hy & Heq & _).
  apply String.eqb_eq in Heq. subst y. exact Hy.
Qed.

(** A value held by the array is found by [indexOf]. *)
Lemma indexOf_present (arr : list string) (s : string) :
  In s arr -> 0 <= Js.indexOf arr (Some s) < Js.length arr.
Proof.
  intros Hin. simpl.
  destruct (findIndex_range (String.eqb s) arr) as [H | H]; [| exact H].
  exfalso. induction arr as [| y rest IH]; simpl in *; [contradiction |].
  destruct (String.eqb s y) eqn:E; [discriminate |].
  destruct Hin as [-> | Hin]; [rewrite String.eqb_refl in E; discriminate |].
  destruct (Js.findIndex (String.eqb s) rest <? 0) eqn:Hr.
  - apply Z.ltb_lt in Hr.
    destruct (findIndex_range (String.eqb s) rest) as [H' | H']; [| lia].
    exact (IH Hin H').
  - apply Z.ltb_ge in Hr. lia.
Qed.

(** ** The history log: recording, undo and redo *)

(** The setters touch one field each. *)
Lemma recordNewState_history (c : AppState) (next : HistoryState) (s : AppState) :
  history (App.recordNewState c next s)
  = Js.slice (history c) 0 (historyIndex c + 1) ++ [next].
Proof. reflexivity. Qed.

Lemma recordNewState_historyIndex (c : AppState) (next : HistoryState) (s : AppState) :
  historyIndex (App.recordNewState c next s)
  = Js.length (Js.slice (history c) 0 (historyIndex c + 1) ++ [next]) - 1.
Proof. reflexivity. Qed.

Lemma recordNewState_frame (c : AppState) (next : HistoryState) (s : AppState) :
  wardrobe (App.recordNewState c next s) = wardrobe s
  /\ isLoading (App.recordNewState c next s) = isLoading s
  /\ error (App.recordNewState c next s) = error s
  /\ generatedModelUrl (App.recordNewState c next s) = generatedModelUrl s.
Proof. repeat split. Qed.

(** After a recording, the snapshot on screen is the recorded one,
    wherever the cursor was. *)
Lemma recordNewState_currentState (c : AppState) (next : HistoryState) (s : AppState) :
  App.currentState (App.recordNewState c next s) = Some next.
Proof.
  unfold App.currentState.
  rewrite recordNewState_history, recordNewState_historyIndex.
  apply get_last.
Qed.

(** C1: for every log and cursor, [recordNewState] keeps the snapshots at
    positions [0 .. cursor], drops the ones after the cursor, appends the
    new snapshot, and leaves the cursor on it, the new last index. *)
Theorem C1_recordNewState_truncates_and_appends
        (s : AppState) (next : HistoryState) :
  -1 <= historyIndex s ->
  history (App.recordNewState s next s)
  = firstn (Z.to_nat (historyIndex s + 1)) (history s) ++ [next]
  /\ historyIndex (App.recordNewState s next s)
     = Js.length (history (App.recordNewState s next s)) - 1
  /\ App.currentState (App.recordNewState s next s) = Some next.
Proof.
  intros Hcursor. split; [| split].
  - rewrite recordNewState_history, slice_prefix by lia. reflexivity.
  - reflexivity.
  - apply recordNewState_currentState.
Qed.

(** The instance of the specification: log [[s0, s1, s2]] at cursor 1,
    recording [s3], gives [[s0, s1, s3]] at cursor 2. *)
Lemma C1_witness :
  -1 <= historyIndex (Sample.showing [Sample.s0; Sample.s1; Sample.s2] 1)
  /\ history (App.recordNewState
                (Sample.showing [Sample.s0; Sample.s1; Sample.s2] 1) Sample.s3
                (Sample.showing [Sample.s0; Sample.s1; Sample.s2] 1))
     = [Sample.s0; Sample.s1; Sample.s3]
  /\ historyIndex (App.recordNewState
                     (Sample.showing [Sample.s0; Sample.s1; Sample.s2] 1) Sample.s3
                     (Sample.showing [Sample.s0; Sample.s1; Sample.s2] 1))
     = 2.
Proof.
  assert (H : -1 <= historyIndex (Sample.showing [Sample.s0; Sample.s1; Sample.s2] 1))
    by (simpl; lia).
  destruct (C1_recordNewState_truncates_and_appends
              (Sample.showing [Sample.s0; Sample.s1; Sample.s2] 1) Sample.s3 H)
    as (Hlog & Hcur & _).
  split; [exact H |]. split.
  - rewrite Hlog. reflexivity.
  - rewrite Hcur, Hlog. reflexivity.
Defined.

(** The same for any four snapshots. *)
Example recordNewState_after_undo (a b c d : HistoryState) :
  history (App.recordNewState (Sample.showing [a; b; c] 1) d (Sample.showing [a; b; c] 1))
  = [a; b; d]
  /\ historyIndex (App.recordNewState (Sample.showing [a; b; c] 1) d
                                      (Sample.showing [a; b; c] 1)) = 2.
Proof. split; reflexivity. Qed.

(** Undo and redo write the cursor and nothing else. *)
Lemma handleUndo_frame (c s : AppState) :
  history (App.handleUndo c s) = history s
  /\ wardrobe (App.handleUndo c s) = wardrobe s
  /\ isLoading (App.handleUndo c s) = isLoading s.
Proof. unfold App.handleUndo. destruct (App.canUndo c); repeat split. Qed.

Lemma handleRedo_frame (c s : AppState) :
  history (App.handleRedo c s) = history s
  /\ wardrobe (App.handleRedo c s) = wardrobe s
  /\ isLoading (App.handleRedo c s) = isLoading s.
Proof. unfold App.handleRedo. destruct (App.canRedo c); repeat split. Qed.

Lemma handleUndo_cursor (s : AppState) :
  0 < historyIndex s -> historyIndex (App.handleUndo s s) = historyIndex s - 1.
Proof.
  intros H. unfold App.handleUndo, App.canUndo.
  assert (E : (historyIndex s >? 0) = true) by (apply Z.gtb_lt; lia).
  rewrite E. reflexivity.
Qed.

Lemma handleUndo_floor (s : AppState) :
  historyIndex s <= 0 -> App.handleUndo s s = s.
Proof.
  intros H. unfold App.handleUndo, App.canUndo.
  destruct (historyIndex s >? 0) eqn:E; [| reflexivity].
  apply Z.gtb_lt in E. lia.
Qed.

Lemma handleRedo_cursor (s : AppState) :
  historyIndex s < Js.length (history s) - 1 ->
  historyIndex (App.handleRedo s s) = historyIndex s + 1.
Proof.
  intros H. unfold App.handleRedo, App.canRedo.
  assert (E : (historyIndex s <? Js.length (history s) - 1) = true)
    by (apply Z.ltb_lt; lia).
  rewrite E. reflexivity.
Qed.

Lemma setHistoryIndex_same (s : AppState) (i : Z) :
  i = historyIndex s -> setHistoryIndex i s = s.
Proof. intros ->. destruct s. reflexivity. Qed.

Lemma setHistoryIndex_twice (s : AppState) (i j : Z) :
  setHistoryIndex j (setHistoryIndex i s) = setHistoryIndex j s.
Proof. reflexivity. Qed.

(** Undo then redo, from a cursor above 0 and inside the log. *)
Lemma undo_then_redo (s : AppState) :
  0 < historyIndex s < Js.length (history s) ->
  App.handleRedo (App.handleUndo s s) (App.handleUndo s s) = s.
Proof.
  intros [Hlo Hhi]. unfold App.handleUndo, App.canUndo.
  assert (E : (historyIndex s >? 0) = true) by (apply Z.gtb_lt; lia).
  rewrite E. unfold App.handleRedo, App.canRedo. simpl.
  assert (E' : (historyIndex s - 1 <? Js.length (history s) - 1) = true)
    by (apply Z.ltb_lt; lia).
  rewrite E'. rewrite setHistoryIndex_twice.
  apply setHistoryIndex_same. lia.
Qed.

(** C9: from any cursor above 0, undo then redo gives back the very state
    that was shown, snapshot included; both only move the cursor, the log
    and every snapshot in it stay as they were. *)
Theorem C9_undo_then_redo_restores (s : AppState) :
  0 < historyIndex s < Js.length (history s) ->
  App.handleRedo (App.handleUndo s s) (App.handleUndo s s) = s
  /\ App.currentState (App.handleRedo (App.handleUndo s s) (App.handleUndo s s))
     = App.currentState s
  /\ history (App.handleUndo s s) = history s
  /\ history (App.handleRedo (App.handleUndo s s) (App.handleUndo s s)) = history s
  /\ historyIndex (App.handleUndo s s) = historyIndex s - 1.
Proof.
  intros [Hlo Hhi].
  pose proof (undo_then_redo s (conj Hlo Hhi)) as Hback.
  split; [exact Hback |]. split; [rewrite Hback; reflexivity |].
  split; [apply handleUndo_frame |]. split; [rewrite Hback; reflexivity |].
  apply handleUndo_cursor. exact Hlo.
Qed.

Lemma C9_witness :
  0 < historyIndex Sample.dressed < Js.length (history Sample.dressed)
  /\ App.handleRedo (App.handleUndo Sample.dressed Sample.dressed)
                    (App.handleUndo Sample.dressed Sample.dressed) = Sample.dressed.
Proof.
  assert (H : 0 < historyIndex Sample.dressed < Js.length (history Sample.dressed))
    by (vm_compute; split; reflexivity).
  split; [exact H |].
  exact (proj1 (C9_undo_then_redo_restores Sample.dressed H)).
Defined.

(** ** Garment selection *)

(** The snapshot on screen is read from the log and the cursor alone. *)
Lemma currentState_ext (s s' : AppState) :
  history s' = history s -> historyIndex s' = historyIndex s ->
  App.currentState s' = App.currentState s.
Proof. unfold App.currentState. intros -> ->. reflexivity. Qed.

Lemma clearLoading_frame (s : AppState) :
  history (App.clearLoading s) = history s
  /\ historyIndex (App.clearLoading s) = historyIndex s
  /\ wardrobe (App.clearLoading s) = wardrobe s
  /\ error (App.clearLoading s) = error s
  /\ isLoading (App.clearLoading s) = false.
Proof. repeat split. Qed.

(** A prefix taken by [slice(0, e)] is a [firstn], whatever [e] is. *)
Lemma slice_is_prefix {A} (l : list A) (e : Z) :
  exists k : nat, Js.slice l 0 e = firstn k l.
Proof.
  unfold Js.slice.
  assert (H0 : Js.rel_index (Js.length l) 0 = 0).
  { unfold Js.rel_index. change (0 <? 0) with false. cbv iota.
    pose proof (length_nonneg l). lia. }
  rewrite H0. simpl skipn. eexists. reflexivity.
Qed.

Lemma firstn_length_lt {A} (l : list A) (k : nat) (p : Z) :
  0 <= p < Js.length (firstn k l) -> (Z.to_nat p < k)%nat /\ p < Js.length l.
Proof. unfold Js.length. rewrite length_firstn. lia. Qed.

Section GarmentSelection.

Variable poseInstructions : list string.
Variable getFriendlyErrorMessage : Thrown -> string -> string.

Local Abbreviation select :=
  (App.handleGarmentSelect poseInstructions getFriendlyErrorMessage).

(** The layer a garment [G] makes in the pose on screen, from image [url]. *)
Local Abbreviation newLayer c G url :=
  (mkOutfitLayer (Some G)
     [(Js.propKey (Js.get poseInstructions (App.currentPoseIndex c)), url)]).

(** When the handler awaits the service, every guard has passed, the redo
    check has not fired, and a base image was found on the last layer of
    [baseHistorySlice]; what it queues before and after the call is then
    fixed. *)
Lemma handleGarmentSelect_awaits (c : AppState) (file : File) (G : WardrobeItem)
      (req : Request) :
  synthesisRequest (select c file G) = Some req ->
  exists cs baseLayer img,
    App.currentState c = Some cs
    /\ Js.truthy (generatedModelUrl c) = true
    /\ isLoading c = false
    /\ App.isGarmentRedo c G = false
    /\ Js.get (App.baseHistorySlice c G) (Js.length (App.baseHistorySlice c G) - 1)
       = Some baseLayer
    /\ Js.nullish
         (Obj.get (poseImages baseLayer)
                  (Js.propKey (Js.get poseInstructions (App.currentPoseIndex c))))
         (Js.get (Obj.values (poseImages baseLayer)) 0) = Some img
    /\ Js.truthy (Some img) = true
    /\ req = VirtualTryOn img file (category G)
    /\ (forall s, before (select c file G) s
                  = setLoadingMessage ("Adding " ++ name G ++ "...")%string
                      (setIsLoading true (setError None s)))
    /\ (forall url s,
           after (select c file G) (Resolved url) s
           = App.clearLoading
               (setWardrobe
                  (if Js.found (fun item => String.eqb (id item) (id G)) (wardrobe s)
                   then wardrobe s else wardrobe s ++ [G])
                  (App.recordNewState c
                     (mkHistoryState
                        (App.baseHistorySlice c G ++ [newLayer c G url])
                        (Js.length (App.baseHistorySlice c G ++ [newLayer c G url]) - 1)
                        (App.currentPoseIndex c)) s)))
    /\ (forall err s,
           after (select c file G) (Rejected err) s
           = App.clearLoading
               (setError (Some (getFriendlyErrorMessage err "Failed to apply garment")) s)).
Proof.
  unfold App.handleGarmentSelect.
  destruct (App.currentState c) as [cs |] eqn:Hcs; [| discriminate].
  destruct (Js.truthy (generatedModelUrl c)) eqn:Hurl; simpl negb; simpl orb;
    [| discriminate].
  destruct (isLoading c) eqn:Hload; [discriminate |].
  destruct (App.isGarmentRedo c G) eqn:Hredo; [discriminate |].
  cbv zeta.
  destruct (Js.get (App.baseHistorySlice c G) (Js.length (App.baseHistorySlice c G) - 1))
    as [baseLayer |] eqn:Hbase; [| discriminate].
  destruct (Js.nullish
              (Obj.get (poseImages baseLayer)
                       (Js.propKey (Js.get poseInstructions (App.currentPoseIndex c))))
              (Js.get (Obj.values (poseImages baseLayer)) 0)) as [img |] eqn:Himg;
    [| discriminate].
  destruct (Js.truthy (Some img)) eqn:Htruthy; [| discriminate].
  simpl. intros Hreq. injection Hreq as <-.
  exists cs, baseLayer, img. repeat split; try assumption; reflexivity.
Qed.

(** A failed call queues an error message and the end of the busy state;
    the log, the cursor and the wardrobe of the state it lands on are not
    written, whatever happened while the call was in flight. *)
Lemma failed_garment_apply_frame (c : AppState) (file : File) (G : WardrobeItem)
      (req : Request) (err : Thrown) (s : AppState) :
  synthesisRequest (select c file G) = Some req ->
  history (after (select c file G) (Rejected err) s) = history s
  /\ historyIndex (after (select c file G) (Rejected err) s) = historyIndex s
  /\ wardrobe (after (select c file G) (Rejected err) s) = wardrobe s.
Proof.
  intros Hreq.
  destruct (handleGarmentSelect_awaits c file G req Hreq)
    as (cs & baseLayer & img & _ & _ & _ & _ & _ & _ & _ & _ & _ & _ & Hrej).
  rewrite Hrej. repeat split.
Qed.

(** C2: when the synthesis call of a garment selection fails, no snapshot
    is recorded: the log, the cursor, the outfit history on screen and
    the wardrobe are what they were before the call, the error message
    is set for display, and the busy flag is cleared. *)
Theorem C2_failed_garment_apply_changes_nothing
        (c : AppState) (file : File) (G : WardrobeItem) (req : Request) (err : Thrown) :
  synthesisRequest (select c file G) = Some req ->
  history (settle (select c file G) (Rejected err) c) = history c
  /\ historyIndex (settle (select c file G) (Rejected err) c) = historyIndex c
  /\ App.outfitHistory (settle (select c file G) (Rejected err) c) = App.outfitHistory c
  /\ wardrobe (settle (select c file G) (Rejected err) c) = wardrobe c
  /\ error (settle (select c file G) (Rejected err) c)
     = Some (getFriendlyErrorMessage err "Failed to apply garment")
  /\ isLoading (settle (select c file G) (Rejected err) c) = false.
Proof.
  intros Hreq. unfold settle.
  destruct (handleGarmentSelect_awaits c file G req Hreq)
    as (cs & baseLayer & img & _ & _ & _ & _ & _ & _ & _ & _ & Hbefore & _ & Hrej).
  rewrite Hrej, Hbefore.
  assert (Hlog : history (App.clearLoading
                   (setError (Some (getFriendlyErrorMessage err "Failed to apply garment"))
                      (setLoadingMessage ("Adding " ++ name G ++ "...")%string
                         (setIsLoading true (setError None c))))) = history c)
    by reflexivity.
  assert (Hcur : historyIndex (App.clearLoading
                   (setError (Some (getFriendlyErrorMessage err "Failed to apply garment"))
                      (setLoadingMessage ("Adding " ++ name G ++ "...")%string
                         (setIsLoading true (setError None c))))) = historyIndex c)
    by reflexivity.
  split; [exact Hlog |]. split; [exact Hcur |]. split.
  - unfold App.outfitHistory. rewrite (currentState_ext _ _ Hlog Hcur). reflexivity.
  - repeat split.
Qed.

(** *** The snapshot a successful application records *)

Lemma applied_snapshot (c : AppState) (file : File) (G : WardrobeItem)
      (req : Request) (url : string) (s : AppState) :
  synthesisRequest (select c file G) = Some req ->
  App.currentState (after (select c file G) (Resolved url) s)
  = Some (mkHistoryState
            (App.baseHistorySlice c G ++ [newLayer c G url])
            (Js.length (App.baseHistorySlice c G ++ [newLayer c G url]) - 1)
            (App.currentPoseIndex c)).
Proof.
  intros Hreq.
  destruct (handleGarmentSelect_awaits c file G req Hreq)
    as (cs & baseLayer & img & _ & _ & _ & _ & _ & _ & _ & _ & _ & Hres & _).
  rewrite Hres.
  match goal with
  | |- App.currentState (App.clearLoading (setWardrobe ?w (App.recordNewState c ?h s))) = _ =>
      rewrite (currentState_ext (App.recordNewState c h s)
                 (App.clearLoading (setWardrobe w (App.recordNewState c h s)))
                 eq_refl eq_refl)
  end.
  apply recordNewState_currentState.
Qed.

(** The active stack after a successful application: the base slice and
    the new layer on top, with nothing kept beyond. *)
Lemma applied_stack (c : AppState) (file : File) (G : WardrobeItem)
      (req : Request) (url : string) (s : AppState) :
  synthesisRequest (select c file G) = Some req ->
  App.outfitHistory (after (select c file G) (Resolved url) s)
  = App.baseHistorySlice c G ++ [newLayer c G url]
  /\ App.currentOutfitIndex (after (select c file G) (Resolved url) s)
     = Js.length (App.baseHistorySlice c G)
  /\ App.activeOutfitLayers (after (select c file G) (Resolved url) s)
     = App.baseHistorySlice c G ++ [newLayer c G url].
Proof.
  intros Hreq. pose proof (applied_snapshot c file G req url s Hreq) as Hsnap.
  unfold App.activeOutfitLayers, App.outfitHistory, App.currentOutfitIndex.
  rewrite Hsnap. simpl outfitHistory. simpl currentOutfitIndex.
  rewrite length_snoc.
  split; [reflexivity |]. split; [lia |].
  rewrite slice_prefix by (pose proof (length_nonneg (App.baseHistorySlice c G)); lia).
  apply firstn_all2. unfold Js.length. rewrite length_app. simpl. lia.
Qed.

(** A same-category layer found at [p > 0]: the base slice is the first
    [p] layers, of the active stack as of the whole outfit history. *)
Lemma baseHistorySlice_replace (c : AppState) (G : WardrobeItem) (p : Z) :
  Js.findIndex (App.sameCategory G) (App.activeOutfitLayers c) = p ->
  0 < p ->
  App.baseHistorySlice c G = firstn (Z.to_nat p) (App.activeOutfitLayers c)
  /\ App.baseHistorySlice c G = firstn (Z.to_nat p) (App.outfitHistory c)
  /\ Js.length (App.baseHistorySlice c G) = p
  /\ p < Js.length (App.activeOutfitLayers c).
Proof.
  intros Hp Hpos. unfold App.baseHistorySlice.
  fold (App.activeOutfitLayers c). rewrite Hp.
  assert (E1 : (p =? -1) = false) by (apply Z.eqb_neq; lia).
  assert (E2 : (p >? 0) = true) by (apply Z.gtb_lt; lia).
  rewrite E1, E2. simpl andb. cbv iota.
  rewrite slice_prefix by lia.
  destruct (findIndex_range (App.sameCategory G) (App.activeOutfitLayers c)) as [H | H];
    [lia |].
  rewrite Hp in H.
  unfold App.activeOutfitLayers in *.
  destruct (slice_is_prefix (App.outfitHistory c) (App.currentOutfitIndex c + 1))
    as [k Hk].
  rewrite Hk in *.
  destruct (firstn_length_lt (App.outfitHistory c) k p H) as [Hpk Hlen].
  split; [| split; [reflexivity | split]].
  - rewrite firstn_firstn. f_equal. lia.
  - unfold Js.length in *. rewrite length_firstn. lia.
  - lia.
Qed.

(** No same-category layer, or one at position 0 only: the base slice is
    the active stack. *)
Lemma baseHistorySlice_append (c : AppState) (G : WardrobeItem) :
  Js.findIndex (App.sameCategory G) (App.activeOutfitLayers c) <= 0 ->
  App.baseHistorySlice c G = App.activeOutfitLayers c.
Proof.
  intros Hp. unfold App.baseHistorySlice. fold (App.activeOutfitLayers c).
  destruct (Js.findIndex (App.sameCategory G) (App.activeOutfitLayers c) >? 0) eqn:E.
  - apply Z.gtb_lt in E. lia.
  - rewrite andb_false_r. reflexivity.
Qed.

(** C3: when the scan of the active layers finds a layer of the new
    garment's category at position [p > 0] and the garment is applied
    (the redo check has not fired, the call is made and succeeds), the
    image is generated from the layer at [p - 1], and the active stack
    becomes the layers [0 .. p-1] followed by one new layer holding the
    garment; the layers at [p] and above are gone from the outfit
    history. *)
Theorem C3_replacement_keeps_layers_below_match
        (c : AppState) (file : File) (G : WardrobeItem) (req : Request)
        (p : Z) (url : string) :
  synthesisRequest (select c file G) = Some req ->
  Js.findIndex (App.sameCategory G) (App.activeOutfitLayers c) = p ->
  0 < p ->
  App.activeOutfitLayers (settle (select c file G) (Resolved url) c)
  = firstn (Z.to_nat p) (App.activeOutfitLayers c) ++ [newLayer c G url]
  /\ App.outfitHistory (settle (select c file G) (Resolved url) c)
     = firstn (Z.to_nat p) (App.activeOutfitLayers c) ++ [newLayer c G url]
  /\ App.currentOutfitIndex (settle (select c file G) (Resolved url) c) = p
  /\ exists baseLayer img,
       Js.get (App.activeOutfitLayers c) (p - 1) = Some baseLayer
       /\ Js.nullish
            (Obj.get (poseImages baseLayer)
                     (Js.propKey (Js.get poseInstructions (App.currentPoseIndex c))))
            (Js.get (Obj.values (poseImages baseLayer)) 0) = Some img
       /\ req = VirtualTryOn img file (category G).
Proof.
  intros Hreq Hp Hpos. unfold settle.
  destruct (applied_stack c file G req url (before (select c file G) c) Hreq)
    as (Hhist & Hidx & Hactive).
  destruct (baseHistorySlice_replace c G p Hp Hpos) as (Hbase & _ & Hlen & Hin).
  rewrite Hactive, Hhist, Hidx, Hlen, Hbase.
  split; [reflexivity |]. split; [reflexivity |]. split; [reflexivity |].
  destruct (handleGarmentSelect_awaits c file G req Hreq)
    as (cs & baseLayer & img & _ & _ & _ & _ & Hlayer & Himg & _ & Hr & _).
  exists baseLayer, img. split; [| split; [exact Himg | exact Hr]].
  rewrite Hlen, Hbase in Hlayer. rewrite <- Hlayer.
  symmetry. apply get_firstn. lia.
Qed.

(** C4, as the code has it: when the redo check fires, no call is made
    and no layer is dropped -- the snapshot recorded has the same outfit
    history, the active index one further and pose 0 -- but it is
    recorded like any other: the log is cut after the cursor and the
    snapshot appended, so the log ends at the new cursor. *)
Theorem C4_garment_redo_is_recorded_by_truncation
        (c : AppState) (file : File) (G : WardrobeItem) (cs : HistoryState) :
  App.currentState c = Some cs ->
  Js.truthy (generatedModelUrl c) = true ->
  isLoading c = false ->
  App.isGarmentRedo c G = true ->
  synthesisRequest (select c file G) = None
  /\ history (before (select c file G) c)
     = firstn (Z.to_nat (historyIndex c + 1)) (history c)
       ++ [mkHistoryState (outfitHistory cs) (currentOutfitIndex cs + 1) 0]
  /\ historyIndex (before (select c file G) c) = historyIndex c + 1
  /\ Js.length (history (before (select c file G) c)) = historyIndex c + 2.
Proof.
  intros Hcs Hurl Hload Hredo.
  pose proof (get_Some_range _ _ _ Hcs) as Hrange.
  assert (Hcoi : App.currentOutfitIndex c = currentOutfitIndex cs)
    by (unfold App.currentOutfitIndex; rewrite Hcs; reflexivity).
  unfold App.handleGarmentSelect. rewrite Hcs, Hurl, Hload, Hredo. simpl.
  rewrite slice_prefix by lia. rewrite Hcoi.
  split; [reflexivity |]. split; [reflexivity |].
  assert (Hlen : Js.length (firstn (Z.to_nat (historyIndex c + 1)) (history c))
                 = historyIndex c + 1).
  { unfold Js.length in *. rewrite length_firstn. lia. }
  rewrite length_snoc, Hlen. split; lia.
Qed.


End GarmentSelection.

(** The scenarios of the specification, on the pose list of the source. *)

Lemma C2_witness :
  synthesisRequest
    (App.handleGarmentSelect POSE_INSTRUCTIONS Sample.friendly
                             Sample.dressed Sample.teeFile Sample.shirtB)
  = Some (VirtualTryOn "model.png" Sample.teeFile shirt)
  /\ history (settle (App.handleGarmentSelect POSE_INSTRUCTIONS Sample.friendly
                                              Sample.dressed Sample.teeFile Sample.shirtB)
                     (Rejected (ServiceError "quota exceeded")) Sample.dressed)
     = history Sample.dressed.
Proof.
  assert (H : synthesisRequest
                (App.handleGarmentSelect POSE_INSTRUCTIONS Sample.friendly
                                         Sample.dressed Sample.teeFile Sample.shirtB)
              = Some (VirtualTryOn "model.png" Sample.teeFile shirt))
    by (vm_compute; reflexivity).
  split; [exact H |].
  exact (proj1 (C2_failed_garment_apply_changes_nothing
                  POSE_INSTRUCTIONS Sample.friendly Sample.dressed Sample.teeFile
                  Sample.shirtB _ (ServiceError "quota exceeded") H)).
Defined.

(** Active layers [[base, shirtA, pantsX]] and a new [shirtB]: the stack
    becomes [[base, shirtB]]. *)
Lemma C3_witness :
  synthesisRequest
    (App.handleGarmentSelect POSE_INSTRUCTIONS Sample.friendly
                             Sample.dressed Sample.teeFile Sample.shirtB)
  = Some (VirtualTryOn "model.png" Sample.teeFile shirt)
  /\ Js.findIndex (App.sameCategory Sample.shirtB) (App.activeOutfitLayers Sample.dressed) = 1
  /\ 0 < 1
  /\ App.activeOutfitLayers Sample.dressed = [Sample.base; Sample.layerA; Sample.layerX]
  /\ App.activeOutfitLayers
       (settle (App.handleGarmentSelect POSE_INSTRUCTIONS Sample.friendly
                                        Sample.dressed Sample.teeFile Sample.shirtB)
               (Resolved "b.png") Sample.dressed)
     = [Sample.base; mkOutfitLayer (Some Sample.shirtB) [(Sample.P0, "b.png")]].
Proof.
  assert (H : synthesisRequest
                (App.handleGarmentSelect POSE_INSTRUCTIONS Sample.friendly
                                         Sample.dressed Sample.teeFile Sample.shirtB)
              = Some (VirtualTryOn "model.png" Sample.teeFile shirt))
    by (vm_compute; reflexivity).
  assert (Hp : Js.findIndex (App.sameCategory Sample.shirtB)
                            (App.activeOutfitLayers Sample.dressed) = 1)
    by (vm_compute; reflexivity).
  assert (Hpos : 0 < 1) by lia.
  split; [exact H |]. split; [exact Hp |]. split; [exact Hpos |].
  split; [vm_compute; reflexivity |].
  rewrite (proj1 (C3_replacement_keeps_layers_below_match
                    POSE_INSTRUCTIONS Sample.friendly Sample.dressed Sample.teeFile
                    Sample.shirtB _ 1 "b.png" H Hp Hpos)).
  vm_compute. reflexivity.
Defined.

(** C4 as stated fails: in the state [undone] the redo check fires for
    the tee and the cursor is not at the last index, yet the snapshot
    ahead of the cursor is gone from the log afterwards. *)
Lemma C4_counterexample :
  App.isGarmentRedo Sample.undone Sample.tee = true
  /\ historyIndex Sample.undone < Js.length (history Sample.undone) - 1
  /\ In Sample.ahead (history Sample.undone)
  /\ ~ In Sample.ahead
       (history (before (App.handleGarmentSelect POSE_INSTRUCTIONS Sample.friendly
                                                 Sample.undone Sample.teeFile Sample.tee)
                        Sample.undone)).
Proof.
  split; [vm_compute; reflexivity |]. split; [vm_compute; reflexivity |]. split.
  - vm_compute. right. right. right. left. reflexivity.
  - vm_compute. intros [H | [H | [H | [H | []]]]]; discriminate H.
Qed.

Lemma C4_witness :
  App.currentState Sample.undone = Some Sample.removed
  /\ Js.truthy (generatedModelUrl Sample.undone) = true
  /\ isLoading Sample.undone = false
  /\ App.isGarmentRedo Sample.undone Sample.tee = true
  /\ Js.length (history (before (App.handleGarmentSelect POSE_INSTRUCTIONS Sample.friendly
                                   Sample.undone Sample.teeFile Sample.tee)
                                Sample.undone))
     = historyIndex Sample.undone + 2.
Proof.
  assert (H1 : App.currentState Sample.undone = Some Sample.removed)
    by (vm_compute; reflexivity).
  assert (H2 : Js.truthy (generatedModelUrl Sample.undone) = true)
    by (vm_compute; reflexivity).
  assert (H3 : isLoading Sample.undone = false) by (vm_compute; reflexivity).
  assert (H4 : App.isGarmentRedo Sample.undone Sample.tee = true)
    by (vm_compute; reflexivity).
  split; [exact H1 |]. split; [exact H2 |]. split; [exact H3 |]. split; [exact H4 |].
  exact (proj2 (proj2 (proj2 (C4_garment_redo_is_recorded_by_truncation
                                POSE_INSTRUCTIONS Sample.friendly Sample.undone
                                Sample.teeFile Sample.tee Sample.removed H1 H2 H3 H4)))).
Defined.



(** ** Pose images and pose selection *)

Lemma Obj_get_set_same (obj : PoseImages) (k v : string) :
  Obj.get (Obj.set obj k v) k = Some v.
Proof.
  induction obj as [| [k' w] rest IH]; simpl.
  - rewrite String.eqb_refl. reflexivity.
  - destruct (String.eqb k' k) eqn:E; simpl; rewrite E; [reflexivity | exact IH].
Qed.

Lemma Obj_get_set_other (obj : PoseImages) (k k' v : string) :
  k' <> k -> Obj.get (Obj.set obj k v) k' = Obj.get obj k'.
Proof.
  intros Hne. induction obj as [| [k0 w] rest IH]; simpl.
  - destruct (String.eqb k k') eqn:E; [| reflexivity].
    apply String.eqb_eq in E. congruence.
  - destruct (String.eqb k0 k) eqn:E; simpl.
    + apply String.eqb_eq in E. subst k0.
      destruct (String.eqb k k') eqn:E'; [| reflexivity].
      apply String.eqb_eq in E'. congruence.
    + rewrite IH. reflexivity.
Qed.

(** A key of the object reads a value of the object. *)
Lemma Obj_get_key (obj : PoseImages) (k : string) :
  In k (Obj.keys obj) -> exists v, Obj.get obj k = Some v /\ In v (Obj.values obj).
Proof.
  induction obj as [| [k' w] rest IH]; simpl; [contradiction |].
  intros Hin. destruct (String.eqb k' k) eqn:E.
  - exists w. split; [reflexivity | left; reflexivity].
  - destruct Hin as [-> | Hin]; [rewrite String.eqb_refl in E; discriminate |].
    destruct (IH Hin) as (v & Hv & Hvin). exists v. split; [exact Hv | right; exact Hvin].
Qed.

Lemma Obj_get_value (obj : PoseImages) (k v : string) :
  Obj.get obj k = Some v -> In v (Obj.values obj) /\ In k (Obj.keys obj).
Proof.
  induction obj as [| [k' w] rest IH]; simpl; [discriminate |].
  destruct (String.eqb k' k) eqn:E.
  - intros H. injection H as ->. apply String.eqb_eq in E.
    split; left; [reflexivity | exact E].
  - intros H. destruct (IH H). split; right; assumption.
Qed.

(** A string is truthy when it is not empty. *)
Lemma truthy_nonempty (v : string) : v <> "" -> Js.truthy (Some v) = true.
Proof.
  intros H. simpl. destruct (String.eqb v "") eqn:E; [| reflexivity].
  apply String.eqb_eq in E. contradiction.
Qed.

Lemma truthy_false_nonempty (o : option string) :
  Js.truthy o = false -> (forall v, o = Some v -> v <> "") -> o = None.
Proof.
  destruct o as [v |]; [| reflexivity].
  intros Hf Hne. rewrite (truthy_nonempty v (Hne v eq_refl)) in Hf. discriminate.
Qed.

(** [map] with the index reads as the function at that index. *)
Lemma get_mapi {A B} (f : A -> Z -> B) (l : list A) (i : Z) :
  Js.get (Js.mapi f l) i = option_map (fun x => f x i) (Js.get l i).
Proof.
  unfold Js.get. destruct (i <? 0) eqn:Hneg; [reflexivity |].
  apply Z.ltb_ge in Hneg. unfold Js.mapi.
  assert (Hgen : forall (n : nat) (o : Z),
             nth_error (Js.mapi_from f o l) n
             = option_map (fun x => f x (o + Z.of_nat n)) (nth_error l n)).
  { clear. induction l as [| x rest IH]; intros n o.
    - destruct n; reflexivity.
    - destruct n as [| n]; simpl.
      + rewrite Z.add_0_r. reflexivity.
      + rewrite IH. destruct (nth_error rest n); [| reflexivity].
        simpl. do 2 f_equal. lia. }
  rewrite Hgen. replace (0 + Z.of_nat (Z.to_nat i)) with i by lia. reflexivity.
Qed.

Lemma length_mapi {A B} (f : A -> Z -> B) (l : list A) :
  Js.length (Js.mapi f l) = Js.length l.
Proof.
  unfold Js.length, Js.mapi. f_equal. generalize 0.
  induction l as [| x rest IH]; intros o; simpl; [reflexivity |].
  rewrite IH. reflexivity.
Qed.

Section PoseSelection.

Variable poseInstructions : list string.
Variable getFriendlyErrorMessage : Thrown -> string -> string.

Local Abbreviation poseSelect :=
  (App.handlePoseSelect poseInstructions getFriendlyErrorMessage).

(** When the handler awaits the service: the guards have passed, the
    layer on screen has no usable image under the label asked for, and
    its first image is the base of the request. *)
Lemma handlePoseSelect_awaits (c : AppState) (newIndex : Z) (req : Request) :
  synthesisRequest (poseSelect c newIndex) = Some req ->
  exists cs currentLayer baseImage,
    App.currentState c = Some cs
    /\ isLoading c = false
    /\ newIndex <> App.currentPoseIndex c
    /\ Js.get (App.outfitHistory c) (App.currentOutfitIndex c) = Some currentLayer
    /\ Js.truthy (Obj.get (poseImages currentLayer)
                          (Js.propKey (Js.get poseInstructions newIndex))) = false
    /\ Js.get (Obj.values (poseImages currentLayer)) 0 = Some baseImage
    /\ req = PoseVariation baseImage (Js.get poseInstructions newIndex)
    /\ (forall s, before (poseSelect c newIndex) s
                  = setLoadingMessage "Changing pose..."
                      (setIsLoading true (setError None s)))
    /\ (forall url s,
           after (poseSelect c newIndex) (Resolved url) s
           = App.clearLoading
               (App.recordNewState c
                  (withCurrentPoseIndex newIndex
                     (withOutfitHistory
                        (Js.mapi
                           (fun layer index =>
                              if index =? App.currentOutfitIndex c then
                                withPoseImages
                                  (Obj.set (poseImages layer)
                                           (Js.propKey (Js.get poseInstructions newIndex))
                                           url)
                                  layer
                              else layer)
                           (App.outfitHistory c))
                        cs)) s))
    /\ (forall err s,
           after (poseSelect c newIndex) (Rejected err) s
           = App.clearLoading
               (setError (Some (getFriendlyErrorMessage err "Failed to change pose")) s)).
Proof.
  unfold App.handlePoseSelect.
  destruct (App.currentState c) as [cs |] eqn:Hcs; [| discriminate].
  destruct (isLoading c) eqn:Hload; [discriminate |]. simpl orb.
  destruct (Js.length (App.outfitHistory c) =? 0) eqn:Hlen; [discriminate |]. simpl orb.
  destruct (newIndex =? App.currentPoseIndex c) eqn:Hidx; [discriminate |].
  apply Z.eqb_neq in Hidx. cbv zeta.
  destruct (Js.get (App.outfitHistory c) (App.currentOutfitIndex c))
    as [currentLayer |] eqn:Hlayer; [| discriminate].
  destruct (Js.truthy (Obj.get (poseImages currentLayer)
                               (Js.propKey (Js.get poseInstructions newIndex))))
    eqn:Hcached; [discriminate |].
  destruct (Js.get (Obj.values (poseImages currentLayer)) 0)
    as [baseImage |] eqn:Hbase; [| discriminate].
  destruct (Js.truthy (Some baseImage)) eqn:Htruthy; [| discriminate].
  simpl. intros Hreq. injection Hreq as <-.
  exists cs, currentLayer, baseImage. repeat split; try assumption; reflexivity.
Qed.

(** Whether a pose selection calls the service, and with what, is read
    from the snapshot on screen and the busy flag alone. *)
Lemma handlePoseSelect_request_ext (c c' : AppState) (newIndex : Z) :
  App.currentState c' = App.currentState c ->
  isLoading c' = isLoading c ->
  synthesisRequest (poseSelect c' newIndex) = synthesisRequest (poseSelect c newIndex).
Proof.
  intros Hcs Hload.
  unfold App.handlePoseSelect, App.outfitHistory, App.currentOutfitIndex,
    App.currentPoseIndex.
  rewrite Hcs, Hload.
  destruct (App.currentState c) as [cs |]; [| reflexivity].
  destruct (isLoading c || (Js.length (outfitHistory cs) =? 0)
            || (newIndex =? currentPoseIndex cs)); [reflexivity |].
  cbv zeta.
  destruct (Js.get (outfitHistory cs) (currentOutfitIndex cs)) as [layer |];
    [| reflexivity].
  destruct (Js.truthy (Obj.get (poseImages layer)
                               (Js.propKey (Js.get poseInstructions newIndex))));
    [reflexivity |].
  destruct (Js.get (Obj.values (poseImages layer)) 0) as [img |]; [| reflexivity].
  destruct (Js.truthy (Some img)); reflexivity.
Qed.

(** A label with a usable image in the layer on screen is selected
    without a call. *)
Lemma handlePoseSelect_cached (c : AppState) (newIndex : Z) (layer : OutfitLayer) :
  Js.get (App.outfitHistory c) (App.currentOutfitIndex c) = Some layer ->
  Js.truthy (Obj.get (poseImages layer)
                     (Js.propKey (Js.get poseInstructions newIndex))) = true ->
  synthesisRequest (poseSelect c newIndex) = None.
Proof.
  intros Hlayer Hcached. unfold App.handlePoseSelect.
  destruct (App.currentState c) as [cs |]; [| reflexivity].
  destruct (isLoading c || (Js.length (App.outfitHistory c) =? 0)
            || (newIndex =? App.currentPoseIndex c)); [reflexivity |].
  cbv zeta. rewrite Hlayer, Hcached. reflexivity.
Qed.

(** *** The arrows *)

(** With the pose on screen among the generated ones, "previous" selects
    a master index whose label is among the generated ones too. *)
Lemma handlePreviousPose_stays_generated
      (loading : bool) (currentIndex : Z) (available : list string)
      (label : string) (i : Z) :
  Js.get poseInstructions currentIndex = Some label ->
  In label available ->
  Canvas.handlePreviousPose loading poseInstructions currentIndex available = Some i ->
  exists l, Js.get poseInstructions i = Some l /\ In l available.
Proof.
  intros Hlabel Hin. unfold Canvas.handlePreviousPose.
  destruct (loading || (Js.length available <=? 1)) eqn:Hguard; [discriminate |].
  apply orb_false_iff in Hguard. destruct Hguard as [_ Hlen].
  apply Z.leb_gt in Hlen. rewrite Hlabel.
  pose proof (indexOf_present available label Hin) as Hci.
  destruct (Js.indexOf available (Some label) =? -1) eqn:E;
    [apply Z.eqb_eq in E; lia |].
  set (prev := Js.rem (Js.indexOf available (Some label) - 1 + Js.length available)
                      (Js.length available)).
  assert (Hprev : 0 <= prev < Js.length available)
    by (apply Z.rem_bound_pos; lia).
  destruct (get_in_range available prev Hprev) as [l Hl]. rewrite Hl.
  destruct (Js.indexOf poseInstructions (Some l) =? -1) eqn:E'; [discriminate |].
  apply Z.eqb_neq in E'. simpl negb. cbv iota. intros H. injection H as <-.
  exists l. split; [apply indexOf_found; [reflexivity | exact E'] |].
  exact (get_In _ _ _ Hl).
Qed.

(** At the end of the generated poses, "next" selects the master index
    after the one on screen, generated or not. *)
Lemma handleNextPose_at_end
      (currentIndex : Z) (available : list string) (label : string) :
  Js.get poseInstructions currentIndex = Some label ->
  Js.indexOf available (Some label) = Js.length available - 1 ->
  Canvas.handleNextPose false poseInstructions currentIndex available
  = Some (Js.rem (currentIndex + 1) (Js.length poseInstructions)).
Proof.
  intros Hlabel Hlast. unfold Canvas.handleNextPose. rewrite Hlabel, Hlast.
  destruct ((Js.length available - 1 =? -1) || (Js.length available =? 0));
    [reflexivity |].
  assert (E : (Js.length available - 1 + 1 <? Js.length available) = false)
    by (apply Z.ltb_ge; lia).
  rewrite E. reflexivity.
Qed.

(** Where "previous" does stay inside the generated poses: when the pose
    on screen is among the poses generated for the layer on screen (and
    no stored image is the empty string), it selects a master index whose
    label is in that layer's cache, and the pose selection that follows
    makes no call. *)
Lemma previous_makes_no_call_when_current_pose_is_cached
        (c : AppState) (label : string) :
  Js.get poseInstructions (App.currentPoseIndex c) = Some label ->
  In label (App.availablePoseKeys c) ->
  (forall layer v,
      Js.get (App.outfitHistory c) (App.currentOutfitIndex c) = Some layer ->
      In v (Obj.values (poseImages layer)) -> v <> "") ->
  synthesisRequest (App.previousPose poseInstructions getFriendlyErrorMessage c) = None
  /\ forall i,
       Canvas.handlePreviousPose (isLoading c) poseInstructions
                                 (App.currentPoseIndex c) (App.availablePoseKeys c)
       = Some i ->
       exists l, Js.get poseInstructions i = Some l /\ In l (App.availablePoseKeys c).
Proof.
  intros Hlabel Hin Himages.
  assert (Hsel : forall i,
             Canvas.handlePreviousPose (isLoading c) poseInstructions
                                       (App.currentPoseIndex c) (App.availablePoseKeys c)
             = Some i ->
             exists l, Js.get poseInstructions i = Some l
                       /\ In l (App.availablePoseKeys c))
    by (intros i; apply (handlePreviousPose_stays_generated _ _ _ label); assumption).
  split; [| exact Hsel].
  unfold App.previousPose.
  destruct (Canvas.handlePreviousPose (isLoading c) poseInstructions
                                      (App.currentPoseIndex c) (App.availablePoseKeys c))
    as [i |] eqn:Hprev; [| reflexivity].
  destruct (Hsel i eq_refl) as (l & Hl & Hlin). simpl.
  unfold App.availablePoseKeys in Hlin.
  destruct (Js.length (App.outfitHistory c) =? 0); [contradiction |].
  destruct (Js.get (App.outfitHistory c) (App.currentOutfitIndex c))
    as [layer |] eqn:Hlayer; [| contradiction].
  destruct (Obj_get_key _ _ Hlin) as (v & Hv & Hvin).
  apply (handlePoseSelect_cached c i layer Hlayer).
  rewrite Hl. simpl Js.propKey. rewrite Hv.
  apply truthy_nonempty. exact (Himages layer v eq_refl Hvin).
Qed.

End PoseSelection.

(** C6, as the code has it: with master list [[A, B, C, D]] and a layer
    that has [A] then [C] generated, shown at [A], "next" moves to [C]
    without a call; a further "next" selects [D], the master-list entry
    after [C], and calls the service for it.  [B] is not selected. *)
Theorem C6_next_after_generated_poses_takes_master_successor
        (getFriendlyErrorMessage : Thrown -> string -> string)
        (A B C D imgA imgC : string) :
  NoDup [A; B; C; D] ->
  imgA <> "" ->
  imgC <> "" ->
  synthesisRequest
    (App.nextPose [A; B; C; D] getFriendlyErrorMessage
                  (Sample.showing [Sample.posed A C imgA imgC 0] 0)) = None
  /\ before (App.nextPose [A; B; C; D] getFriendlyErrorMessage
                          (Sample.showing [Sample.posed A C imgA imgC 0] 0))
            (Sample.showing [Sample.posed A C imgA imgC 0] 0)
     = Sample.showing [Sample.posed A C imgA imgC 0; Sample.posed A C imgA imgC 2] 1
  /\ Canvas.handleNextPose false [A; B; C; D] 2 [A; C] = Some 3
  /\ synthesisRequest
       (App.nextPose [A; B; C; D] getFriendlyErrorMessage
          (Sample.showing [Sample.posed A C imgA imgC 0; Sample.posed A C imgA imgC 2] 1))
     = Some (PoseVariation imgA (Some D)).
Proof.
  intros Hdistinct HimgA HimgC.
  assert (HCA : String.eqb C A = false).
  { apply String.eqb_neq. intros ->. inversion Hdistinct as [| ? ? Hn _]. apply Hn.
    simpl. auto. }
  assert (HCB : String.eqb C B = false).
  { apply String.eqb_neq. intros ->.
    inversion Hdistinct as [| ? ? _ Hrest]. inversion Hrest as [| ? ? Hn _]. apply Hn.
    simpl. auto. }
  assert (HAC : String.eqb A C = false)
    by (rewrite String.eqb_sym; exact HCA).
  assert (HAD : String.eqb A D = false).
  { apply String.eqb_neq. intros ->. inversion Hdistinct as [| ? ? Hn _]. apply Hn.
    simpl. auto. }
  assert (HCD : String.eqb C D = false).
  { apply String.eqb_neq. intros ->.
    inversion Hdistinct as [| ? ? _ Hrest]. inversion Hrest as [| ? ? _ Hrest'].
    inversion Hrest' as [| ? ? Hn _]. apply Hn. simpl. auto. }
  assert (TA : negb (String.eqb imgA "") = true)
    by (apply (truthy_nonempty imgA HimgA)).
  assert (TC : negb (String.eqb imgC "") = true)
    by (apply (truthy_nonempty imgC HimgC)).
  assert (Hfirst : Canvas.handleNextPose false [A; B; C; D] 0 [A; C] = Some 2).
  { unfold Canvas.handleNextPose. simpl.
    rewrite !String.eqb_refl. simpl. rewrite HCA, HCB, String.eqb_refl. reflexivity. }
  assert (Hsecond : Canvas.handleNextPose false [A; B; C; D] 2 [A; C] = Some 3).
  { unfold Canvas.handleNextPose. simpl.
    rewrite HCA, String.eqb_refl. reflexivity. }
  split; [| split; [| split; [exact Hsecond |]]].
  - unfold App.nextPose. change (App.availablePoseKeys _) with [A; C].
    change (App.currentPoseIndex _) with 0. change (isLoading _) with false.
    rewrite Hfirst. unfold App.onSelectPose, App.handlePoseSelect. simpl.
    rewrite HAC, String.eqb_refl. simpl. rewrite TC. reflexivity.
  - unfold App.nextPose. change (App.availablePoseKeys _) with [A; C].
    change (App.currentPoseIndex _) with 0. change (isLoading _) with false.
    rewrite Hfirst. unfold App.onSelectPose, App.handlePoseSelect. simpl.
    rewrite HAC, String.eqb_refl. simpl. rewrite TC. reflexivity.
  - unfold App.nextPose. change (App.availablePoseKeys _) with [A; C].
    change (App.currentPoseIndex _) with 2. change (isLoading _) with false.
    rewrite Hsecond. unfold App.onSelectPose, App.handlePoseSelect. simpl.
    rewrite HAD, HCD. simpl. rewrite TA. reflexivity.
Qed.

Lemma C6_witness :
  NoDup ["A"; "B"; "C"; "D"]
  /\ "a.png" <> ""
  /\ "c.png" <> ""
  /\ synthesisRequest (App.nextPose Sample.ABCD Sample.friendly Sample.atC)
     = Some (PoseVariation "a.png" (Some "D")).
Proof.
  assert (H1 : NoDup ["A"; "B"; "C"; "D"]).
  { repeat constructor; simpl; intros H;
      repeat (destruct H as [H | H]; [discriminate H |]); exact H. }
  assert (H2 : "a.png" <> "") by discriminate.
  assert (H3 : "c.png" <> "") by discriminate.
  split; [exact H1 |]. split; [exact H2 |]. split; [exact H3 |].
  exact (proj2 (proj2 (proj2
           (C6_next_after_generated_poses_takes_master_successor
              Sample.friendly "A" "B" "C" "D" "a.png" "c.png" H1 H2 H3)))).
Defined.

(** C6 as stated fails: at [C], with [A] and [C] generated, "next"
    selects master index 3, which is [D], and not index 1, which is [B];
    the call made is for [D]. *)
Lemma C6_counterexample :
  App.availablePoseKeys Sample.atA = ["A"; "C"]
  /\ Canvas.handleNextPose false Sample.ABCD 0 ["A"; "C"] = Some 2
  /\ before (App.nextPose Sample.ABCD Sample.friendly Sample.atA) Sample.atA = Sample.atC
  /\ Canvas.handleNextPose false Sample.ABCD 2 ["A"; "C"] = Some 3
  /\ Canvas.handleNextPose false Sample.ABCD 2 ["A"; "C"] <> Some 1
  /\ Js.get Sample.ABCD 3 = Some "D"
  /\ Js.get Sample.ABCD 1 = Some "B"
  /\ synthesisRequest (App.nextPose Sample.ABCD Sample.friendly Sample.atC)
     <> Some (PoseVariation "a.png" (Some "B")).
Proof.
  conjuncts; try evaluate; vm_compute; intros H; discriminate H.
Qed.

Section PoseCache.

Variable poseInstructions : list string.
Variable getFriendlyErrorMessage : Thrown -> string -> string.

Local Abbreviation poseSelect :=
  (App.handlePoseSelect poseInstructions getFriendlyErrorMessage).

(** The snapshot recorded when the generated image arrives: the one on
    screen with the pose index moved and, in the layer on screen, the
    image added under the pose's label. *)
Local Abbreviation generated c cs newIndex url :=
  (withCurrentPoseIndex newIndex
     (withOutfitHistory
        (Js.mapi
           (fun layer index =>
              if index =? App.currentOutfitIndex c then
                withPoseImages
                  (Obj.set (poseImages layer)
                           (Js.propKey (Js.get poseInstructions newIndex)) url)
                  layer
              else layer)
           (App.outfitHistory c))
        cs)).

(** The state after a pose has been generated, nothing having happened
    in between. *)
Lemma generated_pose_state (c : AppState) (newIndex : Z) (req : Request) (url : string)
      (cs : HistoryState) :
  synthesisRequest (poseSelect c newIndex) = Some req ->
  App.currentState c = Some cs ->
  history (settle (poseSelect c newIndex) (Resolved url) c)
  = firstn (Z.to_nat (historyIndex c + 1)) (history c) ++ [generated c cs newIndex url]
  /\ historyIndex (settle (poseSelect c newIndex) (Resolved url) c) = historyIndex c + 1
  /\ isLoading (settle (poseSelect c newIndex) (Resolved url) c) = false.
Proof.
  intros Hreq Hcs.
  destruct (handlePoseSelect_awaits poseInstructions getFriendlyErrorMessage
              c newIndex req Hreq)
    as (cs' & layer & img & Hcs' & _ & _ & _ & _ & _ & _ & Hbefore & Hres & _).
  rewrite Hcs in Hcs'. injection Hcs' as <-.
  pose proof (get_Some_range _ _ _ Hcs) as Hrange.
  unfold settle. rewrite Hres, Hbefore.
  split; [| split; [| reflexivity]].
  - change (history (App.clearLoading (App.recordNewState c ?h ?s)))
      with (history (App.recordNewState c h s)).
    rewrite recordNewState_history, slice_prefix by lia. reflexivity.
  - change (historyIndex (App.clearLoading (App.recordNewState c ?h ?s)))
      with (historyIndex (App.recordNewState c h s)).
    rewrite recordNewState_historyIndex, slice_prefix by lia.
    rewrite length_snoc. unfold Js.length in *. rewrite length_firstn. lia.
Qed.

(** C10: a generated pose image goes into the layer of the snapshot
    recorded for it and nowhere else.  The snapshots up to the old cursor
    are as they were; the layer on screen in the new snapshot has the
    image under the pose's label; after an undo the old snapshot is on
    screen again, its layer has no image under that label, and selecting
    the same pose calls the service again, with the same request. *)
Theorem C10_generated_pose_is_cached_in_new_snapshot_only
        (c : AppState) (newIndex : Z) (req : Request) (url : string) :
  synthesisRequest (poseSelect c newIndex) = Some req ->
  firstn (Z.to_nat (historyIndex c + 1))
         (history (settle (poseSelect c newIndex) (Resolved url) c))
  = firstn (Z.to_nat (historyIndex c + 1)) (history c)
  /\ (exists fresh,
         Js.get (App.outfitHistory (settle (poseSelect c newIndex) (Resolved url) c))
                (App.currentOutfitIndex (settle (poseSelect c newIndex) (Resolved url) c))
         = Some fresh
         /\ Obj.get (poseImages fresh) (Js.propKey (Js.get poseInstructions newIndex))
            = Some url)
  /\ App.currentState
       (App.handleUndo (settle (poseSelect c newIndex) (Resolved url) c)
                       (settle (poseSelect c newIndex) (Resolved url) c))
     = App.currentState c
  /\ (exists layer,
         Js.get (App.outfitHistory
                   (App.handleUndo (settle (poseSelect c newIndex) (Resolved url) c)
                                   (settle (poseSelect c newIndex) (Resolved url) c)))
                (App.currentOutfitIndex
                   (App.handleUndo (settle (poseSelect c newIndex) (Resolved url) c)
                                   (settle (poseSelect c newIndex) (Resolved url) c)))
         = Some layer
         /\ Js.truthy (Obj.get (poseImages layer)
                               (Js.propKey (Js.get poseInstructions newIndex))) = false
         /\ ((forall v, In v (Obj.values (poseImages layer)) -> v <> "") ->
             Obj.get (poseImages layer) (Js.propKey (Js.get poseInstructions newIndex))
             = None))
  /\ synthesisRequest
       (poseSelect
          (App.handleUndo (settle (poseSelect c newIndex) (Resolved url) c)
                          (settle (poseSelect c newIndex) (Resolved url) c))
          newIndex)
     = Some req.
Proof.
  intros Hreq.
  destruct (handlePoseSelect_awaits poseInstructions getFriendlyErrorMessage
              c newIndex req Hreq)
    as (cs & layer & img & Hcs & Hload & _ & Hlayer & Hcached & _ & _ & _ & _ & _).
  destruct (generated_pose_state c newIndex req url cs Hreq Hcs)
    as (Hlog & Hcur & Hidle).
  pose proof (get_Some_range _ _ _ Hcs) as Hrange.
  set (s1 := settle (poseSelect c newIndex) (Resolved url) c) in *.
  assert (Hlen : List.length (firstn (Z.to_nat (historyIndex c + 1)) (history c))
                 = Z.to_nat (historyIndex c + 1)).
  { rewrite length_firstn. unfold Js.length in Hrange. lia. }
  (* the new snapshot is on screen in [s1] *)
  assert (Hs1 : App.currentState s1 = Some (generated c cs newIndex url)).
  { unfold App.currentState. rewrite Hlog, Hcur.
    replace (historyIndex c + 1)
      with (Js.length (firstn (Z.to_nat (historyIndex c + 1)) (history c)
                       ++ [generated c cs newIndex url]) - 1)
      at 2.
    - apply get_last.
    - rewrite length_snoc. unfold Js.length. rewrite Hlen. lia. }
  (* the old snapshot is on screen again after the undo *)
  assert (Hundo : App.currentState (App.handleUndo s1 s1) = App.currentState c).
  { unfold App.handleUndo, App.canUndo. rewrite Hcur.
    assert (E : (historyIndex c + 1 >? 0) = true) by (apply Z.gtb_lt; lia).
    rewrite E. unfold App.currentState at 1. simpl history. simpl historyIndex.
    rewrite Hlog.
    replace (historyIndex c + 1 - 1) with (historyIndex c) by lia.
    rewrite get_app_l by (unfold Js.length; rewrite Hlen; lia).
    rewrite get_firstn by lia. reflexivity. }
  assert (Hidle' : isLoading (App.handleUndo s1 s1) = isLoading c).
  { destruct (handleUndo_frame s1 s1) as (_ & _ & ->). rewrite Hidle, Hload.
    reflexivity. }
  split; [| split; [| split; [exact Hundo | split]]].
  - rewrite Hlog, firstn_app, Hlen, Nat.sub_diag. simpl firstn at 2.
    rewrite app_nil_r, firstn_firstn, Nat.min_id. reflexivity.
  - unfold App.outfitHistory, App.currentOutfitIndex. rewrite Hs1.
    simpl outfitHistory. simpl currentOutfitIndex.
    assert (Hcoi : currentOutfitIndex cs = App.currentOutfitIndex c)
      by (unfold App.currentOutfitIndex; rewrite Hcs; reflexivity).
    rewrite Hcoi, get_mapi, Hlayer. simpl option_map.
    rewrite Z.eqb_refl. eexists. split; [reflexivity |].
    simpl poseImages. apply Obj_get_set_same.
  - exists layer.
    unfold App.outfitHistory, App.currentOutfitIndex in *. rewrite Hundo.
    split; [exact Hlayer |]. split; [exact Hcached |].
    intros Hnonempty. apply (truthy_false_nonempty _ Hcached).
    intros v Hv. apply Hnonempty. exact (proj1 (Obj_get_value _ _ _ Hv)).
  - rewrite (handlePoseSelect_request_ext poseInstructions getFriendlyErrorMessage
               c (App.handleUndo s1 s1) newIndex Hundo Hidle').
    exact Hreq.
Qed.

End PoseCache.

Lemma C10_witness :
  synthesisRequest
    (App.handlePoseSelect POSE_INSTRUCTIONS Sample.friendly Sample.wearingA 1)
  = Some (PoseVariation "a.png" (Some "Slightly turned, 3/4 view"))
  /\ synthesisRequest
       (App.handlePoseSelect POSE_INSTRUCTIONS Sample.friendly
          (App.handleUndo
             (settle (App.handlePoseSelect POSE_INSTRUCTIONS Sample.friendly
                                           Sample.wearingA 1)
                     (Resolved "a-1.png") Sample.wearingA)
             (settle (App.handlePoseSelect POSE_INSTRUCTIONS Sample.friendly
                                           Sample.wearingA 1)
                     (Resolved "a-1.png") Sample.wearingA))
          1)
     = Some (PoseVariation "a.png" (Some "Slightly turned, 3/4 view")).
Proof.
  assert (H : synthesisRequest
                (App.handlePoseSelect POSE_INSTRUCTIONS Sample.friendly Sample.wearingA 1)
              = Some (PoseVariation "a.png" (Some "Slightly turned, 3/4 view")))
    by (vm_compute; reflexivity).
  split; [exact H |].
  exact (proj2 (proj2 (proj2 (proj2
           (C10_generated_pose_is_cached_in_new_snapshot_only
              POSE_INSTRUCTIONS Sample.friendly Sample.wearingA 1 _ "a-1.png" H))))).
Defined.

Lemma previous_makes_no_call_when_current_pose_is_cached_witness :
  Js.get Sample.ABCD (App.currentPoseIndex Sample.atC) = Some "C"
  /\ In "C" (App.availablePoseKeys Sample.atC)
  /\ synthesisRequest (App.previousPose Sample.ABCD Sample.friendly Sample.atC) = None.
Proof.
  assert (H1 : Js.get Sample.ABCD (App.currentPoseIndex Sample.atC) = Some "C")
    by (vm_compute; reflexivity).
  assert (H2 : In "C" (App.availablePoseKeys Sample.atC))
    by (vm_compute; right; left; reflexivity).
  assert (H3 : forall layer v,
             Js.get (App.outfitHistory Sample.atC) (App.currentOutfitIndex Sample.atC)
             = Some layer ->
             In v (Obj.values (poseImages layer)) -> v <> "").
  { intros layer v Hlayer Hin. vm_compute in Hlayer. injection Hlayer as <-.
    simpl in Hin. destruct Hin as [<- | [<- | []]]; discriminate. }
  split; [exact H1 |]. split; [exact H2 |].
  exact (proj1 (previous_makes_no_call_when_current_pose_is_cached
                  Sample.ABCD Sample.friendly Sample.atC "C" H1 H2 H3)).
Defined.

(** C7 does not hold of the code.  [handlePreviousPose] has a fallback
    for a pose on screen that is not among the generated ones, commented
    "shouldn't happen"; but the garment-redo path and remove-last-garment
    put the pose index back to 0 on a layer that need not have an image
    for pose 0, so the state does happen, and "previous" then selects a
    pose that is not generated and the service is called.

    First run: pose 2 is generated for the model, the tee is applied in
    that pose, pose 3 is generated for the tee, the tee is removed and
    selected again (the redo path), which shows the tee layer at pose 0.
    Second run: after the same tee and its pose 3, the jeans are applied
    and removed again, which shows the tee layer at pose 0 as well.  In
    both, every action is enabled when it is taken, the arrow is
    enabled, "previous" selects master index 19, which is not in the
    layer's cache, and the service is called. *)
Lemma C7_previous_calls_service_after_pose_reset :
  (Sys.accepted POSE_INSTRUCTIONS Sample.friendly Sample.reselect = true
   /\ Sys.reachable POSE_INSTRUCTIONS Sample.friendly Sample.reselected
   /\ Sys.enabled POSE_INSTRUCTIONS
                  (Sys.run POSE_INSTRUCTIONS Sample.friendly Sample.reselect)
                  Sys.PreviousPose = true
   /\ App.currentPoseIndex Sample.reselected = 0
   /\ App.availablePoseKeys Sample.reselected
      = ["Side profile view"; "Back view, looking over shoulder"]
   /\ Canvas.handlePreviousPose (isLoading Sample.reselected) POSE_INSTRUCTIONS
                                (App.currentPoseIndex Sample.reselected)
                                (App.availablePoseKeys Sample.reselected)
      = Some 19
   /\ Js.get POSE_INSTRUCTIONS 19 = Some "Arms crossed, serious and direct look"
   /\ ~ In "Arms crossed, serious and direct look"
           (App.availablePoseKeys Sample.reselected)
   /\ synthesisRequest
        (App.previousPose POSE_INSTRUCTIONS Sample.friendly Sample.reselected)
      = Some (PoseVariation "tee-2.png" (Some "Arms crossed, serious and direct look")))
  /\ (Sys.accepted POSE_INSTRUCTIONS Sample.friendly Sample.unlayer = true
      /\ Sys.reachable POSE_INSTRUCTIONS Sample.friendly Sample.unlayered
      /\ Sys.enabled POSE_INSTRUCTIONS
                     (Sys.run POSE_INSTRUCTIONS Sample.friendly Sample.unlayer)
                     Sys.PreviousPose = true
      /\ App.currentPoseIndex Sample.unlayered = 0
      /\ App.availablePoseKeys Sample.unlayered
         = ["Side profile view"; "Back view, looking over shoulder"]
      /\ synthesisRequest
           (App.previousPose POSE_INSTRUCTIONS Sample.friendly Sample.unlayered)
         = Some (PoseVariation "tee-2.png"
                               (Some "Arms crossed, serious and direct look"))).
Proof.
  split.
  - split; [evaluate |].
    split; [exists Sample.reselect; unfold Sample.reselected; reflexivity |].
    do 5 (split; [evaluate |]).
    split; [| evaluate].
    vm_compute. intros [H | [H | []]]; discriminate H.
  - split; [evaluate |].
    split; [exists Sample.unlayer; unfold Sample.unlayered; reflexivity |].
    do 3 (split; [evaluate |]). evaluate.
Qed.

(** ** The busy flag *)

Section Busy.

Variable poseInstructions : list string.
Variable getFriendlyErrorMessage : Thrown -> string -> string.

(** The handlers that call the service return at once while a call is
    outstanding. *)
Lemma busy_garment_select_is_noop (c : AppState) (file : File) (G : WardrobeItem) :
  isLoading c = true ->
  synthesisRequest
    (App.handleGarmentSelect poseInstructions getFriendlyErrorMessage c file G) = None
  /\ forall s,
       before (App.handleGarmentSelect poseInstructions getFriendlyErrorMessage c file G) s
       = s.
Proof.
  intros Hbusy. unfold App.handleGarmentSelect. rewrite Hbusy, orb_true_r.
  destruct (App.currentState c); split; reflexivity.
Qed.

Lemma busy_pose_select_is_noop (c : AppState) (newIndex : Z) :
  isLoading c = true ->
  synthesisRequest
    (App.handlePoseSelect poseInstructions getFriendlyErrorMessage c newIndex) = None
  /\ forall s,
       before (App.handlePoseSelect poseInstructions getFriendlyErrorMessage c newIndex) s
       = s.
Proof.
  intros Hbusy. unfold App.handlePoseSelect. rewrite Hbusy. simpl orb.
  destruct (App.currentState c); split; reflexivity.
Qed.

Lemma busy_arrows_are_noop (c : AppState) :
  isLoading c = true ->
  (forall s, before (App.previousPose poseInstructions getFriendlyErrorMessage c) s = s)
  /\ (forall s, before (App.nextPose poseInstructions getFriendlyErrorMessage c) s = s).
Proof.
  intros Hbusy. unfold App.previousPose, App.nextPose,
    Canvas.handlePreviousPose, Canvas.handleNextPose.
  rewrite Hbusy. simpl. split; reflexivity.
Qed.

(** Undo, redo and remove-last-garment do not read the busy flag: they
    act on a busy state as on any other. *)
Lemma busy_undo_moves_cursor (s : AppState) :
  isLoading s = true -> 0 < historyIndex s ->
  historyIndex (App.handleUndo s s) = historyIndex s - 1.
Proof. intros _. apply handleUndo_cursor. Qed.

Lemma busy_redo_moves_cursor (s : AppState) :
  isLoading s = true -> historyIndex s < Js.length (history s) - 1 ->
  historyIndex (App.handleRedo s s) = historyIndex s + 1.
Proof. intros _. apply handleRedo_cursor. Qed.

Lemma busy_remove_last_records (s : AppState) (cs : HistoryState) :
  isLoading s = true -> App.currentState s = Some cs -> 0 < currentOutfitIndex cs ->
  history (App.handleRemoveLastGarment s s)
  = Js.slice (history s) 0 (historyIndex s + 1)
    ++ [mkHistoryState (outfitHistory cs) (currentOutfitIndex cs - 1) 0].
Proof.
  intros _ Hcs Hpos. unfold App.handleRemoveLastGarment, App.currentOutfitIndex.
  rewrite Hcs.
  assert (E : (currentOutfitIndex cs >? 0) = true) by (apply Z.gtb_lt; lia).
  rewrite E. reflexivity.
Qed.

End Busy.

(** C8 does not hold of the code: with the tee on and the request for
    the jeans still in flight, the busy flag is set, the undo button is
    enabled, and undo moves the cursor from 1 to 0; remove-last-garment
    records a snapshot.  When the call then settles, the handler writes
    the log it computed before the undo, and the cursor jumps to 2. *)
Lemma C8_history_changes_while_call_outstanding :
  Sys.accepted POSE_INSTRUCTIONS Sample.friendly Sample.waiting = true
  /\ isLoading (Sys.ui Sample.waitingSys) = true
  /\ Sys.busy Sample.waitingSys = true
  /\ Sys.enabled POSE_INSTRUCTIONS Sample.waitingSys Sys.Undo = true
  /\ historyIndex (Sys.ui Sample.waitingSys) = 1
  /\ historyIndex
       (Sys.ui (Sys.step POSE_INSTRUCTIONS Sample.friendly Sample.waitingSys Sys.Undo)) = 0
  /\ isLoading
       (Sys.ui (Sys.step POSE_INSTRUCTIONS Sample.friendly Sample.waitingSys Sys.Undo))
     = true
  /\ Js.length (history (Sys.ui Sample.waitingSys)) = 2
  /\ Js.length
       (history (Sys.ui (Sys.step POSE_INSTRUCTIONS Sample.friendly Sample.waitingSys
                                  Sys.RemoveLastGarment))) = 3
  /\ historyIndex
       (Sys.ui (Sys.step POSE_INSTRUCTIONS Sample.friendly
                  (Sys.step POSE_INSTRUCTIONS Sample.friendly Sample.waitingSys Sys.Undo)
                  (Sys.Settle 0 (Resolved "jeans-0.png")))) = 2.
Proof. conjuncts; evaluate. Qed.

(** ** The invariants hold in every state the application reaches *)

Lemma GoodState_ext (s s' : AppState) :
  history s' = history s -> historyIndex s' = historyIndex s ->
  GoodState s -> GoodState s'.
Proof. unfold GoodState. intros -> ->. exact (fun H => H). Qed.

Lemma Forall_prefix {A} (P : A -> Prop) (l : list A) (k : nat) :
  Forall P l -> Forall P (firstn k l).
Proof.
  intros H. rewrite <- (firstn_skipn k l) in H.
  apply Forall_app in H. exact (proj1 H).
Qed.

(** Recording a good snapshot from a good state gives a good state. *)
Lemma recordNewState_good (c : AppState) (next : HistoryState) (s : AppState) :
  GoodState c -> GoodSnapshot next -> GoodState (App.recordNewState c next s).
Proof.
  intros [Hall _] Hnext. split.
  - rewrite recordNewState_history.
    destruct (slice_is_prefix (history c) (historyIndex c + 1)) as [k ->].
    apply Forall_app. split; [apply Forall_prefix; exact Hall |].
    constructor; [exact Hnext | constructor].
  - right. rewrite recordNewState_historyIndex, recordNewState_history.
    rewrite length_snoc.
    pose proof (length_nonneg (Js.slice (history c) 0 (historyIndex c + 1))). lia.
Qed.

Lemma categories_app (l1 l2 : list OutfitLayer) :
  categories (l1 ++ l2) = categories l1 ++ categories l2.
Proof. unfold categories. apply flat_map_app. Qed.

Lemma NoDup_prefix {A} (l1 l2 : list A) : NoDup (l1 ++ l2) -> NoDup l1.
Proof.
  induction l1 as [| x l1 IH]; simpl; intros H; [constructor |].
  inversion H as [| ? ? Hx Hrest]; subst. constructor.
  - intros Hin. apply Hx. apply in_or_app. left. exact Hin.
  - exact (IH Hrest).
Qed.

Lemma NoDup_snoc {A} (l : list A) (x : A) : NoDup l -> ~ In x l -> NoDup (l ++ [x]).
Proof.
  induction l as [| y l IH]; simpl; intros Hnd Hx.
  - constructor; [intros [] | constructor].
  - inversion Hnd as [| ? ? Hy Hrest]; subst. constructor.
    + intros Hin. apply in_app_or in Hin. destruct Hin as [Hin | [-> | []]].
      * exact (Hy Hin).
      * apply Hx. left. reflexivity.
    + apply IH; [exact Hrest |]. intros Hin. apply Hx. right. exact Hin.
Qed.

Lemma categories_prefix_NoDup (layers : list OutfitLayer) (k : nat) :
  NoDup (categories layers) -> NoDup (categories (firstn k layers)).
Proof.
  intros H. rewrite <- (firstn_skipn k layers), categories_app in H.
  exact (NoDup_prefix _ _ H).
Qed.

Lemma GarmentCategory_eqb_eq (a b : GarmentCategory) :
  GarmentCategory_eqb a b = true <-> a = b.
Proof. destruct a, b; simpl; split; intros H; try reflexivity; discriminate H. Qed.

(** A stack none of whose layers is of the garment's category. *)
Lemma category_absent (G : WardrobeItem) (layers : list OutfitLayer) :
  (forall layer, In layer layers -> App.sameCategory G layer = false) ->
  ~ In (category G) (categories layers).
Proof.
  induction layers as [| x rest IH]; simpl; intros Hall Hin; [exact Hin |].
  apply in_app_or in Hin. destruct Hin as [Hin | Hin].
  - specialize (Hall x (or_introl eq_refl)).
    unfold App.sameCategory, App.garmentCategory in Hall.
    destruct (garment x) as [g |]; simpl in *; [| exact Hin].
    destruct Hin as [Hg | []]. rewrite Hg in Hall.
    assert (T : GarmentCategory_eqb (category G) (category G) = true)
      by (apply GarmentCategory_eqb_eq; reflexivity).
    congruence.
  - apply IH; [| exact Hin]. intros layer Hl. apply Hall. right. exact Hl.
Qed.

Lemma findIndex_none {A} (p : A -> bool) (l : list A) :
  Js.findIndex p l = -1 -> forall x, In x l -> p x = false.
Proof.
  induction l as [| y rest IH]; simpl; intros Hfi x Hin; [contradiction |].
  destruct (p y) eqn:Hy; [discriminate |]. cbv zeta in Hfi.
  destruct Hin as [<- | Hin]; [exact Hy |].
  destruct (Js.findIndex p rest <? 0) eqn:Hr.
  - apply Z.ltb_lt in Hr. destruct (findIndex_range p rest) as [H | H]; [| lia].
    exact (IH H x Hin).
  - apply Z.ltb_ge in Hr. lia.
Qed.

(** Before the index found, nothing satisfies the predicate. *)
Lemma findIndex_before {A} (p : A -> bool) (l : list A) (x : A) :
  0 <= Js.findIndex p l ->
  In x (firstn (Z.to_nat (Js.findIndex p l)) l) -> p x = false.
Proof.
  intros Hpos Hin.
  destruct (findIndex_found p l _ eq_refl Hpos) as (_ & _ & _ & Hmin).
  apply In_nth_error in Hin. destruct Hin as [n Hn].
  assert (Hlt : (n < Z.to_nat (Js.findIndex p l))%nat).
  { assert (Hsome : nth_error (firstn (Z.to_nat (Js.findIndex p l)) l) n <> None)
      by (rewrite Hn; discriminate).
    apply nth_error_Some in Hsome. rewrite length_firstn in Hsome. lia. }
  apply (Hmin (Z.of_nat n) x); [lia |].
  rewrite get_nat. rewrite nth_error_firstn in Hn.
  assert (E : (n <? Z.to_nat (Js.findIndex p l))%nat = true) by (apply Nat.ltb_lt; exact Hlt).
  rewrite E in Hn. exact Hn.
Qed.

(** The base slice of a good snapshot starts with the base layer, has
    garments of different categories, and none of the new garment's
    category. *)
Lemma baseHistorySlice_good (c : AppState) (G : WardrobeItem) (cs : HistoryState) :
  App.currentState c = Some cs -> GoodSnapshot cs ->
  (exists bottom rest, App.baseHistorySlice c G = bottom :: rest /\ garment bottom = None)
  /\ NoDup (categories (App.baseHistorySlice c G))
  /\ ~ In (category G) (categories (App.baseHistorySlice c G)).
Proof.
  intros Hcs [(bottom & rest & Hoh & Hbottom) Hnd Hidx].
  assert (Hoh' : App.outfitHistory c = outfitHistory cs)
    by (unfold App.outfitHistory; rewrite Hcs; reflexivity).
  assert (Hcoi : App.currentOutfitIndex c = currentOutfitIndex cs)
    by (unfold App.currentOutfitIndex; rewrite Hcs; reflexivity).
  assert (Hact : App.activeOutfitLayers c
                 = firstn (Z.to_nat (currentOutfitIndex cs + 1)) (outfitHistory cs)).
  { unfold App.activeOutfitLayers. rewrite Hoh', Hcoi. apply slice_prefix. lia. }
  assert (Hact0 : Js.get (App.activeOutfitLayers c) 0 = Some bottom).
  { rewrite Hact, get_firstn, Hoh by lia. reflexivity. }
  assert (Hbottom' : App.sameCategory G bottom = false)
    by (unfold App.sameCategory, App.garmentCategory; rewrite Hbottom; reflexivity).
  destruct (Z_lt_le_dec 0 (Js.findIndex (App.sameCategory G) (App.activeOutfitLayers c)))
    as [Hpos | Hle].
  - destruct (baseHistorySlice_replace c G _ eq_refl Hpos) as (Hbase & Hbase' & _ & _).
    split; [| split].
    + rewrite Hbase', Hoh', Hoh.
      destruct (Z.to_nat (Js.findIndex (App.sameCategory G) (App.activeOutfitLayers c)))
        as [| n] eqn:Hn; [lia |].
      simpl. eexists. eexists. split; [reflexivity | exact Hbottom].
    + rewrite Hbase', Hoh'. apply categories_prefix_NoDup. exact Hnd.
    + rewrite Hbase. apply category_absent. intros layer Hin.
      apply (findIndex_before (App.sameCategory G) (App.activeOutfitLayers c));
        [lia | exact Hin].
  - rewrite (baseHistorySlice_append c G Hle).
    split; [| split].
    + rewrite Hact, Hoh.
      destruct (Z.to_nat (currentOutfitIndex cs + 1)) as [| n] eqn:Hn; [lia |].
      simpl. eexists. eexists. split; [reflexivity | exact Hbottom].
    + rewrite Hact. apply categories_prefix_NoDup. exact Hnd.
    + apply category_absent.
      destruct (findIndex_range (App.sameCategory G) (App.activeOutfitLayers c))
        as [Hnone | Hsome].
      * exact (findIndex_none _ _ Hnone).
      * assert (H0 : Js.findIndex (App.sameCategory G) (App.activeOutfitLayers c) = 0)
          by lia.
        destruct (findIndex_found _ _ _ H0 ltac:(lia)) as (x & Hx & Hpx & _).
        rewrite Hact0 in Hx. injection Hx as <-. congruence.
Qed.

Lemma current_snapshot_good (c : AppState) (cs : HistoryState) :
  GoodState c -> App.currentState c = Some cs -> GoodSnapshot cs.
Proof.
  intros [Hall _] Hcs. apply get_In in Hcs.
  exact (proj1 (Forall_forall _ _) Hall cs Hcs).
Qed.

(** Moving the active index inside the stack keeps a snapshot good, and
    so does moving the pose index. *)
Lemma withCurrentOutfitIndex_good (cs : HistoryState) (i : Z) :
  GoodSnapshot cs -> 0 <= i < Js.length (outfitHistory cs) ->
  GoodSnapshot (withCurrentOutfitIndex i cs).
Proof. intros [Hb Hc _] Hi. constructor; assumption. Qed.

Lemma withCurrentPoseIndex_good (cs : HistoryState) (i : Z) :
  GoodSnapshot cs -> GoodSnapshot (withCurrentPoseIndex i cs).
Proof. intros [Hb Hc Hi]. constructor; assumption. Qed.

(** Rewriting pose images layer by layer keeps the garments, hence the
    invariants. *)
Lemma mapi_from_garments (f : OutfitLayer -> Z -> OutfitLayer)
      (layers : list OutfitLayer) (o : Z) :
  (forall layer i, garment (f layer i) = garment layer) ->
  map garment (Js.mapi_from f o layers) = map garment layers.
Proof.
  intros Hf. revert o. induction layers as [| x rest IH]; intros o; simpl;
    [reflexivity |].
  rewrite Hf, IH. reflexivity.
Qed.

Lemma categories_garments (l1 l2 : list OutfitLayer) :
  map garment l1 = map garment l2 -> categories l1 = categories l2.
Proof.
  revert l2. induction l1 as [| x l1 IH]; intros [| y l2] H; simpl in *;
    try discriminate; [reflexivity |].
  injection H as Hxy Hrest. rewrite Hxy, (IH l2 Hrest). reflexivity.
Qed.

Lemma withOutfitHistory_good (cs : HistoryState) (layers : list OutfitLayer) :
  GoodSnapshot cs -> map garment layers = map garment (outfitHistory cs) ->
  GoodSnapshot (withOutfitHistory layers cs).
Proof.
  intros [(bottom & rest & Hoh & Hbottom) Hnd Hidx] Hmap. constructor; simpl.
  - rewrite Hoh in Hmap. destruct layers as [| b r]; [discriminate |].
    simpl in Hmap. injection Hmap as Hb _.
    exists b, r. split; [reflexivity | congruence].
  - rewrite (categories_garments _ _ Hmap). exact Hnd.
  - assert (Hlen : List.length layers = List.length (outfitHistory cs))
      by (rewrite <- (length_map garment layers), Hmap, length_map; reflexivity).
    unfold Js.length in *. rewrite Hlen. exact Hidx.
Qed.

Section Preservation.

Variable poseInstructions : list string.
Variable getFriendlyErrorMessage : Thrown -> string -> string.

Lemma handleGarmentSelect_good (c : AppState) (file : File) (G : WardrobeItem)
      (s : AppState) :
  GoodState c -> GoodState s ->
  GoodState (before (App.handleGarmentSelect poseInstructions getFriendlyErrorMessage
                                             c file G) s)
  /\ forall out,
       GoodState (after (App.handleGarmentSelect poseInstructions getFriendlyErrorMessage
                                                 c file G) out s).
Proof.
  intros Hc Hs.
  pose proof (fun cs => baseHistorySlice_good c G cs) as Hslice.
  pose proof (fun cs => current_snapshot_good c cs Hc) as Hcur.
  unfold App.handleGarmentSelect.
  destruct (App.currentState c) as [cs |] eqn:Hcs; [| split; [| intros out]; exact Hs].
  specialize (Hslice cs eq_refl (Hcur cs eq_refl)).
  specialize (Hcur cs eq_refl).
  destruct (negb (Js.truthy (generatedModelUrl c)) || isLoading c);
    [split; [| intros out]; exact Hs |].
  destruct (App.isGarmentRedo c G) eqn:Hredo.
  - (* the redo path *)
    split; [| intros out; exact Hs]. simpl before.
    refine (recordNewState_good c _ s Hc _).
    apply withCurrentPoseIndex_good, withCurrentOutfitIndex_good; [exact Hcur |].
    unfold App.isGarmentRedo in Hredo.
    destruct (Js.get (App.outfitHistory c) (App.currentOutfitIndex c + 1))
      as [nextLayer |] eqn:Hnext; [| discriminate].
    apply get_Some_range in Hnext.
    unfold App.outfitHistory, App.currentOutfitIndex in *. rewrite Hcs in *.
    destruct Hcur as [_ _ Hidx]. lia.
  - cbv zeta.
    destruct (Js.get (App.baseHistorySlice c G)
                     (Js.length (App.baseHistorySlice c G) - 1)) as [baseLayer |];
      [| split; [| intros out]; exact Hs].
    destruct (Js.nullish _ _) as [img |]; [| split; [| intros out]; exact Hs].
    destruct (Js.truthy (Some img)); [| split; [| intros out]; exact Hs].
    split; [exact Hs |]. intros [url | err]; [| exact Hs].
    simpl after.
    match goal with
    | |- context [App.recordNewState c ?h s] =>
        refine (recordNewState_good c h s Hc _)
    end.
    destruct Hslice as ((bottom & rest & Hbase & Hbottom) & Hnd & Hfresh).
    constructor; simpl.
    + rewrite Hbase. simpl. eexists. eexists. split; [reflexivity | exact Hbottom].
    + rewrite categories_app. simpl. apply NoDup_snoc; assumption.
    + rewrite length_snoc. pose proof (length_nonneg (App.baseHistorySlice c G)). lia.
Qed.

Lemma handlePoseSelect_good (c : AppState) (newIndex : Z) (s : AppState) :
  GoodState c -> GoodState s ->
  GoodState (before (App.handlePoseSelect poseInstructions getFriendlyErrorMessage
                                          c newIndex) s)
  /\ forall out,
       GoodState (after (App.handlePoseSelect poseInstructions getFriendlyErrorMessage
                                              c newIndex) out s).
Proof.
  intros Hc Hs.
  pose proof (fun cs => current_snapshot_good c cs Hc) as Hcur.
  unfold App.handlePoseSelect.
  destruct (App.currentState c) as [cs |] eqn:Hcs; [| split; [| intros out]; exact Hs].
  specialize (Hcur cs eq_refl).
  destruct (isLoading c || (Js.length (App.outfitHistory c) =? 0)
            || (newIndex =? App.currentPoseIndex c));
    [split; [| intros out]; exact Hs |].
  cbv zeta.
  destruct (Js.get (App.outfitHistory c) (App.currentOutfitIndex c)) as [layer |];
    [| split; [| intros out]; exact Hs].
  destruct (Js.truthy (Obj.get (poseImages layer) _)).
  - split; [| intros out; exact Hs]. simpl before.
    refine (recordNewState_good c _ s Hc _).
    apply withCurrentPoseIndex_good. exact Hcur.
  - destruct (Js.get (Obj.values (poseImages layer)) 0) as [img |];
      [| split; [| intros out]; exact Hs].
    destruct (Js.truthy (Some img)); [| split; [| intros out]; exact Hs].
    split; [exact Hs |]. intros [url | err]; [| exact Hs].
    simpl after.
    match goal with
    | |- context [App.recordNewState c ?h s] =>
        refine (recordNewState_good c h s Hc _)
    end.
    apply withCurrentPoseIndex_good, withOutfitHistory_good; [exact Hcur |].
    unfold App.outfitHistory. rewrite Hcs. unfold Js.mapi.
    apply mapi_from_garments. intros l i. destruct (i =? _); reflexivity.
Qed.

Lemma handleUndo_good (s : AppState) : GoodState s -> GoodState (App.handleUndo s s).
Proof.
  intros [Hall Hcur]. unfold App.handleUndo, App.canUndo.
  destruct (historyIndex s >? 0) eqn:E; [| split; assumption].
  apply Z.gtb_lt in E. split; [exact Hall |]. right. simpl. lia.
Qed.

Lemma handleRedo_good (s : AppState) : GoodState s -> GoodState (App.handleRedo s s).
Proof.
  intros [Hall Hcur]. unfold App.handleRedo, App.canRedo.
  destruct (historyIndex s <? Js.length (history s) - 1) eqn:E; [| split; assumption].
  apply Z.ltb_lt in E. split; [exact Hall |]. right. simpl.
  destruct Hcur as [[Hnil Hm1] | Hin]; [| lia].
  rewrite Hnil in E. unfold Js.length in E. simpl in E. lia.
Qed.

Lemma handleRemoveLastGarment_good (s : AppState) :
  GoodState s -> GoodState (App.handleRemoveLastGarment s s).
Proof.
  intros Hs. unfold App.handleRemoveLastGarment.
  destruct (App.currentState s) as [cs |] eqn:Hcs; [| exact Hs].
  destruct (App.currentOutfitIndex s >? 0) eqn:E; [| exact Hs].
  apply Z.gtb_lt in E.
  pose proof (current_snapshot_good s cs Hs Hcs) as Hcur.
  apply recordNewState_good; [exact Hs |].
  apply withCurrentPoseIndex_good, withCurrentOutfitIndex_good; [exact Hcur |].
  unfold App.currentOutfitIndex in *. rewrite Hcs in *.
  destruct Hcur as [_ _ Hidx]. lia.
Qed.

Lemma handleModelFinalized_good (originalUrl generatedUrl : string) (s : AppState) :
  GoodState (App.handleModelFinalized poseInstructions originalUrl generatedUrl s).
Proof.
  split; simpl.
  - constructor; [| constructor]. constructor; simpl.
    + eexists. eexists. split; reflexivity.
    + constructor.
    + unfold Js.length. simpl. lia.
  - right. unfold Js.length. simpl. lia.
Qed.

Lemma handleStartOver_good (s : AppState) : GoodState (App.handleStartOver s).
Proof. split; simpl; [constructor | left; split; reflexivity]. Qed.

Lemma onSelectPose_good (c : AppState) (selected : option Z) (s : AppState) :
  GoodState c -> GoodState s ->
  GoodState (before (App.onSelectPose poseInstructions getFriendlyErrorMessage
                                      c selected) s)
  /\ forall out,
       GoodState (after (App.onSelectPose poseInstructions getFriendlyErrorMessage
                                          c selected) out s).
Proof.
  intros Hc Hs. destruct selected as [i |]; simpl.
  - apply handlePoseSelect_good; assumption.
  - split; [| intros out]; exact Hs.
Qed.

(** What is left of a list of pending work when one piece is taken. *)
Lemma Forall_removeNth {A} (Q : A -> Prop) (n : nat) (l : list A) :
  Forall Q l -> Forall Q (Sys.removeNth n l).
Proof.
  intros H. unfold Sys.removeNth. apply Forall_app.
  split; [apply Forall_prefix; exact H |].
  rewrite <- (firstn_skipn (S n) l) in H. apply Forall_app in H. exact (proj2 H).
Qed.

(** A handler that keeps states good can be started in a good system. *)
Lemma launch_good (sys : Sys.t) (a : Async) :
  GoodSys sys ->
  (forall s, GoodState s ->
             GoodState (before a s) /\ forall out, GoodState (after a out s)) ->
  GoodSys (Sys.launch sys a).
Proof.
  intros (Hui & Hcv & Hfl) Ha. destruct a as [u | u req k]; simpl.
  - split; [exact (proj1 (Ha _ Hui)) | split; [exact Hcv | exact Hfl]].
  - split; [exact (proj1 (Ha _ Hui)) | split; [exact Hcv |]].
    apply Forall_app. split; [exact Hfl |].
    constructor; [| constructor]. intros out s Hs. exact (proj2 (Ha s Hs) out).
Qed.

(** The panel's call of [onGarmentSelect], as a closure of a good state,
    keeps a good system good. *)
Lemma onGarmentSelect_good (sys : Sys.t) (c : AppState)
      (selected : option (File * WardrobeItem)) :
  GoodSys sys -> GoodState c ->
  GoodSys (Sys.onGarmentSelect poseInstructions getFriendlyErrorMessage sys c selected).
Proof.
  intros Hsys Hc. destruct selected as [[file info] |]; simpl; [| exact Hsys].
  apply launch_good; [exact Hsys |]. intros s Hs.
  apply handleGarmentSelect_good; assumption.
Qed.

Lemma step_good (sys : Sys.t) (e : Sys.Event) :
  GoodSys sys -> GoodSys (Sys.step poseInstructions getFriendlyErrorMessage sys e).
Proof.
  intros Hsys. pose proof Hsys as (Hui & Hcv & Hfl). unfold Sys.step.
  destruct (negb (Sys.enabled poseInstructions sys e)); [exact Hsys |].
  destruct e as [u g | | | | | | | item | n blob | files tab now objectUrl
                 | | index | | | n out].
  - split; [apply handleModelFinalized_good | split; assumption].
  - split; [apply handleStartOver_good | split; assumption].
  - split; [apply handleUndo_good; exact Hui | split; assumption].
  - split; [apply handleRedo_good; exact Hui | split; assumption].
  - split; [exact (GoodState_ext _ _ eq_refl eq_refl Hui) | split; assumption].
  - split; [exact (GoodState_ext _ _ eq_refl eq_refl Hui) | split; assumption].
  - split; [exact (GoodState_ext _ _ eq_refl eq_refl Hui) | split; assumption].
  - split; [exact Hui | split; [| exact Hfl]]. simpl.
    apply Forall_app. split; [exact Hcv |]. constructor; [exact Hui | constructor].
  - destruct (nth_error (Sys.converting sys) n) as [[c item] |] eqn:Hn; [| exact Hsys].
    apply onGarmentSelect_good.
    + split; [exact Hui | split; [| exact Hfl]]. simpl.
      apply Forall_removeNth. exact Hcv.
    + apply nth_error_In in Hn. exact (proj1 (Forall_forall _ _) Hcv _ Hn).
  - apply onGarmentSelect_good; assumption.
  - split; [apply handleRemoveLastGarment_good; exact Hui | split; assumption].
  - apply launch_good; [exact Hsys |]. intros s Hs.
    apply handlePoseSelect_good; assumption.
  - apply launch_good; [exact Hsys |]. intros s Hs.
    apply onSelectPose_good; assumption.
  - apply launch_good; [exact Hsys |]. intros s Hs.
    apply onSelectPose_good; assumption.
  - destruct (nth_error (Sys.inflight sys) n) as [k |] eqn:Hk; [| exact Hsys].
    split; [| split; [exact Hcv |]]; simpl.
    + apply nth_error_In in Hk.
      exact (proj1 (Forall_forall _ _) Hfl k Hk out (Sys.ui sys) Hui).
    + apply Forall_removeNth. exact Hfl.
Qed.

Lemma run_good (events : list Sys.Event) :
  GoodSys (Sys.run poseInstructions getFriendlyErrorMessage events).
Proof.
  unfold Sys.run.
  assert (Hinit : GoodSys Sys.initial).
  { split; [| split; constructor]. split; [constructor | left; split; reflexivity]. }
  revert Hinit. generalize Sys.initial as sys.
  induction events as [| e rest IH]; intros sys Hsys; simpl; [exact Hsys |].
  apply IH. apply step_good. exact Hsys.
Qed.

(** Every state the application reaches satisfies the invariants of the
    data model. *)
Theorem reachable_good (s : AppState) :
  Sys.reachable poseInstructions getFriendlyErrorMessage s -> GoodState s.
Proof. intros [events <-]. exact (proj1 (run_good events)). Qed.

(** In a reachable state the cursor is on a snapshot, or the log is
    empty and the cursor is -1. *)
Corollary reachable_cursor (s : AppState) :
  Sys.reachable poseInstructions getFriendlyErrorMessage s ->
  (history s = [] /\ historyIndex s = -1)
  \/ 0 <= historyIndex s < Js.length (history s).
Proof. intros H. exact (proj2 (reachable_good s H)). Qed.

(** The runs of the machine include those in which something happens
    while a tile's image is being converted: a second tile can be
    clicked, and both calls of the service go out, the second as a
    closure of a state that was not busy. *)
Lemma second_click_during_conversion_launches_second_call :
  Sys.accepted POSE_INSTRUCTIONS Sample.friendly Scenario.twoClicks = true
  /\ List.length
       (Sys.inflight (Sys.run POSE_INSTRUCTIONS Sample.friendly Scenario.twoClicks))
     = 2%nat
  /\ loadingMessage
       (Sys.ui (Sys.run POSE_INSTRUCTIONS Sample.friendly Scenario.twoClicks))
     = "Adding pants...".
Proof. split; [evaluate |]. split; [| evaluate]. vm_compute. reflexivity. Qed.

(** The states of the machine include those with the share modal open
    and those with the sheet collapsed. *)
Lemma share_modal_and_collapsed_sheet_are_reachable :
  (exists s, Sys.reachable POSE_INSTRUCTIONS Sample.friendly s
             /\ isShareModalOpen s = true
             /\ Sys.shareModal POSE_INSTRUCTIONS s = true)
  /\ (exists s, Sys.reachable POSE_INSTRUCTIONS Sample.friendly s
                /\ isSheetCollapsed s = true).
Proof.
  split.
  - exists (Sys.ui (Sys.run POSE_INSTRUCTIONS Sample.friendly Scenario.sharing)).
    split; [exists Scenario.sharing; reflexivity | split; evaluate].
  - exists (Sys.ui (Sys.run POSE_INSTRUCTIONS Sample.friendly Scenario.collapsing)).
    split; [exists Scenario.collapsing; reflexivity | evaluate].
Qed.

(** A layer of the garment's category puts that category in the list. *)
Lemma category_present (G : WardrobeItem) (layers : list OutfitLayer)
      (layer : OutfitLayer) :
  In layer layers -> App.sameCategory G layer = true ->
  In (category G) (categories layers).
Proof.
  induction layers as [| x rest IH]; simpl; intros Hin Hsame; [contradiction |].
  apply in_or_app. destruct Hin as [-> | Hin].
  - left. unfold App.sameCategory, App.garmentCategory in Hsame.
    destruct (garment layer) as [g |]; simpl in *; [| discriminate].
    apply GarmentCategory_eqb_eq in Hsame. left. exact Hsame.
  - right. exact (IH Hin Hsame).
Qed.

(** With categories all different, two layers of the garment's category
    are at the same position. *)
Lemma same_category_unique (G : WardrobeItem) (layers : list OutfitLayer)
      (i j : nat) (x y : OutfitLayer) :
  NoDup (categories layers) ->
  nth_error layers i = Some x -> App.sameCategory G x = true ->
  nth_error layers j = Some y -> App.sameCategory G y = true ->
  i = j.
Proof.
  revert i j. induction layers as [| z rest IH]; intros i j Hnd Hi Hx Hj Hy.
  - destruct i; discriminate.
  - simpl in Hnd.
    assert (Hz : App.sameCategory G z = true -> ~ In (category G) (categories rest)).
    { intros Hsame Hin. unfold App.sameCategory, App.garmentCategory in Hsame.
      destruct (garment z) as [g |]; simpl in *; [| discriminate].
      apply GarmentCategory_eqb_eq in Hsame. rewrite Hsame in Hnd.
      inversion Hnd as [| ? ? Hnotin _]. exact (Hnotin Hin). }
    destruct i as [| i], j as [| j]; simpl in *.
    + reflexivity.
    + injection Hi as ->. exfalso. apply (Hz Hx).
      exact (category_present G rest y (nth_error_In _ _ Hj) Hy).
    + injection Hj as ->. exfalso. apply (Hz Hy).
      exact (category_present G rest x (nth_error_In _ _ Hi) Hx).
    + f_equal. apply (IH i j); try assumption.
      destruct (garment z); simpl in Hnd; [inversion Hnd; assumption | exact Hnd].
Qed.

(** In a reachable state, a layer of the new garment's category among
    the active layers is the one the scan finds, and it is above the
    base layer. *)
Theorem reachable_match_is_scan_result
        (s : AppState) (G : WardrobeItem) (p : Z) (layer : OutfitLayer) :
  Sys.reachable poseInstructions getFriendlyErrorMessage s ->
  Js.get (App.activeOutfitLayers s) p = Some layer ->
  App.sameCategory G layer = true ->
  Js.findIndex (App.sameCategory G) (App.activeOutfitLayers s) = p /\ 0 < p.
Proof.
  intros Hreach Hp Hsame.
  pose proof (reachable_good s Hreach) as Hgood.
  pose proof (get_Some_range _ _ _ Hp) as Hrange.
  destruct (App.currentState s) as [cs |] eqn:Hcs.
  2:{ unfold App.activeOutfitLayers, App.outfitHistory in Hrange. rewrite Hcs in Hrange.
      destruct (slice_is_prefix (@nil OutfitLayer) (App.currentOutfitIndex s + 1))
        as [k Hk].
      rewrite Hk in Hrange. unfold Js.length in Hrange.
      rewrite length_firstn in Hrange. simpl in Hrange. lia. }
  destruct (current_snapshot_good s cs Hgood Hcs)
    as [(bottom & rest & Hoh & Hbottom) Hnd Hidx].
  assert (Hoh' : App.outfitHistory s = outfitHistory cs)
    by (unfold App.outfitHistory; rewrite Hcs; reflexivity).
  assert (Hcoi : App.currentOutfitIndex s = currentOutfitIndex cs)
    by (unfold App.currentOutfitIndex; rewrite Hcs; reflexivity).
  assert (Hact : App.activeOutfitLayers s
                 = firstn (Z.to_nat (currentOutfitIndex cs + 1)) (outfitHistory cs)).
  { unfold App.activeOutfitLayers. rewrite Hoh', Hcoi. apply slice_prefix. lia. }
  assert (Hnd' : NoDup (categories (App.activeOutfitLayers s)))
    by (rewrite Hact; apply categories_prefix_NoDup; exact Hnd).
  pose proof (findIndex_hit _ _ _ _ Hp Hsame) as Hfi.
  destruct (findIndex_found _ _ _ eq_refl (proj1 Hfi)) as (x & Hx & Hpx & _).
  assert (Heq : Js.findIndex (App.sameCategory G) (App.activeOutfitLayers s) = p).
  { unfold Js.get in Hx, Hp.
    destruct (Js.findIndex (App.sameCategory G) (App.activeOutfitLayers s) <? 0);
      [discriminate |].
    destruct (p <? 0); [discriminate |].
    pose proof (same_category_unique G _ _ _ _ _ Hnd' Hx Hpx Hp Hsame). lia. }
  split; [exact Heq |].
  destruct (Z.eq_dec p 0) as [-> | Hne]; [| lia]. exfalso.
  rewrite Hact, get_firstn, Hoh in Hp by lia. injection Hp as <-.
  unfold App.sameCategory, App.garmentCategory in Hsame. rewrite Hbottom in Hsame.
  discriminate.
Qed.

(** On the states the application reaches, a cursor above 0 is enough
    for undo then redo to restore the state. *)
Corollary reachable_undo_then_redo (s : AppState) :
  Sys.reachable poseInstructions getFriendlyErrorMessage s ->
  0 < historyIndex s ->
  App.handleRedo (App.handleUndo s s) (App.handleUndo s s) = s.
Proof.
  intros Hreach Hpos. apply undo_then_redo.
  destruct (reachable_cursor s Hreach) as [[_ Hm1] | Hin]; lia.
Qed.

(** On the states the application reaches, any active layer of the new
    garment's category marks the place of the replacement. *)
Corollary reachable_replacement
          (c : AppState) (file : File) (G : WardrobeItem) (req : Request)
          (p : Z) (layer : OutfitLayer) (url : string) :
  Sys.reachable poseInstructions getFriendlyErrorMessage c ->
  Js.get (App.activeOutfitLayers c) p = Some layer ->
  App.sameCategory G layer = true ->
  synthesisRequest
    (App.handleGarmentSelect poseInstructions getFriendlyErrorMessage c file G)
  = Some req ->
  0 < p
  /\ App.activeOutfitLayers
       (settle (App.handleGarmentSelect poseInstructions getFriendlyErrorMessage c file G)
               (Resolved url) c)
     = firstn (Z.to_nat p) (App.activeOutfitLayers c)
       ++ [mkOutfitLayer (Some G)
             [(Js.propKey (Js.get poseInstructions (App.currentPoseIndex c)), url)]].
Proof.
  intros Hreach Hp Hsame Hreq.
  destruct (reachable_match_is_scan_result c G p layer Hreach Hp Hsame) as [Hscan Hpos].
  split; [exact Hpos |]. unfold settle.
  destruct (applied_stack poseInstructions getFriendlyErrorMessage c file G req url
              (before (App.handleGarmentSelect poseInstructions getFriendlyErrorMessage
                                               c file G) c) Hreq)
    as (_ & _ & Hactive).
  destruct (baseHistorySlice_replace c G p Hscan Hpos) as (Hbase & _).
  rewrite Hactive, Hbase. reflexivity.
Qed.

End Preservation.

(** * Further properties of the handlers *)

(** ** What the screen shows *)

Lemma Obj_keys_set_new (obj : PoseImages) (k v : string) :
  ~ In k (Obj.keys obj) -> Obj.keys (Obj.set obj k v) = Obj.keys obj ++ [k].
Proof.
  induction obj as [| [k' w] rest IH]; simpl; intros Hnot; [reflexivity |].
  destruct (String.eqb k' k) eqn:E.
  - apply String.eqb_eq in E. exfalso. apply Hnot. left. exact E.
  - simpl. rewrite IH; [reflexivity |]. intros Hin. apply Hnot. right. exact Hin.
Qed.

Lemma Obj_keys_set_old (obj : PoseImages) (k v : string) :
  In k (Obj.keys obj) -> Obj.keys (Obj.set obj k v) = Obj.keys obj.
Proof.
  induction obj as [| [k' w] rest IH]; simpl; intros Hin; [contradiction |].
  destruct (String.eqb k' k) eqn:E; [reflexivity |].
  simpl. rewrite IH; [reflexivity |].
  destruct Hin as [-> | Hin]; [rewrite String.eqb_refl in E; discriminate | exact Hin].
Qed.

Lemma Obj_set_nonempty (obj : PoseImages) (k v : string) : Obj.set obj k v <> [].
Proof.
  destruct obj as [| [k' w] rest]; simpl; [discriminate |].
  destruct (String.eqb k' k); discriminate.
Qed.

Section Shown.

Variable poseInstructions : list string.
Variable getFriendlyErrorMessage : Thrown -> string -> string.

Local Abbreviation select :=
  (App.handleGarmentSelect poseInstructions getFriendlyErrorMessage).
Local Abbreviation poseSelect :=
  (App.handlePoseSelect poseInstructions getFriendlyErrorMessage).

(** The image on screen, read from the snapshot and the layer on
    screen. *)
Lemma displayImageUrl_of_layer (s : AppState) (h : HistoryState) (layer : OutfitLayer) :
  App.currentState s = Some h ->
  Js.get (outfitHistory h) (currentOutfitIndex h) = Some layer ->
  App.displayImageUrl poseInstructions s
  = Js.nullish
      (Obj.get (poseImages layer)
               (Js.propKey (Js.get poseInstructions (currentPoseIndex h))))
      (Js.get (Obj.values (poseImages layer)) 0).
Proof.
  intros Hcs Hlayer.
  unfold App.displayImageUrl, App.outfitHistory, App.currentOutfitIndex,
    App.currentPoseIndex.
  rewrite Hcs, Hlayer.
  pose proof (get_Some_range _ _ _ Hlayer) as Hrange.
  assert (E : (Js.length (outfitHistory h) =? 0) = false) by (apply Z.eqb_neq; lia).
  rewrite E. reflexivity.
Qed.

(** The ids shown as active are the non-empty garment ids of the active
    layers. *)
Lemma activeGarmentIds_In (s : AppState) (i : string) :
  In i (App.activeGarmentIds s)
  <-> i <> "" /\ exists layer g,
        In layer (App.activeOutfitLayers s) /\ garment layer = Some g /\ id g = i.
Proof.
  unfold App.activeGarmentIds. rewrite in_flat_map. split.
  - intros (layer & Hin & Hi). unfold App.garmentId in Hi.
    destruct (garment layer) as [g |] eqn:Hg; simpl in Hi; [| contradiction].
    destruct (String.eqb (id g) "") eqn:E; simpl in Hi; [contradiction |].
    destruct Hi as [<- | []]. apply String.eqb_neq in E.
    split; [exact E |]. exists layer, g. repeat split; assumption.
  - intros (Hne & layer & g & Hin & Hg & <-). exists layer. split; [exact Hin |].
    unfold App.garmentId. rewrite Hg. simpl.
    apply String.eqb_neq in Hne. rewrite Hne. simpl. left. reflexivity.
Qed.

(** X1: a garment applied with success is what the screen shows: the new
    image is displayed, the garment's id is among the active ones, it is
    in the wardrobe (added last if its id was not there, the wardrobe
    unchanged otherwise), the pose is kept, the busy flag and the error
    are cleared. *)
Theorem applied_garment_is_shown
        (c : AppState) (file : File) (G : WardrobeItem) (req : Request) (url : string) :
  synthesisRequest (select c file G) = Some req ->
  App.displayImageUrl poseInstructions (settle (select c file G) (Resolved url) c)
  = Some url
  /\ (id G <> "" ->
      In (id G) (App.activeGarmentIds (settle (select c file G) (Resolved url) c)))
  /\ wardrobe (settle (select c file G) (Resolved url) c)
     = (if Js.found (fun item => String.eqb (id item) (id G)) (wardrobe c)
        then wardrobe c else wardrobe c ++ [G])
  /\ App.currentPoseIndex (settle (select c file G) (Resolved url) c)
     = App.currentPoseIndex c
  /\ isLoading (settle (select c file G) (Resolved url) c) = false
  /\ error (settle (select c file G) (Resolved url) c) = None.
Proof.
  intros Hreq. unfold settle.
  pose proof (applied_snapshot poseInstructions getFriendlyErrorMessage c file G req url
                (before (select c file G) c) Hreq) as Hsnap.
  destruct (applied_stack poseInstructions getFriendlyErrorMessage c file G req url
              (before (select c file G) c) Hreq) as (_ & _ & Hactive).
  destruct (handleGarmentSelect_awaits poseInstructions getFriendlyErrorMessage
              c file G req Hreq)
    as (cs & baseLayer & img & _ & _ & _ & _ & _ & _ & _ & _ & Hbefore & Hres & _).
  split; [| split; [| split; [| split]]].
  - rewrite (displayImageUrl_of_layer _ _ _ Hsnap (get_last _ _)).
    simpl. rewrite String.eqb_refl. reflexivity.
  - intros Hne. apply activeGarmentIds_In. split; [exact Hne |].
    exists (mkOutfitLayer (Some G)
              [(Js.propKey (Js.get poseInstructions (App.currentPoseIndex c)), url)]), G.
    rewrite Hactive. split; [| split; reflexivity].
    apply in_or_app. right. left. reflexivity.
  - rewrite Hres, Hbefore. reflexivity.
  - unfold App.currentPoseIndex at 1. rewrite Hsnap. reflexivity.
  - rewrite Hres, Hbefore. split; reflexivity.
Qed.

(** X2: a pose generated with success is shown and is added to the cache
    of the layer on screen, after the labels already there; the images
    the layer had under other labels, its garment, and the other layers
    are as before. *)
Theorem generated_pose_extends_layer_cache
        (c : AppState) (newIndex : Z) (req : Request) (url : string)
        (layer : OutfitLayer) :
  synthesisRequest (poseSelect c newIndex) = Some req ->
  Js.get (App.outfitHistory c) (App.currentOutfitIndex c) = Some layer ->
  App.displayImageUrl poseInstructions (settle (poseSelect c newIndex) (Resolved url) c)
  = Some url
  /\ (exists fresh,
         Js.get (App.outfitHistory (settle (poseSelect c newIndex) (Resolved url) c))
                (App.currentOutfitIndex c) = Some fresh
         /\ garment fresh = garment layer
         /\ Obj.get (poseImages fresh) (Js.propKey (Js.get poseInstructions newIndex))
            = Some url
         /\ forall k, k <> Js.propKey (Js.get poseInstructions newIndex) ->
                      Obj.get (poseImages fresh) k = Obj.get (poseImages layer) k)
  /\ (forall j, j <> App.currentOutfitIndex c ->
        Js.get (App.outfitHistory (settle (poseSelect c newIndex) (Resolved url) c)) j
        = Js.get (App.outfitHistory c) j)
  /\ (~ In (Js.propKey (Js.get poseInstructions newIndex)) (App.availablePoseKeys c) ->
      App.availablePoseKeys (settle (poseSelect c newIndex) (Resolved url) c)
      = App.availablePoseKeys c ++ [Js.propKey (Js.get poseInstructions newIndex)])
  /\ App.currentOutfitIndex (settle (poseSelect c newIndex) (Resolved url) c)
     = App.currentOutfitIndex c
  /\ App.currentPoseIndex (settle (poseSelect c newIndex) (Resolved url) c) = newIndex.
Proof.
  intros Hreq Hlayer.
  destruct (handlePoseSelect_awaits poseInstructions getFriendlyErrorMessage
              c newIndex req Hreq)
    as (cs & layer' & img & Hcs & _ & _ & Hlayer' & _ & _ & _ & Hbefore & Hres & _).
  rewrite Hlayer in Hlayer'. injection Hlayer' as <-.
  assert (Hcoi : App.currentOutfitIndex c = currentOutfitIndex cs)
    by (unfold App.currentOutfitIndex; rewrite Hcs; reflexivity).
  set (key := Js.propKey (Js.get poseInstructions newIndex)) in *.
  set (s1 := settle (poseSelect c newIndex) (Resolved url) c).
  assert (Hs1 : App.currentState s1
                = Some (withCurrentPoseIndex newIndex
                          (withOutfitHistory
                             (Js.mapi
                                (fun l index =>
                                   if index =? App.currentOutfitIndex c
                                   then withPoseImages (Obj.set (poseImages l) key url) l
                                   else l)
                                (App.outfitHistory c)) cs))).
  { unfold s1, settle. rewrite Hres, Hbefore.
    match goal with
    | |- App.currentState (App.clearLoading (App.recordNewState c ?h ?s)) = _ =>
        rewrite (currentState_ext (App.recordNewState c h s)
                   (App.clearLoading (App.recordNewState c h s)) eq_refl eq_refl)
    end.
    apply recordNewState_currentState. }
  assert (Hoh : App.outfitHistory s1
                = Js.mapi
                    (fun l index =>
                       if index =? App.currentOutfitIndex c
                       then withPoseImages (Obj.set (poseImages l) key url) l
                       else l)
                    (App.outfitHistory c))
    by (unfold App.outfitHistory at 1; rewrite Hs1; reflexivity).
  assert (Hidx : App.currentOutfitIndex s1 = App.currentOutfitIndex c)
    by (unfold App.currentOutfitIndex at 1; rewrite Hs1; simpl; symmetry; exact Hcoi).
  assert (Hfresh : Js.get (App.outfitHistory s1) (App.currentOutfitIndex c)
                   = Some (withPoseImages (Obj.set (poseImages layer) key url) layer)).
  { rewrite Hoh, get_mapi, Hlayer. simpl. rewrite Z.eqb_refl. reflexivity. }
  split; [| split; [| split; [| split; [| split]]]].
  - rewrite (displayImageUrl_of_layer s1 _
               (withPoseImages (Obj.set (poseImages layer) key url) layer) Hs1).
    + simpl. fold key. rewrite Obj_get_set_same. reflexivity.
    + simpl. rewrite <- Hcoi, <- Hoh. exact Hfresh.
  - eexists. split; [exact Hfresh |]. split; [reflexivity |].
    split; [apply Obj_get_set_same |].
    intros k Hk. apply Obj_get_set_other. exact Hk.
  - intros j Hj. rewrite Hoh, get_mapi.
    apply Z.eqb_neq in Hj. rewrite Hj.
    destruct (Js.get (App.outfitHistory c) j); reflexivity.
  - intros Hnew. pose proof (get_Some_range _ _ _ Hlayer) as Hrange.
    unfold App.availablePoseKeys in *. rewrite Hidx, Hfresh.
    rewrite Hoh at 1. rewrite length_mapi. rewrite Hlayer in Hnew |- *.
    destruct (Js.length (App.outfitHistory c) =? 0) eqn:E.
    + apply Z.eqb_eq in E. lia.
    + simpl. apply Obj_keys_set_new. exact Hnew.
  - exact Hidx.
  - unfold App.currentPoseIndex. rewrite Hs1. reflexivity.
Qed.

End Shown.

(** ** Pose selection without a new image, and with a failed call *)

Section PoseMoves.

Variable poseInstructions : list string.
Variable getFriendlyErrorMessage : Thrown -> string -> string.

Local Abbreviation poseSelect :=
  (App.handlePoseSelect poseInstructions getFriendlyErrorMessage).

(** X3: selecting a pose the layer on screen has a (non-empty) image for
    makes no call and records one snapshot, the one on screen with the
    pose index changed; the cached image is shown and the wardrobe is
    untouched. *)
Theorem cached_pose_select_records_one_snapshot
        (c : AppState) (newIndex : Z) (cs : HistoryState) (layer : OutfitLayer)
        (v : string) :
  App.currentState c = Some cs ->
  isLoading c = false ->
  newIndex <> currentPoseIndex cs ->
  Js.get (outfitHistory cs) (currentOutfitIndex cs) = Some layer ->
  Obj.get (poseImages layer) (Js.propKey (Js.get poseInstructions newIndex)) = Some v ->
  v <> "" ->
  synthesisRequest (poseSelect c newIndex) = None
  /\ history (before (poseSelect c newIndex) c)
     = firstn (Z.to_nat (historyIndex c + 1)) (history c)
       ++ [withCurrentPoseIndex newIndex cs]
  /\ historyIndex (before (poseSelect c newIndex) c) = historyIndex c + 1
  /\ App.displayImageUrl poseInstructions (before (poseSelect c newIndex) c) = Some v
  /\ wardrobe (before (poseSelect c newIndex) c) = wardrobe c
  /\ isLoading (before (poseSelect c newIndex) c) = false.
Proof.
  intros Hcs Hload Hne Hlayer Hv Hnonempty.
  pose proof (get_Some_range _ _ _ Hcs) as Hrange.
  pose proof (get_Some_range _ _ _ Hlayer) as Hlrange.
  assert (Hshape : poseSelect c newIndex
                   = Return (App.recordNewState c (withCurrentPoseIndex newIndex cs))).
  { unfold App.handlePoseSelect, App.outfitHistory, App.currentOutfitIndex,
      App.currentPoseIndex.
    rewrite Hcs, Hload. simpl orb.
    assert (E1 : (Js.length (outfitHistory cs) =? 0) = false) by (apply Z.eqb_neq; lia).
    assert (E2 : (newIndex =? currentPoseIndex cs) = false) by (apply Z.eqb_neq; exact Hne).
    rewrite E1, E2. simpl orb. cbv iota zeta. rewrite Hlayer, Hv.
    rewrite (truthy_nonempty v Hnonempty). reflexivity. }
  rewrite Hshape. simpl synthesisRequest. simpl before.
  split; [reflexivity |]. split; [| split; [| split; [| split; [reflexivity | exact Hload]]]].
  - rewrite recordNewState_history, slice_prefix by lia. reflexivity.
  - rewrite recordNewState_historyIndex, slice_prefix, length_snoc by lia.
    unfold Js.length in *. rewrite length_firstn. lia.
  - rewrite (displayImageUrl_of_layer poseInstructions _ _ layer
               (recordNewState_currentState c (withCurrentPoseIndex newIndex cs) c) Hlayer).
    simpl currentPoseIndex. rewrite Hv. reflexivity.
Qed.

(** X4: a pose generation that fails records nothing: log, cursor and
    wardrobe are as before the call, the message is set and the busy
    flag cleared. *)
Theorem failed_pose_generation_changes_nothing
        (c : AppState) (newIndex : Z) (req : Request) (err : Thrown) :
  synthesisRequest (poseSelect c newIndex) = Some req ->
  history (settle (poseSelect c newIndex) (Rejected err) c) = history c
  /\ historyIndex (settle (poseSelect c newIndex) (Rejected err) c) = historyIndex c
  /\ wardrobe (settle (poseSelect c newIndex) (Rejected err) c) = wardrobe c
  /\ App.displayImageUrl poseInstructions (settle (poseSelect c newIndex) (Rejected err) c)
     = App.displayImageUrl poseInstructions c
  /\ error (settle (poseSelect c newIndex) (Rejected err) c)
     = Some (getFriendlyErrorMessage err "Failed to change pose")
  /\ isLoading (settle (poseSelect c newIndex) (Rejected err) c) = false.
Proof.
  intros Hreq. unfold settle.
  destruct (handlePoseSelect_awaits poseInstructions getFriendlyErrorMessage
              c newIndex req Hreq)
    as (cs & layer & img & _ & _ & _ & _ & _ & _ & _ & Hbefore & _ & Hrej).
  rewrite Hrej, Hbefore. repeat split.
Qed.

End PoseMoves.

(** ** Finalizing the model and starting over *)

Section Sessions.

Variable poseInstructions : list string.
Variable getFriendlyErrorMessage : Thrown -> string -> string.

(** X5: whatever the state, finalizing a model leaves a log of exactly
    one snapshot -- the bare model in pose 0 -- with the cursor on it:
    the generated image is shown, nothing can be undone or redone, no
    garment is active, and the wardrobe is kept. *)
Theorem finalized_model_starts_a_fresh_log
        (originalUrl generatedUrl : string) (s : AppState) :
  history (App.handleModelFinalized poseInstructions originalUrl generatedUrl s)
  = [mkHistoryState
       [mkOutfitLayer None [(Js.propKey (Js.get poseInstructions 0), generatedUrl)]] 0 0]
  /\ historyIndex (App.handleModelFinalized poseInstructions originalUrl generatedUrl s) = 0
  /\ App.displayImageUrl poseInstructions
       (App.handleModelFinalized poseInstructions originalUrl generatedUrl s)
     = Some generatedUrl
  /\ App.canUndo (App.handleModelFinalized poseInstructions originalUrl generatedUrl s)
     = false
  /\ App.canRedo (App.handleModelFinalized poseInstructions originalUrl generatedUrl s)
     = false
  /\ App.activeGarmentIds
       (App.handleModelFinalized poseInstructions originalUrl generatedUrl s) = []
  /\ wardrobe (App.handleModelFinalized poseInstructions originalUrl generatedUrl s)
     = wardrobe s.
Proof.
  split; [reflexivity |]. split; [reflexivity |]. split.
  - unfold App.displayImageUrl. simpl. rewrite String.eqb_refl. reflexivity.
  - repeat split.
Qed.

(** X6: starting over puts every piece of state back to its value at
    mount, the share-modal flag apart; on the state it leaves, undo,
    redo, remove-last-garment, garment selection and pose selection all
    do nothing, and no image is shown. *)
Theorem start_over_leaves_nothing_to_act_on (s : AppState) :
  App.handleStartOver s = setIsShareModalOpen (isShareModalOpen s) initialAppState
  /\ App.handleUndo (App.handleStartOver s) (App.handleStartOver s) = App.handleStartOver s
  /\ App.handleRedo (App.handleStartOver s) (App.handleStartOver s) = App.handleStartOver s
  /\ App.handleRemoveLastGarment (App.handleStartOver s) (App.handleStartOver s)
     = App.handleStartOver s
  /\ (forall file G s',
         synthesisRequest
           (App.handleGarmentSelect poseInstructions getFriendlyErrorMessage
                                    (App.handleStartOver s) file G) = None
         /\ before (App.handleGarmentSelect poseInstructions getFriendlyErrorMessage
                                            (App.handleStartOver s) file G) s' = s')
  /\ (forall newIndex s',
         synthesisRequest
           (App.handlePoseSelect poseInstructions getFriendlyErrorMessage
                                 (App.handleStartOver s) newIndex) = None
         /\ before (App.handlePoseSelect poseInstructions getFriendlyErrorMessage
                                         (App.handleStartOver s) newIndex) s' = s')
  /\ App.displayImageUrl poseInstructions (App.handleStartOver s) = None.
Proof.
  split; [reflexivity |]. split; [reflexivity |]. split; [reflexivity |].
  split; [reflexivity |]. split; [| split; [| reflexivity]].
  - intros file G s'. split; reflexivity.
  - intros newIndex s'. split; reflexivity.
Qed.

End Sessions.

(** ** Recording, then undo and redo *)

(** X7: after a snapshot is recorded from a screen that shows one, redo
    does nothing, undo is possible and brings back the snapshot that was
    on screen, and redo after that undo shows the recorded one again. *)
Theorem recorded_snapshot_can_be_undone_and_redone
        (c : AppState) (next cs : HistoryState) :
  App.currentState c = Some cs ->
  App.handleRedo (App.recordNewState c next c) (App.recordNewState c next c)
  = App.recordNewState c next c
  /\ App.canUndo (App.recordNewState c next c) = true
  /\ App.currentState
       (App.handleUndo (App.recordNewState c next c) (App.recordNewState c next c))
     = Some cs
  /\ App.currentState
       (App.handleRedo
          (App.handleUndo (App.recordNewState c next c) (App.recordNewState c next c))
          (App.handleUndo (App.recordNewState c next c) (App.recordNewState c next c)))
     = Some next.
Proof.
  intros Hcs. pose proof (get_Some_range _ _ _ Hcs) as Hrange.
  set (s1 := App.recordNewState c next c).
  assert (Hlog : history s1 = firstn (Z.to_nat (historyIndex c + 1)) (history c) ++ [next])
    by (unfold s1; rewrite recordNewState_history, slice_prefix by lia; reflexivity).
  assert (Hlen : List.length (firstn (Z.to_nat (historyIndex c + 1)) (history c))
                 = Z.to_nat (historyIndex c + 1)).
  { rewrite length_firstn. unfold Js.length in Hrange. lia. }
  assert (Hcur : historyIndex s1 = historyIndex c + 1).
  { unfold s1. rewrite recordNewState_historyIndex, slice_prefix, length_snoc by lia.
    unfold Js.length. rewrite Hlen. lia. }
  assert (Hlen1 : Js.length (history s1) = historyIndex c + 2).
  { rewrite Hlog, length_snoc. unfold Js.length. rewrite Hlen. lia. }
  assert (Hin : 0 < historyIndex s1 < Js.length (history s1)) by lia.
  split; [| split; [| split]].
  - unfold App.handleRedo, App.canRedo.
    assert (E : (historyIndex s1 <? Js.length (history s1) - 1) = false)
      by (apply Z.ltb_ge; lia).
    rewrite E. reflexivity.
  - unfold App.canUndo. apply Z.gtb_lt. lia.
  - unfold App.currentState.
    destruct (handleUndo_frame s1 s1) as (-> & _).
    rewrite (handleUndo_cursor s1 (proj1 Hin)), Hcur, Hlog.
    replace (historyIndex c + 1 - 1) with (historyIndex c) by lia.
    rewrite get_app_l by (unfold Js.length; rewrite Hlen; lia).
    rewrite get_firstn by lia. exact Hcs.
  - rewrite (undo_then_redo s1 Hin). apply recordNewState_currentState.
Qed.

(** ** Removing the last garment *)

Section Removal.

Variable poseInstructions : list string.
Variable getFriendlyErrorMessage : Thrown -> string -> string.

(** One removal above the base layer. *)
Lemma handleRemoveLastGarment_step (s : AppState) (cs : HistoryState) :
  App.currentState s = Some cs -> 0 < currentOutfitIndex cs ->
  App.currentState (App.handleRemoveLastGarment s s)
  = Some (mkHistoryState (outfitHistory cs) (currentOutfitIndex cs - 1) 0).
Proof.
  intros Hcs Hpos. unfold App.handleRemoveLastGarment, App.currentOutfitIndex.
  rewrite Hcs.
  assert (E : (currentOutfitIndex cs >? 0) = true) by (apply Z.gtb_lt; lia).
  rewrite E. apply recordNewState_currentState.
Qed.

(** At the base layer, removal does nothing. *)
Lemma handleRemoveLastGarment_floor (s : AppState) :
  App.currentOutfitIndex s <= 0 -> App.handleRemoveLastGarment s s = s.
Proof.
  intros Hle. unfold App.handleRemoveLastGarment.
  destruct (App.currentState s); [| reflexivity].
  destruct (App.currentOutfitIndex s >? 0) eqn:E; [| reflexivity].
  apply Z.gtb_lt in E. lia.
Qed.

(** X8: remove-last-garment pressed [n] times from active index [i]
    leaves the active index at [max 0 (i - n)]: it stops at the base
    layer.  No layer is deleted from the outfit history on the way. *)
Theorem repeated_removal_stops_at_base_layer
        (n : nat) (s : AppState) (cs : HistoryState) :
  App.currentState s = Some cs ->
  0 <= currentOutfitIndex cs ->
  App.currentOutfitIndex
    (Nat.iter n (fun st => App.handleRemoveLastGarment st st) s)
  = Z.max 0 (currentOutfitIndex cs - Z.of_nat n)
  /\ App.outfitHistory
       (Nat.iter n (fun st => App.handleRemoveLastGarment st st) s)
     = outfitHistory cs.
Proof.
  assert (Hshift : forall (m : nat) (st : AppState),
             Nat.iter (S m) (fun st => App.handleRemoveLastGarment st st) st
             = Nat.iter m (fun st => App.handleRemoveLastGarment st st)
                        (App.handleRemoveLastGarment st st)).
  { intros m st. induction m as [| m IHm]; [reflexivity |].
    simpl in *. rewrite IHm. reflexivity. }
  revert s cs. induction n as [| n IH]; intros s cs Hcs Hpos.
  - simpl. unfold App.currentOutfitIndex, App.outfitHistory. rewrite Hcs.
    split; [lia | reflexivity].
  - rewrite Hshift.
    destruct (Z.eq_dec (currentOutfitIndex cs) 0) as [H0 | Hne].
    + rewrite handleRemoveLastGarment_floor
        by (unfold App.currentOutfitIndex; rewrite Hcs; lia).
      destruct (IH s cs Hcs Hpos) as [Hi Hh]. rewrite Hi, Hh.
      split; [lia | reflexivity].
    + pose proof (handleRemoveLastGarment_step s cs Hcs ltac:(lia)) as Hstep.
      destruct (IH _ _ Hstep ltac:(simpl; lia)) as [Hi Hh]. rewrite Hi, Hh.
      simpl. split; [lia | reflexivity].
Qed.

(** X9: a garment removed with remove-last-garment and selected again is
    put back without a call: the redo check fires, and the snapshot
    recorded has the outfit history and the active index of before the
    removal, at pose 0. *)
Theorem removed_garment_is_reapplied_without_call
        (c : AppState) (cs : HistoryState) (top : OutfitLayer) (g G : WardrobeItem)
        (file : File) :
  App.currentState c = Some cs ->
  Js.truthy (generatedModelUrl c) = true ->
  isLoading c = false ->
  0 < currentOutfitIndex cs ->
  Js.get (outfitHistory cs) (currentOutfitIndex cs) = Some top ->
  garment top = Some g ->
  id g = id G ->
  synthesisRequest
    (App.handleGarmentSelect poseInstructions getFriendlyErrorMessage
                             (App.handleRemoveLastGarment c c) file G) = None
  /\ App.currentState
       (before (App.handleGarmentSelect poseInstructions getFriendlyErrorMessage
                                        (App.handleRemoveLastGarment c c) file G)
               (App.handleRemoveLastGarment c c))
     = Some (mkHistoryState (outfitHistory cs) (currentOutfitIndex cs) 0)
  /\ App.activeOutfitLayers
       (before (App.handleGarmentSelect poseInstructions getFriendlyErrorMessage
                                        (App.handleRemoveLastGarment c c) file G)
               (App.handleRemoveLastGarment c c))
     = App.activeOutfitLayers c.
Proof.
  intros Hcs Hurl Hload Hpos Htop Hg Hid.
  pose proof (handleRemoveLastGarment_step c cs Hcs Hpos) as Hstep.
  set (s1 := App.handleRemoveLastGarment c c) in *.
  assert (Hframe : generatedModelUrl s1 = generatedModelUrl c /\ isLoading s1 = isLoading c).
  { unfold s1, App.handleRemoveLastGarment, App.currentOutfitIndex. rewrite Hcs.
    assert (E : (currentOutfitIndex cs >? 0) = true) by (apply Z.gtb_lt; lia).
    rewrite E. split; reflexivity. }
  destruct Hframe as [Hurl1 Hload1].
  assert (Hredo : App.isGarmentRedo s1 G = true).
  { unfold App.isGarmentRedo, App.outfitHistory, App.currentOutfitIndex, App.garmentId.
    rewrite Hstep. simpl.
    replace (currentOutfitIndex cs - 1 + 1) with (currentOutfitIndex cs) by lia.
    rewrite Htop, Hg. simpl. rewrite Hid. apply String.eqb_refl. }
  assert (Hshape : App.handleGarmentSelect poseInstructions getFriendlyErrorMessage s1 file G
                   = Return (App.recordNewState s1
                               (withCurrentPoseIndex 0
                                  (withCurrentOutfitIndex
                                     (App.currentOutfitIndex s1 + 1)
                                     (mkHistoryState (outfitHistory cs)
                                                     (currentOutfitIndex cs - 1) 0))))).
  { unfold App.handleGarmentSelect. rewrite Hstep, Hurl1, Hurl, Hload1, Hload, Hredo.
    reflexivity. }
  rewrite Hshape. simpl synthesisRequest. simpl before.
  assert (Hafter : App.currentState
                     (App.recordNewState s1
                        (withCurrentPoseIndex 0
                           (withCurrentOutfitIndex
                              (App.currentOutfitIndex s1 + 1)
                              (mkHistoryState (outfitHistory cs)
                                              (currentOutfitIndex cs - 1) 0))) s1)
                   = Some (mkHistoryState (outfitHistory cs) (currentOutfitIndex cs) 0)).
  { rewrite recordNewState_currentState. unfold App.currentOutfitIndex. rewrite Hstep.
    unfold withCurrentPoseIndex, withCurrentOutfitIndex. simpl.
    replace (currentOutfitIndex cs - 1 + 1) with (currentOutfitIndex cs) by lia.
    reflexivity. }
  split; [reflexivity |]. split; [exact Hafter |].
  match type of Hafter with
  | App.currentState ?t = _ => set (s2 := t) in *
  end.
  unfold App.activeOutfitLayers, App.outfitHistory, App.currentOutfitIndex.
  rewrite Hafter, Hcs. reflexivity.
Qed.

End Removal.

(** ** The pose arrows *)

(** In an array without repetition, [indexOf] of an element is its
    position. *)
Lemma indexOf_NoDup (arr : list string) (i : Z) (x : string) :
  NoDup arr -> Js.get arr i = Some x -> Js.indexOf arr (Some x) = i.
Proof.
  intros Hnd Hget. simpl.
  assert (Hx : String.eqb x x = true) by apply String.eqb_refl.
  pose proof (findIndex_hit (String.eqb x) arr i x Hget Hx) as Hfi.
  destruct (findIndex_found (String.eqb x) arr _ eq_refl (proj1 Hfi))
    as (y & Hy & Heq & _).
  apply String.eqb_eq in Heq. subst y.
  pose proof (get_Some_range _ _ _ Hget) as Hrange.
  unfold Js.get in Hy, Hget.
  destruct (Js.findIndex (String.eqb x) arr <? 0); [discriminate |].
  destruct (i <? 0); [discriminate |].
  assert (Hlt : (Z.to_nat (Js.findIndex (String.eqb x) arr) < List.length arr)%nat)
    by (unfold Js.length in Hrange; lia).
  pose proof (proj1 (NoDup_nth_error arr) Hnd _ (Z.to_nat i) Hlt
                    (eq_trans Hy (eq_sym Hget))).
  lia.
Qed.

Lemma rem_shift (i n : Z) : 0 <= i < n -> Js.rem (i + n) n = i.
Proof.
  intros H. unfold Js.rem. symmetry. apply (Z.rem_unique (i + n) n 1); lia.
Qed.

Section Arrows.

Variable poseInstructions : list string.

(** X10: two poses generated one after the other are one arrow apart in
    both directions: from the first, "next" selects the second; from the
    second, "previous" selects the first. *)
Theorem consecutive_generated_poses_round_trip
        (available : list string) (i ja jb : Z) (a b : string) :
  NoDup available ->
  Js.get available i = Some a ->
  Js.get available (i + 1) = Some b ->
  Js.indexOf poseInstructions (Some a) = ja -> ja <> -1 ->
  Js.indexOf poseInstructions (Some b) = jb -> jb <> -1 ->
  Canvas.handleNextPose false poseInstructions ja available = Some jb
  /\ Canvas.handlePreviousPose false poseInstructions jb available = Some ja.
Proof.
  intros Hnd Ha Hb Hja Hja' Hjb Hjb'.
  pose proof (get_Some_range _ _ _ Ha) as Hra.
  pose proof (get_Some_range _ _ _ Hb) as Hrb.
  pose proof (indexOf_found _ _ _ Hja Hja') as Hpa.
  pose proof (indexOf_found _ _ _ Hjb Hjb') as Hpb.
  pose proof (indexOf_NoDup _ _ _ Hnd Ha) as Hia.
  pose proof (indexOf_NoDup _ _ _ Hnd Hb) as Hib.
  split.
  - unfold Canvas.handleNextPose. rewrite Hpa, Hia.
    assert (E1 : ((i =? -1) || (Js.length available =? 0)) = false).
    { apply orb_false_iff. split; apply Z.eqb_neq; lia. }
    assert (E2 : (i + 1 <? Js.length available) = true) by (apply Z.ltb_lt; lia).
    rewrite E1, E2, Hb, Hjb.
    assert (E3 : (jb =? -1) = false) by (apply Z.eqb_neq; exact Hjb').
    rewrite E3. reflexivity.
  - unfold Canvas.handlePreviousPose. simpl orb.
    assert (E0 : (Js.length available <=? 1) = false) by (apply Z.leb_gt; lia).
    rewrite E0, Hpb, Hib.
    assert (E1 : (i + 1 =? -1) = false) by (apply Z.eqb_neq; lia).
    rewrite E1.
    replace (i + 1 - 1 + Js.length available) with (i + Js.length available) by lia.
    rewrite rem_shift by lia. rewrite Ha, Hja.
    assert (E3 : (ja =? -1) = false) by (apply Z.eqb_neq; exact Hja').
    rewrite E3. reflexivity.
Qed.

(** X11: "previous" wraps inside the generated poses: from the pose
    generated first it selects the pose generated last. *)
Theorem previous_wraps_to_last_generated
        (available : list string) (ja jz : Z) (a z : string) :
  NoDup available ->
  1 < Js.length available ->
  Js.get available 0 = Some a ->
  Js.get available (Js.length available - 1) = Some z ->
  Js.indexOf poseInstructions (Some a) = ja -> ja <> -1 ->
  Js.indexOf poseInstructions (Some z) = jz -> jz <> -1 ->
  Canvas.handlePreviousPose false poseInstructions ja available = Some jz.
Proof.
  intros Hnd Hlen Ha Hz Hja Hja' Hjz Hjz'.
  pose proof (indexOf_found _ _ _ Hja Hja') as Hpa.
  pose proof (indexOf_NoDup _ _ _ Hnd Ha) as Hia.
  unfold Canvas.handlePreviousPose. simpl orb.
  assert (E0 : (Js.length available <=? 1) = false) by (apply Z.leb_gt; lia).
  rewrite E0, Hpa, Hia. change (0 =? -1) with false. cbv iota.
  replace (0 - 1 + Js.length available) with (Js.length available - 1) by lia.
  assert (Hrem : Js.rem (Js.length available - 1) (Js.length available)
                 = Js.length available - 1).
  { unfold Js.rem. symmetry.
    apply (Z.rem_unique (Js.length available - 1) (Js.length available) 0); lia. }
  rewrite Hrem, Hz, Hjz.
  assert (E3 : (jz =? -1) = false) by (apply Z.eqb_neq; exact Hjz').
  rewrite E3. reflexivity.
Qed.

(** With a non-empty master list and a pose index that is not negative,
    an index an arrow selects points into the master list. *)
Lemma arrows_in_range
        (loading : bool) (currentIndex : Z) (available : list string) (i : Z) :
  poseInstructions <> [] ->
  0 <= currentIndex ->
  Canvas.handleNextPose loading poseInstructions currentIndex available = Some i
  \/ Canvas.handlePreviousPose loading poseInstructions currentIndex available = Some i ->
  0 <= i < Js.length poseInstructions.
Proof.
  intros Hne Hpos Hsel.
  assert (Hn : 0 < Js.length poseInstructions).
  { unfold Js.length. destruct poseInstructions; [contradiction | simpl; lia]. }
  assert (Hfound : forall x, Js.indexOf poseInstructions x <> -1 ->
                             0 <= Js.indexOf poseInstructions x < Js.length poseInstructions).
  { intros [x |] Hx; simpl in *; [| contradiction].
    destruct (findIndex_range (String.eqb x) poseInstructions); [contradiction | assumption]. }
  destruct Hsel as [Hnext | Hprev].
  - unfold Canvas.handleNextPose in Hnext.
    destruct loading; [discriminate |].
    destruct ((Js.indexOf available (Js.get poseInstructions currentIndex) =? -1)
              || (Js.length available =? 0)).
    + injection Hnext as <-. apply Z.rem_bound_pos; lia.
    + destruct (Js.indexOf available (Js.get poseInstructions currentIndex) + 1
                <? Js.length available).
      * destruct (Js.indexOf poseInstructions _ =? -1) eqn:E; [discriminate |].
        injection Hnext as <-. apply Hfound. apply Z.eqb_neq. exact E.
      * injection Hnext as <-. apply Z.rem_bound_pos; lia.
  - unfold Canvas.handlePreviousPose in Hprev.
    destruct (loading || (Js.length available <=? 1)); [discriminate |].
    destruct (Js.indexOf available (Js.get poseInstructions currentIndex) =? -1).
    + injection Hprev as <-. apply Z.rem_bound_pos; lia.
    + destruct (Js.indexOf poseInstructions _ =? -1) eqn:E; [discriminate |].
      injection Hprev as <-. apply Hfound. apply Z.eqb_neq. exact E.
Qed.

(** X12: with a non-empty master list and a pose index that is not
    negative, whatever index an arrow selects points into the master
    list. *)
Theorem arrows_select_inside_master_list
        (loading : bool) (currentIndex : Z) (available : list string) (i : Z) :
  poseInstructions <> [] ->
  0 <= currentIndex ->
  Canvas.handleNextPose loading poseInstructions currentIndex available = Some i
  \/ Canvas.handlePreviousPose loading poseInstructions currentIndex available = Some i ->
  0 <= i < Js.length poseInstructions.
Proof. exact (arrows_in_range loading currentIndex available i). Qed.

End Arrows.

Section ArrowCalls.

Variable poseInstructions : list string.
Variable getFriendlyErrorMessage : Thrown -> string -> string.

(** X13: while the pose on screen is among the generated ones and is not
    the last of them (and no stored image is the empty string), "next"
    makes no call: it moves to the pose generated after it. *)
Theorem next_inside_generated_poses_makes_no_call (c : AppState) (label : string) :
  Js.get poseInstructions (App.currentPoseIndex c) = Some label ->
  In label (App.availablePoseKeys c) ->
  Js.indexOf (App.availablePoseKeys c) (Some label) + 1
  < Js.length (App.availablePoseKeys c) ->
  (forall layer v,
      Js.get (App.outfitHistory c) (App.currentOutfitIndex c) = Some layer ->
      In v (Obj.values (poseImages layer)) -> v <> "") ->
  synthesisRequest (App.nextPose poseInstructions getFriendlyErrorMessage c) = None.
Proof.
  intros Hlabel Hin Hnotlast Himages.
  pose proof (indexOf_present _ _ Hin) as Hci.
  unfold App.nextPose, Canvas.handleNextPose.
  destruct (isLoading c); [reflexivity |]. rewrite Hlabel.
  assert (E1 : ((Js.indexOf (App.availablePoseKeys c) (Some label) =? -1)
                || (Js.length (App.availablePoseKeys c) =? 0)) = false).
  { apply orb_false_iff. split; apply Z.eqb_neq; lia. }
  assert (E2 : (Js.indexOf (App.availablePoseKeys c) (Some label) + 1
                <? Js.length (App.availablePoseKeys c)) = true)
    by (apply Z.ltb_lt; exact Hnotlast).
  rewrite E1, E2.
  destruct (get_in_range (App.availablePoseKeys c)
              (Js.indexOf (App.availablePoseKeys c) (Some label) + 1) ltac:(lia))
    as [l Hl].
  rewrite Hl.
  destruct (Js.indexOf poseInstructions (Some l) =? -1) eqn:E; [reflexivity |].
  apply Z.eqb_neq in E. change (negb false) with true. cbv iota.
  unfold App.onSelectPose.
  pose proof (indexOf_found _ _ _ eq_refl E) as Hpl.
  pose proof (get_In _ _ _ Hl) as Hlin.
  unfold App.availablePoseKeys in Hlin.
  destruct (Js.length (App.outfitHistory c) =? 0); [contradiction |].
  destruct (Js.get (App.outfitHistory c) (App.currentOutfitIndex c))
    as [layer |] eqn:Hlayer; [| contradiction].
  destruct (Obj_get_key _ _ Hlin) as (v & Hv & Hvin).
  apply (handlePoseSelect_cached poseInstructions getFriendlyErrorMessage c _ layer Hlayer).
  rewrite Hpl. simpl Js.propKey. rewrite Hv.
  apply truthy_nonempty. exact (Himages layer v eq_refl Hvin).
Qed.

End ArrowCalls.

(** * Further invariants of the running application *)

(** ** How a property of states is kept *)

Section Keeping.

Variable poseInstructions : list string.
Variable getFriendlyErrorMessage : Thrown -> string -> string.

Local Abbreviation select :=
  (App.handleGarmentSelect poseInstructions getFriendlyErrorMessage).
Local Abbreviation poseSelect :=
  (App.handlePoseSelect poseInstructions getFriendlyErrorMessage).

(** A property that reads the log, the cursor and the wardrobe only. *)
Variable P : AppState -> Prop.
Hypothesis P_frame :
  forall s s', history s' = history s -> historyIndex s' = historyIndex s ->
               wardrobe s' = wardrobe s -> P s -> P s'.

(** Garment selection keeps [P] when its two recordings do: the one of
    the redo path and the one of a successful application. *)
Lemma garment_select_keeps (c : AppState) (file : File) (G : WardrobeItem) :
  (forall cs s,
      App.currentState c = Some cs -> App.isGarmentRedo c G = true -> P s ->
      P (App.recordNewState c
           (withCurrentPoseIndex 0
              (withCurrentOutfitIndex (App.currentOutfitIndex c + 1) cs)) s)) ->
  (forall cs url s,
      App.currentState c = Some cs -> P s ->
      P (setWardrobe
           (if Js.found (fun item => String.eqb (id item) (id G)) (wardrobe s)
            then wardrobe s else wardrobe s ++ [G])
           (App.recordNewState c
              (mkHistoryState
                 (App.baseHistorySlice c G
                  ++ [mkOutfitLayer (Some G)
                        [(Js.propKey (Js.get poseInstructions (App.currentPoseIndex c)),
                          url)]])
                 (Js.length
                    (App.baseHistorySlice c G
                     ++ [mkOutfitLayer (Some G)
                           [(Js.propKey (Js.get poseInstructions (App.currentPoseIndex c)),
                             url)]]) - 1)
                 (App.currentPoseIndex c)) s))) ->
  Preserves P (select c file G).
Proof.
  intros Hredo Happly s Hs. unfold App.handleGarmentSelect.
  assert (Hsame : forall s', history s' = history s -> historyIndex s' = historyIndex s ->
                             wardrobe s' = wardrobe s -> P s')
    by (intros s' H1 H2 H3; exact (P_frame s s' H1 H2 H3 Hs)).
  destruct (App.currentState c) as [cs |] eqn:Hcs; [| split; [| intros out]; exact Hs].
  destruct (negb (Js.truthy (generatedModelUrl c)) || isLoading c);
    [split; [| intros out]; exact Hs |].
  destruct (App.isGarmentRedo c G) eqn:Hr.
  - split; [| intros out; exact Hs]. simpl before. apply (Hredo cs s eq_refl eq_refl Hs).
  - cbv zeta.
    destruct (Js.get (App.baseHistorySlice c G)
                     (Js.length (App.baseHistorySlice c G) - 1)) as [baseLayer |];
      [| split; [apply Hsame; reflexivity | intros out; exact Hs]].
    destruct (Js.nullish _ _) as [img |];
      [| split; [apply Hsame; reflexivity | intros out; exact Hs]].
    destruct (Js.truthy (Some img));
      [| split; [apply Hsame; reflexivity | intros out; exact Hs]].
    split; [apply Hsame; reflexivity |].
    intros [url | err]; [| apply Hsame; reflexivity].
    simpl after.
    eapply P_frame; [ .. | exact (Happly cs url s eq_refl Hs)]; reflexivity.
Qed.

(** Pose selection keeps [P] when its two recordings do: the one of a
    cached pose and the one of a generated pose. *)
Lemma pose_select_keeps (c : AppState) (newIndex : Z) :
  (forall cs s,
      App.currentState c = Some cs -> P s ->
      P (App.recordNewState c (withCurrentPoseIndex newIndex cs) s)) ->
  (forall cs url s,
      App.currentState c = Some cs -> P s ->
      P (App.recordNewState c
           (withCurrentPoseIndex newIndex
              (withOutfitHistory
                 (Js.mapi
                    (fun layer index =>
                       if index =? App.currentOutfitIndex c then
                         withPoseImages
                           (Obj.set (poseImages layer)
                                    (Js.propKey (Js.get poseInstructions newIndex)) url)
                           layer
                       else layer)
                    (App.outfitHistory c))
                 cs)) s)) ->
  Preserves P (poseSelect c newIndex).
Proof.
  intros Hcached Hgen s Hs. unfold App.handlePoseSelect.
  assert (Hsame : forall s', history s' = history s -> historyIndex s' = historyIndex s ->
                             wardrobe s' = wardrobe s -> P s')
    by (intros s' H1 H2 H3; exact (P_frame s s' H1 H2 H3 Hs)).
  destruct (App.currentState c) as [cs |] eqn:Hcs; [| split; [| intros out]; exact Hs].
  destruct (isLoading c || (Js.length (App.outfitHistory c) =? 0)
            || (newIndex =? App.currentPoseIndex c));
    [split; [| intros out]; exact Hs |].
  cbv zeta.
  destruct (Js.get (App.outfitHistory c) (App.currentOutfitIndex c)) as [layer |];
    [| split; [| intros out]; exact Hs].
  destruct (Js.truthy (Obj.get (poseImages layer) _)).
  - split; [| intros out; exact Hs]. simpl before. exact (Hcached cs s eq_refl Hs).
  - destruct (Js.get (Obj.values (poseImages layer)) 0) as [img |];
      [| split; [| intros out]; exact Hs].
    destruct (Js.truthy (Some img)); [| split; [| intros out]; exact Hs].
    split; [apply Hsame; reflexivity |].
    intros [url | err]; [| apply Hsame; reflexivity].
    simpl after.
    eapply P_frame; [ .. | exact (Hgen cs url s eq_refl Hs)]; reflexivity.
Qed.

(** What is left to show for [P] to hold wherever the application gets. *)
Hypothesis P_initial : P initialAppState.
Hypothesis P_finalized :
  forall u g s, P s -> P (App.handleModelFinalized poseInstructions u g s).
Hypothesis P_startOver : forall s, P s -> P (App.handleStartOver s).
Hypothesis P_undo : forall s, P s -> P (App.handleUndo s s).
Hypothesis P_redo : forall s, P s -> P (App.handleRedo s s).
Hypothesis P_remove : forall s, P s -> P (App.handleRemoveLastGarment s s).
Hypothesis P_garment : forall c file G, P c -> Preserves P (select c file G).
Hypothesis P_menu :
  forall c i, P c -> 0 <= i < Js.length poseInstructions -> Preserves P (poseSelect c i).
Hypothesis P_previous :
  forall c, P c ->
            Preserves P (App.previousPose poseInstructions getFriendlyErrorMessage c).
Hypothesis P_next :
  forall c, P c -> Preserves P (App.nextPose poseInstructions getFriendlyErrorMessage c).

Lemma launch_keeps (sys : Sys.t) (a : Async) :
  KeptSys P sys -> Preserves P a -> KeptSys P (Sys.launch sys a).
Proof.
  intros (Hui & Hcv & Hfl) Ha. destruct a as [u | u req k]; simpl.
  - split; [exact (proj1 (Ha _ Hui)) | split; [exact Hcv | exact Hfl]].
  - split; [exact (proj1 (Ha _ Hui)) | split; [exact Hcv |]].
    apply Forall_app. split; [exact Hfl |].
    constructor; [| constructor]. intros out s Hs. exact (proj2 (Ha s Hs) out).
Qed.

Lemma onGarmentSelect_keeps (sys : Sys.t) (c : AppState)
      (selected : option (File * WardrobeItem)) :
  KeptSys P sys -> P c ->
  KeptSys P (Sys.onGarmentSelect poseInstructions getFriendlyErrorMessage sys c selected).
Proof.
  intros Hsys Hc. destruct selected as [[file info] |]; simpl; [| exact Hsys].
  apply launch_keeps; [exact Hsys | apply P_garment; exact Hc].
Qed.

Lemma step_keeps (sys : Sys.t) (e : Sys.Event) :
  KeptSys P sys -> KeptSys P (Sys.step poseInstructions getFriendlyErrorMessage sys e).
Proof.
  intros Hsys. pose proof Hsys as (Hui & Hcv & Hfl). unfold Sys.step.
  destruct (Sys.enabled poseInstructions sys e) eqn:Hen; simpl negb; cbv iota;
    [| exact Hsys].
  destruct e as [u g | | | | | | | item | n blob | files tab now objectUrl
                 | | index | | | n out].
  - split; [apply P_finalized; exact Hui | split; assumption].
  - split; [apply P_startOver; exact Hui | split; assumption].
  - split; [apply P_undo; exact Hui | split; assumption].
  - split; [apply P_redo; exact Hui | split; assumption].
  - split; [| split; assumption].
    apply (P_frame (Sys.ui sys)); [reflexivity | reflexivity | reflexivity | exact Hui].
  - split; [| split; assumption].
    apply (P_frame (Sys.ui sys)); [reflexivity | reflexivity | reflexivity | exact Hui].
  - split; [| split; assumption].
    apply (P_frame (Sys.ui sys)); [reflexivity | reflexivity | reflexivity | exact Hui].
  - split; [exact Hui | split; [| exact Hfl]]. simpl.
    apply Forall_app. split; [exact Hcv |]. constructor; [exact Hui | constructor].
  - destruct (nth_error (Sys.converting sys) n) as [[c item] |] eqn:Hn; [| exact Hsys].
    apply onGarmentSelect_keeps.
    + split; [exact Hui | split; [| exact Hfl]]. simpl.
      apply Forall_removeNth. exact Hcv.
    + apply nth_error_In in Hn. exact (proj1 (Forall_forall _ _) Hcv _ Hn).
  - apply onGarmentSelect_keeps; assumption.
  - split; [apply P_remove; exact Hui | split; assumption].
  - apply launch_keeps; [exact Hsys |]. apply P_menu; [exact Hui |].
    simpl in Hen. repeat (apply andb_true_iff in Hen; destruct Hen as [Hen ?]).
    split; [apply Z.leb_le | apply Z.ltb_lt]; assumption.
  - apply launch_keeps; [exact Hsys | apply P_previous; exact Hui].
  - apply launch_keeps; [exact Hsys | apply P_next; exact Hui].
  - destruct (nth_error (Sys.inflight sys) n) as [k |] eqn:Hk; [| exact Hsys].
    split; [| split; [exact Hcv |]]; simpl.
    + apply nth_error_In in Hk.
      exact (proj1 (Forall_forall _ _) Hfl k Hk out (Sys.ui sys) Hui).
    + apply Forall_removeNth. exact Hfl.
Qed.

(** A property kept by every handler holds in every state the
    application reaches. *)
Lemma reachable_keeps (s : AppState) :
  Sys.reachable poseInstructions getFriendlyErrorMessage s -> P s.
Proof.
  intros [events <-]. unfold Sys.run.
  assert (Hinit : KeptSys P Sys.initial)
    by (split; [exact P_initial | split; constructor]).
  revert Hinit. generalize Sys.initial as sys.
  induction events as [| e rest IH]; intros sys Hsys; simpl; [exact (proj1 Hsys) |].
  apply IH. apply step_keeps. exact Hsys.
Qed.

End Keeping.

(** ** Pose indices, pose images and the wardrobe *)

Lemma recordNewState_Forall (Q : HistoryState -> Prop)
      (c : AppState) (next : HistoryState) (s : AppState) :
  Forall Q (history c) -> Q next -> Forall Q (history (App.recordNewState c next s)).
Proof.
  intros Hall Hnext. rewrite recordNewState_history.
  destruct (slice_is_prefix (history c) (historyIndex c + 1)) as [k ->].
  apply Forall_app. split; [apply Forall_prefix; exact Hall |].
  constructor; [exact Hnext | constructor].
Qed.

Lemma current_snapshot_Forall (Q : HistoryState -> Prop) (c : AppState)
      (cs : HistoryState) :
  Forall Q (history c) -> App.currentState c = Some cs -> Q cs.
Proof.
  intros Hall Hcs. apply get_In in Hcs. exact (proj1 (Forall_forall _ _) Hall cs Hcs).
Qed.

Lemma handleRemoveLastGarment_Forall (Q : HistoryState -> Prop) (s : AppState) :
  (forall cs i, Q cs -> Q (withCurrentPoseIndex 0 (withCurrentOutfitIndex i cs))) ->
  Forall Q (history s) -> Forall Q (history (App.handleRemoveLastGarment s s)).
Proof.
  intros HQ Hall. unfold App.handleRemoveLastGarment.
  destruct (App.currentState s) as [cs |] eqn:Hcs; [| exact Hall].
  destruct (App.currentOutfitIndex s >? 0); [| exact Hall].
  apply recordNewState_Forall; [exact Hall |].
  apply HQ. exact (current_snapshot_Forall Q s cs Hall Hcs).
Qed.

Lemma baseHistorySlice_prefix (c : AppState) (G : WardrobeItem) :
  exists k : nat, App.baseHistorySlice c G = firstn k (App.outfitHistory c).
Proof.
  unfold App.baseHistorySlice.
  destruct (negb _ && _); apply slice_is_prefix.
Qed.

Lemma Forall_mapi {A} (Q : A -> Prop) (f : A -> Z -> A) (l : list A) :
  (forall x i, Q x -> Q (f x i)) -> Forall Q l -> Forall Q (Js.mapi f l).
Proof.
  intros Hf. unfold Js.mapi. generalize 0.
  induction l as [| x rest IH]; intros o Hall; simpl; [constructor |].
  inversion Hall as [| ? ? Hx Hrest]; subst.
  constructor; [apply Hf; exact Hx | apply IH; exact Hrest].
Qed.

Lemma onSelectPose_keeps (P : AppState -> Prop)
      (poseInstructions : list string)
      (getFriendlyErrorMessage : Thrown -> string -> string)
      (c : AppState) (selected : option Z) :
  (forall i, selected = Some i ->
             Preserves P (App.handlePoseSelect poseInstructions getFriendlyErrorMessage c i)) ->
  Preserves P (App.onSelectPose poseInstructions getFriendlyErrorMessage c selected).
Proof.
  intros H. destruct selected as [i |]; simpl.
  - apply H. reflexivity.
  - intros s Hs. split; [| intros out]; exact Hs.
Qed.

Section ReachableShape.

Variable poseInstructions : list string.
Variable getFriendlyErrorMessage : Thrown -> string -> string.

Lemma PosesInRange_menu (c : AppState) (i : Z) :
  PosesInRange poseInstructions c ->
  0 <= i < Js.length poseInstructions ->
  Preserves (PosesInRange poseInstructions)
            (App.handlePoseSelect poseInstructions getFriendlyErrorMessage c i).
Proof.
  intros Hc Hi. apply pose_select_keeps.
  - intros s s' H _ _. unfold PosesInRange. rewrite H. exact (fun x => x).
  - intros cs s Hcs Hs. apply recordNewState_Forall; [exact Hc | exact Hi].
  - intros cs url s Hcs Hs. apply recordNewState_Forall; [exact Hc | exact Hi].
Qed.

Lemma PosesInRange_current (c : AppState) :
  poseInstructions <> [] -> PosesInRange poseInstructions c ->
  0 <= App.currentPoseIndex c < Js.length poseInstructions.
Proof.
  intros Hne Hc. unfold App.currentPoseIndex.
  destruct (App.currentState c) as [cs |] eqn:Hcs.
  - exact (current_snapshot_Forall _ c cs Hc Hcs).
  - unfold Js.length. destruct poseInstructions; [contradiction | simpl; lia].
Qed.

(** X14: with a non-empty master list, in every state the application
    reaches each snapshot's pose index points into the master list; the
    pose on screen always has a label. *)
Theorem reachable_pose_index_in_master_list (s : AppState) :
  poseInstructions <> [] ->
  Sys.reachable poseInstructions getFriendlyErrorMessage s ->
  PosesInRange poseInstructions s
  /\ exists label, Js.get poseInstructions (App.currentPoseIndex s) = Some label.
Proof.
  intros Hne Hreach.
  assert (Hn : 0 < Js.length poseInstructions).
  { unfold Js.length. destruct poseInstructions; [contradiction | simpl; lia]. }
  assert (Hin : PosesInRange poseInstructions s).
  { revert s Hreach.
    apply (reachable_keeps poseInstructions getFriendlyErrorMessage
                           (PosesInRange poseInstructions)).
    - intros s s' H _ _. unfold PosesInRange. rewrite H. exact (fun x => x).
    - constructor.
    - intros u g s _. constructor; [simpl; lia | constructor].
    - intros s _. constructor.
    - intros s Hs. unfold PosesInRange.
      destruct (handleUndo_frame s s) as (-> & _). exact Hs.
    - intros s Hs. unfold PosesInRange.
      destruct (handleRedo_frame s s) as (-> & _). exact Hs.
    - intros s Hs. apply handleRemoveLastGarment_Forall; [| exact Hs].
      intros cs i _. simpl. lia.
    - intros c file G Hc. apply garment_select_keeps.
      + intros s s' H _ _. unfold PosesInRange. rewrite H. exact (fun x => x).
      + intros cs s Hcs _ Hs. apply recordNewState_Forall; [exact Hc | simpl; lia].
      + intros cs url s Hcs Hs.
        apply (recordNewState_Forall _ c _ s Hc). simpl.
        exact (PosesInRange_current c Hne Hc).
    - intros c i Hc Hi. apply PosesInRange_menu; assumption.
    - intros c Hc. apply onSelectPose_keeps. intros i Hsel.
      apply PosesInRange_menu; [exact Hc |].
      apply (arrows_in_range poseInstructions (isLoading c)
               (App.currentPoseIndex c) (App.availablePoseKeys c) i Hne);
        [exact (proj1 (PosesInRange_current c Hne Hc)) | right; exact Hsel].
    - intros c Hc. apply onSelectPose_keeps. intros i Hsel.
      apply PosesInRange_menu; [exact Hc |].
      apply (arrows_in_range poseInstructions (isLoading c)
               (App.currentPoseIndex c) (App.availablePoseKeys c) i Hne);
        [exact (proj1 (PosesInRange_current c Hne Hc)) | left; exact Hsel]. }
  split; [exact Hin |].
  apply get_in_range. exact (PosesInRange_current s Hne Hin).
Qed.

(** Every layer of every snapshot of a reachable state holds a pose
    image. *)
Lemma reachable_layers_have_images (s : AppState) :
  Sys.reachable poseInstructions getFriendlyErrorMessage s -> LayersHaveImages s.
Proof.
  revert s.
  apply (reachable_keeps poseInstructions getFriendlyErrorMessage LayersHaveImages).
  - intros s s' H _ _. unfold LayersHaveImages. rewrite H. exact (fun x => x).
  - constructor.
  - intros u g s _. constructor; [| constructor].
    simpl. constructor; [discriminate | constructor].
  - intros s _. constructor.
  - intros s Hs. unfold LayersHaveImages.
    destruct (handleUndo_frame s s) as (-> & _). exact Hs.
  - intros s Hs. unfold LayersHaveImages.
    destruct (handleRedo_frame s s) as (-> & _). exact Hs.
  - intros s Hs. apply handleRemoveLastGarment_Forall; [| exact Hs].
    intros cs i H. exact H.
  - intros c file G Hc. apply garment_select_keeps.
    + intros s s' H _ _. unfold LayersHaveImages. rewrite H. exact (fun x => x).
    + intros cs s Hcs _ Hs. apply recordNewState_Forall; [exact Hc |].
      exact (current_snapshot_Forall _ c cs Hc Hcs).
    + intros cs url s Hcs Hs.
      apply (recordNewState_Forall _ c _ s Hc). simpl.
      destruct (baseHistorySlice_prefix c G) as [k ->].
      apply Forall_app. split.
      * apply Forall_prefix. unfold App.outfitHistory. rewrite Hcs.
        exact (current_snapshot_Forall _ c cs Hc Hcs).
      * constructor; [discriminate | constructor].
  - intros c i Hc _. apply pose_select_keeps.
    + intros s s' H _ _. unfold LayersHaveImages. rewrite H. exact (fun x => x).
    + intros cs s Hcs Hs. apply recordNewState_Forall; [exact Hc |].
      exact (current_snapshot_Forall _ c cs Hc Hcs).
    + intros cs url s Hcs Hs. apply recordNewState_Forall; [exact Hc |].
      simpl. apply Forall_mapi.
      * intros l j Hl. destruct (j =? _); [apply Obj_set_nonempty | exact Hl].
      * unfold App.outfitHistory. rewrite Hcs.
        exact (current_snapshot_Forall _ c cs Hc Hcs).
  - intros c Hc. apply onSelectPose_keeps. intros i _. apply pose_select_keeps.
    + intros s s' H _ _. unfold LayersHaveImages. rewrite H. exact (fun x => x).
    + intros cs s Hcs Hs. apply recordNewState_Forall; [exact Hc |].
      exact (current_snapshot_Forall _ c cs Hc Hcs).
    + intros cs url s Hcs Hs. apply recordNewState_Forall; [exact Hc |].
      simpl. apply Forall_mapi.
      * intros l j Hl. destruct (j =? _); [apply Obj_set_nonempty | exact Hl].
      * unfold App.outfitHistory. rewrite Hcs.
        exact (current_snapshot_Forall _ c cs Hc Hcs).
  - intros c Hc. apply onSelectPose_keeps. intros i _. apply pose_select_keeps.
    + intros s s' H _ _. unfold LayersHaveImages. rewrite H. exact (fun x => x).
    + intros cs s Hcs Hs. apply recordNewState_Forall; [exact Hc |].
      exact (current_snapshot_Forall _ c cs Hc Hcs).
    + intros cs url s Hcs Hs. apply recordNewState_Forall; [exact Hc |].
      simpl. apply Forall_mapi.
      * intros l j Hl. destruct (j =? _); [apply Obj_set_nonempty | exact Hl].
      * unfold App.outfitHistory. rewrite Hcs.
        exact (current_snapshot_Forall _ c cs Hc Hcs).
Qed.

End ReachableShape.

Lemma found_false_id (G : WardrobeItem) (w : list WardrobeItem) :
  Js.found (fun item => String.eqb (id item) (id G)) w = false ->
  ~ In (id G) (map id w).
Proof.
  unfold Js.found. induction w as [| x rest IH]; simpl; intros Hf Hin; [exact Hin |].
  apply orb_false_iff in Hf. destruct Hf as [Hx Hrest].
  destruct Hin as [Heq | Hin].
  - rewrite Heq, String.eqb_refl in Hx. discriminate.
  - exact (IH Hrest Hin).
Qed.

Lemma found_true_id (G : WardrobeItem) (w : list WardrobeItem) :
  Js.found (fun item => String.eqb (id item) (id G)) w = true ->
  In (id G) (map id w).
Proof.
  unfold Js.found. induction w as [| x rest IH]; simpl; intros Hf; [discriminate |].
  apply orb_true_iff in Hf. destruct Hf as [Hx | Hrest].
  - left. apply String.eqb_eq. exact Hx.
  - right. exact (IH Hrest).
Qed.

(** Adding a garment whose id is not there keeps the wardrobe in order. *)
Lemma WardrobeOk_add (G : WardrobeItem) (s : AppState) :
  WardrobeOk s ->
  WardrobeOk (setWardrobe
                (if Js.found (fun item => String.eqb (id item) (id G)) (wardrobe s)
                 then wardrobe s else wardrobe s ++ [G]) s).
Proof.
  intros [Hnd (customs & Hpre)]. unfold WardrobeOk. simpl wardrobe.
  destruct (Js.found _ (wardrobe s)) eqn:Hf.
  - split; [exact Hnd | exists customs; exact Hpre].
  - split.
    + rewrite map_app. simpl. apply NoDup_snoc; [exact Hnd |].
      exact (found_false_id G _ Hf).
    + exists (customs ++ [G]). rewrite Hpre, app_assoc. reflexivity.
Qed.

Lemma handleRemoveLastGarment_wardrobe (s : AppState) :
  wardrobe (App.handleRemoveLastGarment s s) = wardrobe s.
Proof.
  unfold App.handleRemoveLastGarment.
  destruct (App.currentState s); [| reflexivity].
  destruct (App.currentOutfitIndex s >? 0); reflexivity.
Qed.

Section ReachableWardrobe.

Variable poseInstructions : list string.
Variable getFriendlyErrorMessage : Thrown -> string -> string.

Lemma WardrobeOk_pose (c : AppState) (i : Z) :
  Preserves WardrobeOk
            (App.handlePoseSelect poseInstructions getFriendlyErrorMessage c i).
Proof.
  apply pose_select_keeps.
  - intros s s' _ _ H. unfold WardrobeOk. rewrite H. exact (fun x => x).
  - intros cs s _ Hs. exact Hs.
  - intros cs url s _ Hs. exact Hs.
Qed.

(** X15: in every state the application reaches, no two wardrobe items
    have the same id, and the wardrobe begins with the default items, in
    their order: no default item is ever removed, moved or changed. *)
Theorem reachable_wardrobe_ids_are_distinct (s : AppState) :
  Sys.reachable poseInstructions getFriendlyErrorMessage s ->
  NoDup (map id (wardrobe s))
  /\ exists customs, wardrobe s = defaultWardrobe ++ customs.
Proof.
  assert (Hdefault : NoDup (map id defaultWardrobe)).
  { simpl. repeat constructor; simpl; intros H;
      repeat (destruct H as [H | H]; [discriminate H |]); exact H. }
  revert s.
  apply (reachable_keeps poseInstructions getFriendlyErrorMessage WardrobeOk).
  - intros s s' _ _ H. unfold WardrobeOk. rewrite H. exact (fun x => x).
  - split; [exact Hdefault | exists []; reflexivity].
  - intros u g s Hs. exact Hs.
  - intros s _. split; [exact Hdefault | exists []; reflexivity].
  - intros s Hs. unfold WardrobeOk.
    destruct (handleUndo_frame s s) as (_ & -> & _). exact Hs.
  - intros s Hs. unfold WardrobeOk.
    destruct (handleRedo_frame s s) as (_ & -> & _). exact Hs.
  - intros s Hs. unfold WardrobeOk. rewrite handleRemoveLastGarment_wardrobe. exact Hs.
  - intros c file G _. apply garment_select_keeps.
    + intros s s' _ _ H. unfold WardrobeOk. rewrite H. exact (fun x => x).
    + intros cs s _ _ Hs. exact Hs.
    + intros cs url s _ Hs. exact (WardrobeOk_add G s Hs).
  - intros c i _ _. apply WardrobeOk_pose.
  - intros c _. apply onSelectPose_keeps. intros i _. apply WardrobeOk_pose.
  - intros c _. apply onSelectPose_keeps. intros i _. apply WardrobeOk_pose.
Qed.

End ReachableWardrobe.

(** ** The busy flag is cleared on every exit path *)

Section Busy2.

Variable poseInstructions : list string.
Variable getFriendlyErrorMessage : Thrown -> string -> string.

Lemma handleGarmentSelect_busy (c : AppState) (file : File) (G : WardrobeItem) :
  BusyHandler (App.handleGarmentSelect poseInstructions getFriendlyErrorMessage c file G).
Proof.
  unfold BusyHandler, App.handleGarmentSelect.
  destruct (App.currentState c) as [cs |];
    [| split; [intros _ s H; exact H | intros out s H; contradiction H; reflexivity]].
  destruct (negb (Js.truthy (generatedModelUrl c)) || isLoading c);
    [split; [intros _ s H; exact H | intros out s H; contradiction H; reflexivity] |].
  destruct (App.isGarmentRedo c G);
    [split; [intros _ s H; exact H | intros out s H; contradiction H; reflexivity] |].
  cbv zeta.
  destruct (Js.get (App.baseHistorySlice c G) _) as [baseLayer |];
    [| split; [intros _ s H; discriminate H
              | intros out s H; contradiction H; reflexivity]].
  destruct (Js.nullish _ _) as [img |];
    [| split; [intros _ s H; discriminate H
              | intros out s H; contradiction H; reflexivity]].
  destruct (Js.truthy (Some img));
    [| split; [intros _ s H; discriminate H
              | intros out s H; contradiction H; reflexivity]].
  split; [intros H; discriminate H |].
  intros [url | err] s _; reflexivity.
Qed.

Lemma handlePoseSelect_busy (c : AppState) (newIndex : Z) :
  BusyHandler (App.handlePoseSelect poseInstructions getFriendlyErrorMessage c newIndex).
Proof.
  unfold BusyHandler, App.handlePoseSelect.
  destruct (App.currentState c) as [cs |];
    [| split; [intros _ s H; exact H | intros out s H; contradiction H; reflexivity]].
  destruct (isLoading c || (Js.length (App.outfitHistory c) =? 0)
            || (newIndex =? App.currentPoseIndex c));
    [split; [intros _ s H; exact H | intros out s H; contradiction H; reflexivity] |].
  cbv zeta.
  destruct (Js.get (App.outfitHistory c) (App.currentOutfitIndex c)) as [layer |];
    [| split; [intros _ s H; exact H | intros out s H; contradiction H; reflexivity]].
  destruct (Js.truthy (Obj.get (poseImages layer) _));
    [split; [intros _ s H; exact H | intros out s H; contradiction H; reflexivity] |].
  destruct (Js.get (Obj.values (poseImages layer)) 0) as [img |];
    [| split; [intros _ s H; exact H | intros out s H; contradiction H; reflexivity]].
  destruct (Js.truthy (Some img));
    [| split; [intros _ s H; exact H | intros out s H; contradiction H; reflexivity]].
  split; [intros H; discriminate H |].
  intros [url | err] s _; reflexivity.
Qed.

Lemma onSelectPose_busy (c : AppState) (selected : option Z) :
  BusyHandler (App.onSelectPose poseInstructions getFriendlyErrorMessage c selected).
Proof.
  destruct selected as [i |]; simpl; [apply handlePoseSelect_busy |].
  split; [intros _ s H; exact H | intros out s H; contradiction H; reflexivity].
Qed.

Lemma launch_busy (sys : Sys.t) (a : Async) :
  BusyOk sys -> BusyHandler a -> BusyOk (Sys.launch sys a).
Proof.
  intros [Hflag Hfl] [Hnone Hsome]. destruct a as [u | u req k]; simpl.
  - split; [| exact Hfl]. intros H. apply Hflag. exact (Hnone eq_refl _ H).
  - split.
    + intros _ Hnil. apply app_eq_nil in Hnil. destruct Hnil as [_ Hk]. discriminate Hk.
    + apply Forall_app. split; [exact Hfl |].
      constructor; [| constructor]. intros out s. apply (Hsome out s). discriminate.
Qed.

Lemma onGarmentSelect_busy (sys : Sys.t) (c : AppState)
      (selected : option (File * WardrobeItem)) :
  BusyOk sys ->
  BusyOk (Sys.onGarmentSelect poseInstructions getFriendlyErrorMessage sys c selected).
Proof.
  intros Hsys. destruct selected as [[file info] |]; simpl; [| exact Hsys].
  apply launch_busy; [exact Hsys | apply handleGarmentSelect_busy].
Qed.

Lemma step_busy (sys : Sys.t) (e : Sys.Event) :
  BusyOk sys -> BusyOk (Sys.step poseInstructions getFriendlyErrorMessage sys e).
Proof.
  intros Hsys. pose proof Hsys as [Hflag Hfl]. unfold Sys.step.
  destruct (negb (Sys.enabled poseInstructions sys e)); [exact Hsys |].
  destruct e as [u g | | | | | | | item | n blob | files tab now objectUrl
                 | | index | | | n out].
  - split; [exact Hflag | exact Hfl].
  - split; [intros H; discriminate H | exact Hfl].
  - split; [| exact Hfl]. simpl. destruct (handleUndo_frame (Sys.ui sys) (Sys.ui sys))
      as (_ & _ & ->). exact Hflag.
  - split; [| exact Hfl]. simpl. destruct (handleRedo_frame (Sys.ui sys) (Sys.ui sys))
      as (_ & _ & ->). exact Hflag.
  - split; [exact Hflag | exact Hfl].
  - split; [exact Hflag | exact Hfl].
  - split; [exact Hflag | exact Hfl].
  - split; [exact Hflag | exact Hfl].
  - destruct (nth_error (Sys.converting sys) n) as [[c item] |]; [| exact Hsys].
    apply onGarmentSelect_busy. split; [exact Hflag | exact Hfl].
  - apply onGarmentSelect_busy. exact Hsys.
  - split; [| exact Hfl]. simpl. intros H. apply Hflag.
    unfold App.handleRemoveLastGarment in H.
    destruct (App.currentState (Sys.ui sys)); [| exact H].
    destruct (App.currentOutfitIndex (Sys.ui sys) >? 0); exact H.
  - apply launch_busy; [exact Hsys | apply handlePoseSelect_busy].
  - apply launch_busy; [exact Hsys | apply onSelectPose_busy].
  - apply launch_busy; [exact Hsys | apply onSelectPose_busy].
  - destruct (nth_error (Sys.inflight sys) n) as [k |] eqn:Hk; [| exact Hsys].
    assert (Hclear : isLoading (k out (Sys.ui sys)) = false).
    { apply nth_error_In in Hk. exact (proj1 (Forall_forall _ _) Hfl k Hk out _). }
    split; simpl.
    + rewrite Hclear. intros H. discriminate H.
    + apply Forall_removeNth. exact Hfl.
Qed.

Lemma run_busy (events : list Sys.Event) :
  BusyOk (Sys.run poseInstructions getFriendlyErrorMessage events).
Proof.
  unfold Sys.run.
  assert (Hinit : BusyOk Sys.initial)
    by (split; [intros H; discriminate H | constructor]).
  revert Hinit. generalize Sys.initial as sys.
  induction events as [| e rest IH]; intros sys Hsys; simpl; [exact Hsys |].
  apply IH. apply step_busy. exact Hsys.
Qed.

(** X16: after any sequence of actions, the busy flag is set only if a
    call is in flight, and whichever call in flight settles, with
    whatever outcome, the flag is clear afterwards: no exit path leaves
    the application busy with nothing to wait for. *)
Theorem busy_flag_is_cleared_on_every_exit_path (events : list Sys.Event) :
  (isLoading (Sys.ui (Sys.run poseInstructions getFriendlyErrorMessage events)) = true ->
   Sys.inflight (Sys.run poseInstructions getFriendlyErrorMessage events) <> [])
  /\ forall n out,
       (n < List.length
              (Sys.inflight (Sys.run poseInstructions getFriendlyErrorMessage events)))%nat ->
       isLoading
         (Sys.ui (Sys.step poseInstructions getFriendlyErrorMessage
                           (Sys.run poseInstructions getFriendlyErrorMessage events)
                           (Sys.Settle n out))) = false.
Proof.
  destruct (run_busy events) as [Hflag Hfl]. split; [exact Hflag |].
  intros n out Hn. unfold Sys.step.
  assert (Hen : Sys.enabled poseInstructions
                  (Sys.run poseInstructions getFriendlyErrorMessage events)
                  (Sys.Settle n out) = true)
    by (simpl; apply Nat.ltb_lt; exact Hn).
  rewrite Hen. simpl negb. cbv iota.
  destruct (nth_error _ n) as [k |] eqn:Hk.
  - simpl. apply nth_error_In in Hk. exact (proj1 (Forall_forall _ _) Hfl k Hk out _).
  - apply nth_error_None in Hk. lia.
Qed.

End Busy2.

(** ** There is always a base to build on and an image to show *)

Lemma nonempty_first_value (obj : PoseImages) :
  obj <> [] -> exists v, Js.get (Obj.values obj) 0 = Some v.
Proof.
  destruct obj as [| [k v] rest]; [intros H; contradiction | intros _].
  exists v. reflexivity.
Qed.

Lemma nullish_fallback {A} (a : option A) (v : A) :
  exists w, Js.nullish a (Some v) = Some w.
Proof. destruct a as [x |]; [exists x | exists v]; reflexivity. Qed.

Section AlwaysAnImage.

Variable poseInstructions : list string.
Variable getFriendlyErrorMessage : Thrown -> string -> string.

(** X17: in every state the application reaches, a garment selection that
    passes the guards and is not a redo finds its base layer and a base
    image reference: the "no base layer" error cannot occur, and the
    service is called unless that reference is the empty string. *)
Theorem reachable_garment_selection_finds_its_base
        (c : AppState) (cs : HistoryState) (file : File) (G : WardrobeItem) :
  Sys.reachable poseInstructions getFriendlyErrorMessage c ->
  App.currentState c = Some cs ->
  Js.truthy (generatedModelUrl c) = true ->
  isLoading c = false ->
  App.isGarmentRedo c G = false ->
  exists baseLayer img,
    Js.get (App.baseHistorySlice c G) (Js.length (App.baseHistorySlice c G) - 1)
    = Some baseLayer
    /\ Js.nullish
         (Obj.get (poseImages baseLayer)
                  (Js.propKey (Js.get poseInstructions (App.currentPoseIndex c))))
         (Js.get (Obj.values (poseImages baseLayer)) 0) = Some img
    /\ (img <> "" ->
        synthesisRequest
          (App.handleGarmentSelect poseInstructions getFriendlyErrorMessage c file G)
        = Some (VirtualTryOn img file (category G))).
Proof.
  intros Hreach Hcs Hurl Hload Hredo.
  pose proof (reachable_good poseInstructions getFriendlyErrorMessage c Hreach) as Hgood.
  pose proof (reachable_layers_have_images poseInstructions getFriendlyErrorMessage
                c Hreach) as Himages.
  pose proof (current_snapshot_good c cs Hgood Hcs) as Hsnap.
  destruct (baseHistorySlice_good c G cs Hcs Hsnap) as ((bottom & rest & Hbase & _) & _).
  assert (Hlen : 0 <= Js.length (App.baseHistorySlice c G) - 1
                 < Js.length (App.baseHistorySlice c G)).
  { rewrite Hbase. unfold Js.length. simpl List.length. lia. }
  destruct (get_in_range _ _ Hlen) as [baseLayer HbaseLayer].
  assert (Hnonempty : poseImages baseLayer <> []).
  { pose proof (get_In _ _ _ HbaseLayer) as Hin.
    destruct (baseHistorySlice_prefix c G) as [k Hk]. rewrite Hk in Hin.
    pose proof (current_snapshot_Forall _ c cs Himages Hcs) as Hall.
    unfold App.outfitHistory in Hin. rewrite Hcs in Hin.
    apply (Forall_prefix _ _ k) in Hall.
    exact (proj1 (Forall_forall _ _) Hall baseLayer Hin). }
  destruct (nonempty_first_value _ Hnonempty) as [v Hv].
  destruct (nullish_fallback
              (Obj.get (poseImages baseLayer)
                       (Js.propKey (Js.get poseInstructions (App.currentPoseIndex c)))) v)
    as [img Himg].
  exists baseLayer, img. rewrite Hv. split; [exact HbaseLayer |]. split; [exact Himg |].
  intros Hne. unfold App.handleGarmentSelect.
  rewrite Hcs, Hurl, Hload, Hredo. simpl orb. cbv iota zeta.
  rewrite HbaseLayer, Hv, Himg. rewrite (truthy_nonempty img Hne). reflexivity.
Qed.

(** X18: in every state the application reaches, once the log is not
    empty the screen has an image reference to show: the one of the pose
    on screen, or the first one stored in the layer on screen. *)
Theorem reachable_screen_has_an_image (s : AppState) (cs : HistoryState) :
  Sys.reachable poseInstructions getFriendlyErrorMessage s ->
  App.currentState s = Some cs ->
  exists layer img,
    Js.get (outfitHistory cs) (currentOutfitIndex cs) = Some layer
    /\ App.displayImageUrl poseInstructions s = Some img
    /\ In img (Obj.values (poseImages layer)).
Proof.
  intros Hreach Hcs.
  pose proof (reachable_good poseInstructions getFriendlyErrorMessage s Hreach) as Hgood.
  pose proof (reachable_layers_have_images poseInstructions getFriendlyErrorMessage
                s Hreach) as Himages.
  destruct (current_snapshot_good s cs Hgood Hcs) as [_ _ Hidx].
  destruct (get_in_range _ _ Hidx) as [layer Hlayer].
  assert (Hnonempty : poseImages layer <> []).
  { pose proof (current_snapshot_Forall _ s cs Himages Hcs) as Hall.
    exact (proj1 (Forall_forall _ _) Hall layer (get_In _ _ _ Hlayer)). }
  destruct (nonempty_first_value _ Hnonempty) as [v Hv].
  rewrite (displayImageUrl_of_layer poseInstructions s cs layer Hcs Hlayer), Hv.
  destruct (Obj.get (poseImages layer)
                    (Js.propKey (Js.get poseInstructions (currentPoseIndex cs))))
    as [w |] eqn:Hw.
  - exists layer, w. split; [exact Hlayer |]. split; [reflexivity |].
    exact (proj1 (Obj_get_value _ _ _ Hw)).
  - exists layer, v. split; [exact Hlayer |]. split; [reflexivity |].
    exact (get_In _ _ _ Hv).
Qed.

End AlwaysAnImage.

(** ** The wardrobe panel and the start screen *)

Section Panels.

Variable poseInstructions : list string.
Variable getFriendlyErrorMessage : Thrown -> string -> string.

(** X19: a wardrobe tile whose garment is on the model is inert: whatever
    the state, if an active layer wears the item (its id not empty), a
    click on its tile makes no call to [onGarmentSelect] and changes
    nothing in the panel, whether the image converts or not. *)
Theorem active_garment_tile_is_inert
        (s : AppState) (item g : WardrobeItem) (layer : OutfitLayer)
        (converted : option File) :
  In layer (App.activeOutfitLayers s) ->
  garment layer = Some g ->
  id g = id item ->
  id item <> "" ->
  WardrobePanel.selected
    (WardrobePanel.handleGarmentClick (App.activeGarmentIds s) (isLoading s)
                                      item converted) = None
  /\ forall st,
       WardrobePanel.update
         (WardrobePanel.handleGarmentClick (App.activeGarmentIds s) (isLoading s)
                                           item converted) st = st.
Proof.
  intros Hin Hg Hid Hne.
  assert (Hactive : In (id item) (App.activeGarmentIds s)).
  { apply activeGarmentIds_In. split; [exact Hne |]. exists layer, g.
    repeat split; assumption. }
  assert (Hex : existsb (String.eqb (id item)) (App.activeGarmentIds s) = true).
  { apply existsb_exists. exists (id item). split; [exact Hactive |].
    apply String.eqb_refl. }
  unfold WardrobePanel.handleGarmentClick. rewrite Hex, orb_true_r.
  split; [reflexivity | intros st; reflexivity].
Qed.

(** X20: whatever the upload input delivers, the panel hands
    [onGarmentSelect] only the first file, only if its type starts with
    [image/], with a garment named after the file, of the category of
    the selected tab ([shirt] on the tab "All") and with an id that
    starts with [custom-]. *)
Theorem upload_hands_over_images_only
        (st : WardrobePanel.State) (files : list File) (now objectUrl : string)
        (file : File) (info : WardrobeItem) :
  WardrobePanel.selected (WardrobePanel.handleFileChange st files now objectUrl)
  = Some (file, info) ->
  hd_error files = Some file
  /\ String.prefix "image/" (fileType file) = true
  /\ name info = fileName file
  /\ String.prefix "custom-" (id info) = true
  /\ category info
     = match WardrobePanel.selectedCategory st with
       | WardrobePanel.TabAll => shirt
       | WardrobePanel.TabOf cat => cat
       end.
Proof.
  unfold WardrobePanel.handleFileChange.
  destruct files as [| f rest]; [discriminate |].
  destruct (String.prefix "image/" (fileType f)) eqn:Himg; simpl; [| discriminate].
  intros H. injection H as <- <-. conjuncts; try exact Himg; try reflexivity.
  simpl. destruct now; reflexivity.
Qed.

End Panels.

(** X21: on the start screen, a failed model generation leaves no photo
    and no model, shows the message, and cannot be proceeded from; a
    file that is not an image is refused with a message, is not read,
    and leaves the photo and the model as they were. *)
Theorem start_screen_failures_leave_nothing_to_proceed_with
        (getFriendlyErrorMessage : Thrown -> string -> string)
        (st : StartScreen.State) (dataUrl : string) (err : Thrown) (file : File) :
  StartScreen.userImageUrl
    (StartScreen.generated getFriendlyErrorMessage (Rejected err)
                           (StartScreen.onload dataUrl st)) = None
  /\ StartScreen.error
       (StartScreen.generated getFriendlyErrorMessage (Rejected err)
                              (StartScreen.onload dataUrl st))
     = Some (getFriendlyErrorMessage err "Failed to create model")
  /\ StartScreen.isGenerating
       (StartScreen.generated getFriendlyErrorMessage (Rejected err)
                              (StartScreen.onload dataUrl st)) = false
  /\ StartScreen.handleProceed
       (StartScreen.generated getFriendlyErrorMessage (Rejected err)
                              (StartScreen.onload dataUrl st)) = None
  /\ (String.prefix "image/" (fileType file) = false ->
      snd (StartScreen.handleFileSelect file) = None
      /\ StartScreen.error (fst (StartScreen.handleFileSelect file) st)
         = Some "Please select an image file."
      /\ StartScreen.userImageUrl (fst (StartScreen.handleFileSelect file) st)
         = StartScreen.userImageUrl st
      /\ StartScreen.generatedModelUrl (fst (StartScreen.handleFileSelect file) st)
         = StartScreen.generatedModelUrl st).
Proof.
  split; [reflexivity |]. split; [reflexivity |]. split; [reflexivity |].
  split; [reflexivity |].
  intros Hnot. unfold StartScreen.handleFileSelect. rewrite Hnot. simpl.
  conjuncts; reflexivity.
Qed.

(** X22: the start screen hands [App] a photo and a model only when both
    are there and not empty: nothing while the model is being generated,
    the two URLs once it has arrived; [App] then shows the model image
    and keeps the photo as the original. *)
Theorem proceeding_hands_over_photo_and_model
        (poseInstructions : list string)
        (getFriendlyErrorMessage : Thrown -> string -> string)
        (st : StartScreen.State) (dataUrl result : string) (s : AppState) :
  dataUrl <> "" ->
  result <> "" ->
  StartScreen.handleProceed (StartScreen.onload dataUrl st) = None
  /\ StartScreen.handleProceed
       (StartScreen.generated getFriendlyErrorMessage (Resolved result)
                              (StartScreen.onload dataUrl st))
     = Some (dataUrl, result)
  /\ App.displayImageUrl poseInstructions
       (App.handleModelFinalized poseInstructions dataUrl result s) = Some result
  /\ originalUserImageUrl (App.handleModelFinalized poseInstructions dataUrl result s)
     = Some dataUrl
  /\ Sys.dressing (App.handleModelFinalized poseInstructions dataUrl result s) = true.
Proof.
  intros Hd Hr. split; [reflexivity |]. split; [| split; [| split; [reflexivity |]]].
  - assert (Td : negb (String.eqb dataUrl "") = true)
      by (apply (truthy_nonempty dataUrl Hd)).
    assert (Tr : negb (String.eqb result "") = true)
      by (apply (truthy_nonempty result Hr)).
    unfold StartScreen.handleProceed. simpl. rewrite Td, Tr. reflexivity.
  - unfold App.displayImageUrl. simpl. rewrite String.eqb_refl. reflexivity.
  - unfold Sys.dressing. simpl generatedModelUrl. exact (truthy_nonempty result Hr).
Qed.

(** Whatever the start screen hands over is not empty. *)
Lemma handleProceed_nonempty (st : StartScreen.State) (u g : string) :
  StartScreen.handleProceed st = Some (u, g) -> u <> "" /\ g <> "".
Proof.
  unfold StartScreen.handleProceed.
  destruct (StartScreen.userImageUrl st) as [u' |]; [| discriminate].
  destruct (StartScreen.generatedModelUrl st) as [g' |]; [| discriminate].
  destruct (Js.truthy (Some u')) eqn:Hu; [| discriminate].
  destruct (Js.truthy (Some g')) eqn:Hg; [| discriminate].
  simpl. intros H. injection H as <- <-. simpl in Hu, Hg.
  split; intros ->; discriminate.
Qed.

(** X23: in every state the application reaches, once the log is not
    empty the cursor is on a snapshot, and the snapshot on screen has the
    bare model as its bottom layer, no two layers of one garment
    category, and an active index inside its stack. *)
Theorem reachable_outfit_is_well_formed
        (poseInstructions : list string)
        (getFriendlyErrorMessage : Thrown -> string -> string)
        (s : AppState) (cs : HistoryState) :
  Sys.reachable poseInstructions getFriendlyErrorMessage s ->
  App.currentState s = Some cs ->
  0 <= historyIndex s < Js.length (history s)
  /\ (exists bottom rest, outfitHistory cs = bottom :: rest /\ garment bottom = None)
  /\ NoDup (categories (outfitHistory cs))
  /\ 0 <= currentOutfitIndex cs < Js.length (outfitHistory cs).
Proof.
  intros Hreach Hcs.
  pose proof (reachable_good poseInstructions getFriendlyErrorMessage s Hreach) as Hgood.
  destruct (current_snapshot_good s cs Hgood Hcs) as [Hbase Hnd Hidx].
  split; [| split; [exact Hbase | split; [exact Hnd | exact Hidx]]].
  exact (get_Some_range _ _ _ Hcs).
Qed.

(** X24: on the states the application reaches, undo and redo are inverse
    wherever their buttons are enabled: redo after an enabled undo, and
    undo after an enabled redo, give the state back. *)
Theorem undo_and_redo_are_inverse_where_enabled
        (poseInstructions : list string)
        (getFriendlyErrorMessage : Thrown -> string -> string) (s : AppState) :
  Sys.reachable poseInstructions getFriendlyErrorMessage s ->
  (App.canUndo s = true ->
   App.handleRedo (App.handleUndo s s) (App.handleUndo s s) = s)
  /\ (App.canRedo s = true ->
      App.handleUndo (App.handleRedo s s) (App.handleRedo s s) = s).
Proof.
  intros Hreach.
  pose proof (reachable_cursor poseInstructions getFriendlyErrorMessage s Hreach)
    as Hcursor.
  split.
  - intros Hundo. unfold App.canUndo in Hundo. apply Z.gtb_lt in Hundo.
    apply undo_then_redo. destruct Hcursor as [[_ Hm1] | Hin]; lia.
  - intros Hredo. unfold App.canRedo in Hredo. apply Z.ltb_lt in Hredo.
    assert (Hlo : 0 <= historyIndex s).
    { destruct Hcursor as [[Hnil Hm1] | Hin]; [| lia].
      rewrite Hnil in Hredo. unfold Js.length in Hredo. simpl in Hredo. lia. }
    unfold App.handleRedo at 1 2, App.canRedo.
    assert (E : (historyIndex s <? Js.length (history s) - 1) = true)
      by (apply Z.ltb_lt; exact Hredo).
    rewrite E. unfold App.handleUndo, App.canUndo. simpl.
    assert (E' : (historyIndex s + 1 >? 0) = true) by (apply Z.gtb_lt; lia).
    rewrite E'. rewrite setHistoryIndex_twice. apply setHistoryIndex_same. lia.
Qed.

(** ** The wardrobe as garments are applied *)

Section WardrobeGrowth.

Variable poseInstructions : list string.
Variable getFriendlyErrorMessage : Thrown -> string -> string.

(** What an awaited garment application makes of the wardrobe. *)
Lemma applied_wardrobe (c : AppState) (file : File) (G : WardrobeItem)
      (req : Request) (s : AppState) :
  synthesisRequest
    (App.handleGarmentSelect poseInstructions getFriendlyErrorMessage c file G)
  = Some req ->
  (forall url,
      wardrobe (after (App.handleGarmentSelect poseInstructions getFriendlyErrorMessage
                                               c file G) (Resolved url) s)
      = if Js.found (fun item => String.eqb (id item) (id G)) (wardrobe s)
        then wardrobe s else wardrobe s ++ [G])
  /\ (forall err,
         wardrobe (after (App.handleGarmentSelect poseInstructions getFriendlyErrorMessage
                                                  c file G) (Rejected err) s)
         = wardrobe s).
Proof.
  intros Hreq.
  destruct (handleGarmentSelect_awaits poseInstructions getFriendlyErrorMessage
              c file G req Hreq)
    as (cs & baseLayer & img & _ & _ & _ & _ & _ & _ & _ & _ & _ & Hres & Hrej).
  split.
  - intros url. rewrite Hres. reflexivity.
  - intros err. rewrite Hrej. reflexivity.
Qed.

(** X25: an applied garment joins the wardrobe once: a successful
    application appends the garment when no item has its id and leaves
    the wardrobe alone when one has -- the item already there is kept,
    not the one applied -- and a failed application never changes the
    wardrobe. *)
Theorem applied_garment_joins_wardrobe_once
        (c : AppState) (file : File) (G : WardrobeItem) (req : Request)
        (url : string) (err : Thrown) (s : AppState) :
  synthesisRequest
    (App.handleGarmentSelect poseInstructions getFriendlyErrorMessage c file G)
  = Some req ->
  (~ In (id G) (map id (wardrobe s)) ->
   wardrobe (after (App.handleGarmentSelect poseInstructions getFriendlyErrorMessage
                                            c file G) (Resolved url) s)
   = wardrobe s ++ [G])
  /\ (In (id G) (map id (wardrobe s)) ->
      wardrobe (after (App.handleGarmentSelect poseInstructions getFriendlyErrorMessage
                                               c file G) (Resolved url) s)
      = wardrobe s)
  /\ wardrobe (after (App.handleGarmentSelect poseInstructions getFriendlyErrorMessage
                                              c file G) (Rejected err) s)
     = wardrobe s.
Proof.
  intros Hreq.
  destruct (applied_wardrobe c file G req s Hreq) as [Hres Hrej].
  split; [| split].
  - intros Hfresh. rewrite Hres.
    destruct (Js.found _ (wardrobe s)) eqn:Hf; [| reflexivity].
    exfalso. exact (Hfresh (found_true_id G _ Hf)).
  - intros Hthere. rewrite Hres.
    destruct (Js.found _ (wardrobe s)) eqn:Hf; [reflexivity |].
    exfalso. exact (found_false_id G _ Hf Hthere).
  - apply Hrej.
Qed.

(** X26: a garment uploaded from the panel and applied with success is
    listed by the panel under the tab it was uploaded from, provided its
    id is not in the wardrobe yet. *)
Theorem uploaded_garment_shows_under_its_tab
        (c s : AppState) (st : WardrobePanel.State) (files : list File)
        (now objectUrl : string) (file : File) (info : WardrobeItem)
        (req : Request) (url : string) :
  WardrobePanel.selected (WardrobePanel.handleFileChange st files now objectUrl)
  = Some (file, info) ->
  synthesisRequest
    (App.handleGarmentSelect poseInstructions getFriendlyErrorMessage c file info)
  = Some req ->
  ~ In (id info) (map id (wardrobe s)) ->
  In info
     (WardrobePanel.filteredWardrobe
        (wardrobe (after (App.handleGarmentSelect poseInstructions getFriendlyErrorMessage
                                                  c file info) (Resolved url) s))
        st).
Proof.
  intros Hsel Hreq Hfresh.
  destruct (applied_wardrobe c file info req s Hreq) as [Hres _].
  rewrite Hres.
  destruct (Js.found _ (wardrobe s)) eqn:Hf;
    [exfalso; exact (Hfresh (found_true_id info _ Hf)) |].
  unfold WardrobePanel.handleFileChange in Hsel.
  destruct files as [| first rest]; [discriminate |].
  destruct (negb (String.prefix "image/" (fileType first))); [discriminate |].
  cbv zeta in Hsel. simpl in Hsel. injection Hsel as _ Hinfo.
  unfold WardrobePanel.filteredWardrobe.
  destruct (WardrobePanel.selectedCategory st) as [| cat] eqn:Htab.
  - apply in_or_app. right. left. reflexivity.
  - apply filter_In. split; [apply in_or_app; right; left; reflexivity |].
    rewrite <- Hinfo. simpl. destruct cat; reflexivity.
Qed.

End WardrobeGrowth.

(** * The further properties at concrete inputs *)

Lemma applied_garment_is_shown_witness :
  synthesisRequest
    (App.handleGarmentSelect POSE_INSTRUCTIONS Sample.friendly
                             Sample.dressed Sample.teeFile Sample.shirtB)
  = Some (VirtualTryOn "model.png" Sample.teeFile shirt)
  /\ App.displayImageUrl POSE_INSTRUCTIONS
       (settle (App.handleGarmentSelect POSE_INSTRUCTIONS Sample.friendly
                                        Sample.dressed Sample.teeFile Sample.shirtB)
               (Resolved "b.png") Sample.dressed)
     = Some "b.png".
Proof.
  assert (H : synthesisRequest
                (App.handleGarmentSelect POSE_INSTRUCTIONS Sample.friendly
                                         Sample.dressed Sample.teeFile Sample.shirtB)
              = Some (VirtualTryOn "model.png" Sample.teeFile shirt)) by evaluate.
  split; [exact H |].
  exact (proj1 (applied_garment_is_shown POSE_INSTRUCTIONS Sample.friendly
                  Sample.dressed Sample.teeFile Sample.shirtB _ "b.png" H)).
Defined.

Lemma generated_pose_extends_layer_cache_witness :
  synthesisRequest
    (App.handlePoseSelect POSE_INSTRUCTIONS Sample.friendly Sample.wearingA 1)
  = Some (PoseVariation "a.png" (Some "Slightly turned, 3/4 view"))
  /\ Js.get (App.outfitHistory Sample.wearingA) (App.currentOutfitIndex Sample.wearingA)
     = Some Sample.layerA
  /\ App.displayImageUrl POSE_INSTRUCTIONS
       (settle (App.handlePoseSelect POSE_INSTRUCTIONS Sample.friendly Sample.wearingA 1)
               (Resolved "a-1.png") Sample.wearingA)
     = Some "a-1.png".
Proof.
  assert (H1 : synthesisRequest
                 (App.handlePoseSelect POSE_INSTRUCTIONS Sample.friendly Sample.wearingA 1)
               = Some (PoseVariation "a.png" (Some "Slightly turned, 3/4 view")))
    by evaluate.
  assert (H2 : Js.get (App.outfitHistory Sample.wearingA)
                      (App.currentOutfitIndex Sample.wearingA) = Some Sample.layerA)
    by evaluate.
  split; [exact H1 |]. split; [exact H2 |].
  exact (proj1 (generated_pose_extends_layer_cache POSE_INSTRUCTIONS Sample.friendly
                  Sample.wearingA 1 _ "a-1.png" Sample.layerA H1 H2)).
Defined.

Lemma cached_pose_select_records_one_snapshot_witness :
  App.currentState Sample.atC = Some (Sample.posed "A" "C" "a.png" "c.png" 2)
  /\ isLoading Sample.atC = false
  /\ 0 <> currentPoseIndex (Sample.posed "A" "C" "a.png" "c.png" 2)
  /\ Js.get (outfitHistory (Sample.posed "A" "C" "a.png" "c.png" 2))
            (currentOutfitIndex (Sample.posed "A" "C" "a.png" "c.png" 2))
     = Some Scenario.layerAC
  /\ Obj.get (poseImages Scenario.layerAC) (Js.propKey (Js.get Sample.ABCD 0))
     = Some "a.png"
  /\ "a.png" <> ""
  /\ synthesisRequest (App.handlePoseSelect Sample.ABCD Sample.friendly Sample.atC 0)
     = None.
Proof.
  assert (H1 : App.currentState Sample.atC = Some (Sample.posed "A" "C" "a.png" "c.png" 2))
    by evaluate.
  assert (H2 : isLoading Sample.atC = false) by reflexivity.
  assert (H3 : 0 <> currentPoseIndex (Sample.posed "A" "C" "a.png" "c.png" 2))
    by (simpl; lia).
  assert (H4 : Js.get (outfitHistory (Sample.posed "A" "C" "a.png" "c.png" 2))
                      (currentOutfitIndex (Sample.posed "A" "C" "a.png" "c.png" 2))
               = Some Scenario.layerAC) by evaluate.
  assert (H5 : Obj.get (poseImages Scenario.layerAC) (Js.propKey (Js.get Sample.ABCD 0))
               = Some "a.png") by evaluate.
  assert (H6 : "a.png" <> "") by discriminate.
  conjuncts; try assumption.
  exact (proj1 (cached_pose_select_records_one_snapshot Sample.ABCD Sample.friendly
                  Sample.atC 0 _ Scenario.layerAC "a.png" H1 H2 H3 H4 H5 H6)).
Defined.

Lemma failed_pose_generation_changes_nothing_witness :
  synthesisRequest
    (App.handlePoseSelect POSE_INSTRUCTIONS Sample.friendly Sample.wearingA 1)
  = Some (PoseVariation "a.png" (Some "Slightly turned, 3/4 view"))
  /\ history (settle (App.handlePoseSelect POSE_INSTRUCTIONS Sample.friendly
                                            Sample.wearingA 1)
                     (Rejected (ServiceError "blocked")) Sample.wearingA)
     = history Sample.wearingA.
Proof.
  assert (H1 : synthesisRequest
                 (App.handlePoseSelect POSE_INSTRUCTIONS Sample.friendly Sample.wearingA 1)
               = Some (PoseVariation "a.png" (Some "Slightly turned, 3/4 view")))
    by evaluate.
  split; [exact H1 |].
  exact (proj1 (failed_pose_generation_changes_nothing POSE_INSTRUCTIONS Sample.friendly
                  Sample.wearingA 1 _ (ServiceError "blocked") H1)).
Defined.

Lemma recorded_snapshot_can_be_undone_and_redone_witness :
  App.currentState Sample.wearingA = Some Sample.s1
  /\ App.currentState
       (App.handleUndo (App.recordNewState Sample.wearingA Sample.s3 Sample.wearingA)
                       (App.recordNewState Sample.wearingA Sample.s3 Sample.wearingA))
     = Some Sample.s1.
Proof.
  assert (H1 : App.currentState Sample.wearingA = Some Sample.s1) by evaluate.
  split; [exact H1 |].
  exact (proj1 (proj2 (proj2 (recorded_snapshot_can_be_undone_and_redone
                                Sample.wearingA Sample.s3 Sample.s1 H1)))).
Defined.

Lemma repeated_removal_stops_at_base_layer_witness :
  App.currentState Sample.dressed = Some Sample.s2
  /\ 0 <= currentOutfitIndex Sample.s2
  /\ App.currentOutfitIndex
       (Nat.iter 5 (fun st => App.handleRemoveLastGarment st st) Sample.dressed)
     = Z.max 0 (currentOutfitIndex Sample.s2 - Z.of_nat 5).
Proof.
  assert (H1 : App.currentState Sample.dressed = Some Sample.s2) by evaluate.
  assert (H2 : 0 <= currentOutfitIndex Sample.s2) by (simpl; lia).
  split; [exact H1 |]. split; [exact H2 |].
  exact (proj1 (repeated_removal_stops_at_base_layer 5 Sample.dressed Sample.s2 H1 H2)).
Defined.

Lemma removed_garment_is_reapplied_without_call_witness :
  App.currentState Sample.wearingA = Some Sample.s1
  /\ Js.truthy (generatedModelUrl Sample.wearingA) = true
  /\ isLoading Sample.wearingA = false
  /\ 0 < currentOutfitIndex Sample.s1
  /\ Js.get (outfitHistory Sample.s1) (currentOutfitIndex Sample.s1) = Some Sample.layerA
  /\ synthesisRequest
       (App.handleGarmentSelect POSE_INSTRUCTIONS Sample.friendly
          (App.handleRemoveLastGarment Sample.wearingA Sample.wearingA)
          Sample.teeFile Sample.shirtA) = None.
Proof.
  assert (H1 : App.currentState Sample.wearingA = Some Sample.s1) by evaluate.
  assert (H2 : Js.truthy (generatedModelUrl Sample.wearingA) = true) by evaluate.
  assert (H3 : isLoading Sample.wearingA = false) by reflexivity.
  assert (H4 : 0 < currentOutfitIndex Sample.s1) by (simpl; lia).
  assert (H5 : Js.get (outfitHistory Sample.s1) (currentOutfitIndex Sample.s1)
               = Some Sample.layerA) by evaluate.
  conjuncts; try assumption.
  exact (proj1 (removed_garment_is_reapplied_without_call POSE_INSTRUCTIONS Sample.friendly
                  Sample.wearingA Sample.s1 Sample.layerA Sample.shirtA Sample.shirtA
                  Sample.teeFile H1 H2 H3 H4 H5 eq_refl eq_refl)).
Defined.

Lemma consecutive_generated_poses_round_trip_witness :
  NoDup ["A"; "C"]
  /\ Js.get ["A"; "C"] 0 = Some "A"
  /\ Js.get ["A"; "C"] (0 + 1) = Some "C"
  /\ Js.indexOf Sample.ABCD (Some "A") = 0
  /\ Js.indexOf Sample.ABCD (Some "C") = 2
  /\ Canvas.handleNextPose false Sample.ABCD 0 ["A"; "C"] = Some 2
  /\ Canvas.handlePreviousPose false Sample.ABCD 2 ["A"; "C"] = Some 0.
Proof.
  assert (H1 : NoDup ["A"; "C"]).
  { repeat constructor; simpl; intros H;
      repeat (destruct H as [H | H]; [discriminate H |]); exact H. }
  assert (H2 : Js.get ["A"; "C"] 0 = Some "A") by reflexivity.
  assert (H3 : Js.get ["A"; "C"] (0 + 1) = Some "C") by reflexivity.
  assert (H4 : Js.indexOf Sample.ABCD (Some "A") = 0) by evaluate.
  assert (H5 : Js.indexOf Sample.ABCD (Some "C") = 2) by evaluate.
  assert (H6 : 0 <> -1) by lia.
  assert (H7 : 2 <> -1) by lia.
  conjuncts; try assumption;
    apply (consecutive_generated_poses_round_trip Sample.ABCD ["A"; "C"] 0 0 2 "A" "C"
             H1 H2 H3 H4 H6 H5 H7).
Defined.

Lemma previous_wraps_to_last_generated_witness :
  NoDup ["A"; "C"]
  /\ 1 < Js.length ["A"; "C"]
  /\ Canvas.handlePreviousPose false Sample.ABCD 0 ["A"; "C"] = Some 2.
Proof.
  assert (H1 : NoDup ["A"; "C"]).
  { repeat constructor; simpl; intros H;
      repeat (destruct H as [H | H]; [discriminate H |]); exact H. }
  assert (H2 : 1 < Js.length ["A"; "C"]) by (unfold Js.length; simpl; lia).
  split; [exact H1 |]. split; [exact H2 |].
  apply (previous_wraps_to_last_generated Sample.ABCD ["A"; "C"] 0 2 "A" "C" H1 H2).
  - reflexivity.
  - reflexivity.
  - evaluate.
  - lia.
  - evaluate.
  - lia.
Defined.

Lemma arrows_select_inside_master_list_witness :
  Sample.ABCD <> []
  /\ 0 <= 2
  /\ Canvas.handleNextPose false Sample.ABCD 2 ["A"; "C"] = Some 3
  /\ 0 <= 3 < Js.length Sample.ABCD.
Proof.
  assert (H1 : Sample.ABCD <> []) by discriminate.
  assert (H2 : 0 <= 2) by lia.
  assert (H3 : Canvas.handleNextPose false Sample.ABCD 2 ["A"; "C"] = Some 3) by evaluate.
  split; [exact H1 |]. split; [exact H2 |]. split; [exact H3 |].
  exact (arrows_select_inside_master_list Sample.ABCD false 2 ["A"; "C"] 3 H1 H2
           (or_introl H3)).
Defined.

Lemma next_inside_generated_poses_makes_no_call_witness :
  Js.get Sample.ABCD (App.currentPoseIndex Sample.atA) = Some "A"
  /\ In "A" (App.availablePoseKeys Sample.atA)
  /\ Js.indexOf (App.availablePoseKeys Sample.atA) (Some "A") + 1
     < Js.length (App.availablePoseKeys Sample.atA)
  /\ synthesisRequest (App.nextPose Sample.ABCD Sample.friendly Sample.atA) = None.
Proof.
  assert (H1 : Js.get Sample.ABCD (App.currentPoseIndex Sample.atA) = Some "A")
    by evaluate.
  assert (H2 : In "A" (App.availablePoseKeys Sample.atA))
    by (vm_compute; left; reflexivity).
  assert (H3 : Js.indexOf (App.availablePoseKeys Sample.atA) (Some "A") + 1
               < Js.length (App.availablePoseKeys Sample.atA)) by evaluate.
  assert (H4 : forall layer v,
             Js.get (App.outfitHistory Sample.atA) (App.currentOutfitIndex Sample.atA)
             = Some layer ->
             In v (Obj.values (poseImages layer)) -> v <> "").
  { intros layer v Hlayer Hin. vm_compute in Hlayer. injection Hlayer as <-.
    simpl in Hin. destruct Hin as [<- | [<- | []]]; discriminate. }
  split; [exact H1 |]. split; [exact H2 |]. split; [exact H3 |].
  exact (next_inside_generated_poses_makes_no_call Sample.ABCD Sample.friendly
           Sample.atA "A" H1 H2 H3 H4).
Defined.

Lemma reachable_pose_index_in_master_list_witness :
  POSE_INSTRUCTIONS <> []
  /\ Sys.reachable POSE_INSTRUCTIONS Sample.friendly Sample.reselected
  /\ PosesInRange POSE_INSTRUCTIONS Sample.reselected.
Proof.
  assert (H1 : POSE_INSTRUCTIONS <> []) by discriminate.
  assert (H2 : Sys.reachable POSE_INSTRUCTIONS Sample.friendly Sample.reselected)
    by (exists Sample.reselect; unfold Sample.reselected; reflexivity).
  split; [exact H1 |]. split; [exact H2 |].
  exact (proj1 (reachable_pose_index_in_master_list POSE_INSTRUCTIONS Sample.friendly
                  Sample.reselected H1 H2)).
Defined.

Lemma reachable_wardrobe_ids_are_distinct_witness :
  Sys.reachable POSE_INSTRUCTIONS Sample.friendly Sample.reselected
  /\ NoDup (map id (wardrobe Sample.reselected)).
Proof.
  assert (H : Sys.reachable POSE_INSTRUCTIONS Sample.friendly Sample.reselected)
    by (exists Sample.reselect; unfold Sample.reselected; reflexivity).
  split; [exact H |].
  exact (proj1 (reachable_wardrobe_ids_are_distinct POSE_INSTRUCTIONS Sample.friendly
                  Sample.reselected H)).
Defined.

Lemma busy_flag_is_cleared_on_every_exit_path_witness :
  isLoading (Sys.ui (Sys.run POSE_INSTRUCTIONS Sample.friendly Sample.waiting)) = true
  /\ Sys.inflight (Sys.run POSE_INSTRUCTIONS Sample.friendly Sample.waiting) <> []
  /\ isLoading
       (Sys.ui (Sys.step POSE_INSTRUCTIONS Sample.friendly
                         (Sys.run POSE_INSTRUCTIONS Sample.friendly Sample.waiting)
                         (Sys.Settle 0 (Rejected (ServiceError "blocked"))))) = false.
Proof.
  assert (H1 : isLoading (Sys.ui (Sys.run POSE_INSTRUCTIONS Sample.friendly Sample.waiting))
               = true) by evaluate.
  assert (H2 : (0 < List.length
                      (Sys.inflight (Sys.run POSE_INSTRUCTIONS Sample.friendly
                                             Sample.waiting)))%nat)
    by (vm_compute; constructor).
  split; [exact H1 |]. split.
  - exact (proj1 (busy_flag_is_cleared_on_every_exit_path POSE_INSTRUCTIONS Sample.friendly
                    Sample.waiting) H1).
  - exact (proj2 (busy_flag_is_cleared_on_every_exit_path POSE_INSTRUCTIONS Sample.friendly
                    Sample.waiting) 0%nat (Rejected (ServiceError "blocked")) H2).
Defined.

Lemma reachable_garment_selection_finds_its_base_witness :
  Sys.reachable POSE_INSTRUCTIONS Sample.friendly Sample.reselected
  /\ App.currentState Sample.reselected = Some (Scenario.onScreen Sample.reselected)
  /\ Js.truthy (generatedModelUrl Sample.reselected) = true
  /\ isLoading Sample.reselected = false
  /\ App.isGarmentRedo Sample.reselected Sample.jeans = false
  /\ exists baseLayer,
       Js.get (App.baseHistorySlice Sample.reselected Sample.jeans)
              (Js.length (App.baseHistorySlice Sample.reselected Sample.jeans) - 1)
       = Some baseLayer.
Proof.
  assert (H1 : Sys.reachable POSE_INSTRUCTIONS Sample.friendly Sample.reselected)
    by (exists Sample.reselect; unfold Sample.reselected; reflexivity).
  assert (H2 : App.currentState Sample.reselected
               = Some (Scenario.onScreen Sample.reselected)) by evaluate.
  assert (H3 : Js.truthy (generatedModelUrl Sample.reselected) = true) by evaluate.
  assert (H4 : isLoading Sample.reselected = false) by evaluate.
  assert (H5 : App.isGarmentRedo Sample.reselected Sample.jeans = false) by evaluate.
  conjuncts; try assumption.
  destruct (reachable_garment_selection_finds_its_base POSE_INSTRUCTIONS Sample.friendly
              Sample.reselected (Scenario.onScreen Sample.reselected) Sample.teeFile
              Sample.jeans H1 H2 H3 H4 H5) as (baseLayer & img & Hbase & _).
  exists baseLayer. exact Hbase.
Defined.

Lemma reachable_screen_has_an_image_witness :
  Sys.reachable POSE_INSTRUCTIONS Sample.friendly Sample.reselected
  /\ App.currentState Sample.reselected = Some (Scenario.onScreen Sample.reselected)
  /\ exists img, App.displayImageUrl POSE_INSTRUCTIONS Sample.reselected = Some img.
Proof.
  assert (H1 : Sys.reachable POSE_INSTRUCTIONS Sample.friendly Sample.reselected)
    by (exists Sample.reselect; unfold Sample.reselected; reflexivity).
  assert (H2 : App.currentState Sample.reselected
               = Some (Scenario.onScreen Sample.reselected)) by evaluate.
  split; [exact H1 |]. split; [exact H2 |].
  destruct (reachable_screen_has_an_image POSE_INSTRUCTIONS Sample.friendly
              Sample.reselected (Scenario.onScreen Sample.reselected) H1 H2)
    as (layer & img & _ & Himg & _).
  exists img. exact Himg.
Defined.

Lemma active_garment_tile_is_inert_witness :
  In Sample.layerA (App.activeOutfitLayers Sample.wearingA)
  /\ garment Sample.layerA = Some Sample.shirtA
  /\ id Sample.shirtA <> ""
  /\ WardrobePanel.selected
       (WardrobePanel.handleGarmentClick (App.activeGarmentIds Sample.wearingA)
                                         (isLoading Sample.wearingA)
                                         Sample.shirtA (Some Sample.teeFile)) = None.
Proof.
  assert (H1 : In Sample.layerA (App.activeOutfitLayers Sample.wearingA))
    by (vm_compute; right; left; reflexivity).
  assert (H2 : garment Sample.layerA = Some Sample.shirtA) by reflexivity.
  assert (H3 : id Sample.shirtA <> "") by discriminate.
  conjuncts; try assumption.
  exact (proj1 (active_garment_tile_is_inert Sample.wearingA Sample.shirtA Sample.shirtA
                  Sample.layerA (Some Sample.teeFile) H1 H2 eq_refl H3)).
Defined.

Lemma upload_hands_over_images_only_witness :
  WardrobePanel.selected
    (WardrobePanel.handleFileChange Scenario.onPants [Scenario.photo]
                                    "1700000000000" "blob:1")
  = Some (Scenario.photo,
          mkWardrobeItem "custom-1700000000000" "polo.png" "blob:1" pants)
  /\ hd_error [Scenario.photo] = Some Scenario.photo
  /\ String.prefix "image/" (fileType Scenario.photo) = true.
Proof.
  assert (H : WardrobePanel.selected
                (WardrobePanel.handleFileChange Scenario.onPants [Scenario.photo]
                                                "1700000000000" "blob:1")
              = Some (Scenario.photo,
                      mkWardrobeItem "custom-1700000000000" "polo.png" "blob:1" pants))
    by evaluate.
  split; [exact H |].
  destruct (upload_hands_over_images_only Scenario.onPants [Scenario.photo]
              "1700000000000" "blob:1" Scenario.photo
              (mkWardrobeItem "custom-1700000000000" "polo.png" "blob:1" pants) H)
    as (Hfirst & Himage & _).
  split; [exact Hfirst | exact Himage].
Defined.

Lemma start_screen_failures_leave_nothing_to_proceed_with_witness :
  String.prefix "image/" (fileType Scenario.notes) = false
  /\ snd (StartScreen.handleFileSelect Scenario.notes) = None
  /\ StartScreen.error (fst (StartScreen.handleFileSelect Scenario.notes)
                            StartScreen.initial)
     = Some "Please select an image file.".
Proof.
  assert (H : String.prefix "image/" (fileType Scenario.notes) = false) by evaluate.
  split; [exact H |].
  destruct (start_screen_failures_leave_nothing_to_proceed_with
              Sample.friendly StartScreen.initial "data:," (ServiceError "blocked")
              Scenario.notes) as (_ & _ & _ & _ & Hrefused).
  destruct (Hrefused H) as (Hread & Hmessage & _).
  split; [exact Hread | exact Hmessage].
Defined.

Lemma proceeding_hands_over_photo_and_model_witness :
  "data:image/png;base64,AAAA" <> ""
  /\ "data:image/png;base64,BBBB" <> ""
  /\ StartScreen.handleProceed
       (StartScreen.generated Sample.friendly (Resolved "data:image/png;base64,BBBB")
          (StartScreen.onload "data:image/png;base64,AAAA" StartScreen.initial))
     = Some ("data:image/png;base64,AAAA", "data:image/png;base64,BBBB").
Proof.
  assert (H1 : "data:image/png;base64,AAAA" <> "") by discriminate.
  assert (H2 : "data:image/png;base64,BBBB" <> "") by discriminate.
  split; [exact H1 |]. split; [exact H2 |].
  exact (proj1 (proj2 (proceeding_hands_over_photo_and_model
                         POSE_INSTRUCTIONS Sample.friendly StartScreen.initial
                         "data:image/png;base64,AAAA" "data:image/png;base64,BBBB"
                         initialAppState H1 H2))).
Defined.

Lemma reachable_outfit_is_well_formed_witness :
  Sys.reachable POSE_INSTRUCTIONS Sample.friendly Sample.reselected
  /\ App.currentState Sample.reselected = Some (Scenario.onScreen Sample.reselected)
  /\ NoDup (categories (outfitHistory (Scenario.onScreen Sample.reselected))).
Proof.
  assert (H1 : Sys.reachable POSE_INSTRUCTIONS Sample.friendly Sample.reselected)
    by (exists Sample.reselect; unfold Sample.reselected; reflexivity).
  assert (H2 : App.currentState Sample.reselected
               = Some (Scenario.onScreen Sample.reselected)) by evaluate.
  split; [exact H1 |]. split; [exact H2 |].
  exact (proj1 (proj2 (proj2 (reachable_outfit_is_well_formed
                                POSE_INSTRUCTIONS Sample.friendly Sample.reselected
                                (Scenario.onScreen Sample.reselected) H1 H2)))).
Defined.

Lemma undo_and_redo_are_inverse_where_enabled_witness :
  Sys.reachable POSE_INSTRUCTIONS Sample.friendly Sample.reselected
  /\ App.canUndo Sample.reselected = true
  /\ App.handleRedo (App.handleUndo Sample.reselected Sample.reselected)
                    (App.handleUndo Sample.reselected Sample.reselected)
     = Sample.reselected.
Proof.
  assert (H1 : Sys.reachable POSE_INSTRUCTIONS Sample.friendly Sample.reselected)
    by (exists Sample.reselect; unfold Sample.reselected; reflexivity).
  assert (H2 : App.canUndo Sample.reselected = true) by evaluate.
  split; [exact H1 |]. split; [exact H2 |].
  exact (proj1 (undo_and_redo_are_inverse_where_enabled
                  POSE_INSTRUCTIONS Sample.friendly Sample.reselected H1) H2).
Defined.

Lemma applied_garment_joins_wardrobe_once_witness :
  synthesisRequest
    (App.handleGarmentSelect POSE_INSTRUCTIONS Sample.friendly
                             Sample.dressed Sample.teeFile Sample.shirtB)
  = Some (VirtualTryOn "model.png" Sample.teeFile shirt)
  /\ wardrobe (after (App.handleGarmentSelect POSE_INSTRUCTIONS Sample.friendly
                                              Sample.dressed Sample.teeFile Sample.shirtB)
                     (Rejected (ServiceError "blocked")) Sample.dressed)
     = wardrobe Sample.dressed.
Proof.
  assert (H : synthesisRequest
                (App.handleGarmentSelect POSE_INSTRUCTIONS Sample.friendly
                                         Sample.dressed Sample.teeFile Sample.shirtB)
              = Some (VirtualTryOn "model.png" Sample.teeFile shirt)) by evaluate.
  split; [exact H |].
  exact (proj2 (proj2 (applied_garment_joins_wardrobe_once
                         POSE_INSTRUCTIONS Sample.friendly Sample.dressed Sample.teeFile
                         Sample.shirtB _ "b.png" (ServiceError "blocked")
                         Sample.dressed H))).
Defined.

Lemma uploaded_garment_shows_under_its_tab_witness :
  WardrobePanel.selected
    (WardrobePanel.handleFileChange Scenario.onPants [Scenario.photo]
                                    "1700000000000" "blob:1")
  = Some (Scenario.photo,
          mkWardrobeItem "custom-1700000000000" "polo.png" "blob:1" pants)
  /\ synthesisRequest
       (App.handleGarmentSelect POSE_INSTRUCTIONS Sample.friendly Sample.dressed
          Scenario.photo
          (mkWardrobeItem "custom-1700000000000" "polo.png" "blob:1" pants))
     = Some (VirtualTryOn "a.png" Scenario.photo pants)
  /\ ~ In "custom-1700000000000" (map id (wardrobe Sample.dressed))
  /\ In (mkWardrobeItem "custom-1700000000000" "polo.png" "blob:1" pants)
        (WardrobePanel.filteredWardrobe
           (wardrobe
              (after (App.handleGarmentSelect POSE_INSTRUCTIONS Sample.friendly
                        Sample.dressed Scenario.photo
                        (mkWardrobeItem "custom-1700000000000" "polo.png" "blob:1" pants))
                     (Resolved "jeans-0.png") Sample.dressed))
           Scenario.onPants).
Proof.
  assert (H1 : WardrobePanel.selected
                 (WardrobePanel.handleFileChange Scenario.onPants [Scenario.photo]
                                                 "1700000000000" "blob:1")
               = Some (Scenario.photo,
                       mkWardrobeItem "custom-1700000000000" "polo.png" "blob:1" pants))
    by evaluate.
  assert (H2 : synthesisRequest
                 (App.handleGarmentSelect POSE_INSTRUCTIONS Sample.friendly Sample.dressed
                    Scenario.photo
                    (mkWardrobeItem "custom-1700000000000" "polo.png" "blob:1" pants))
               = Some (VirtualTryOn "a.png" Scenario.photo pants)) by evaluate.
  assert (H3 : ~ In "custom-1700000000000" (map id (wardrobe Sample.dressed))).
  { vm_compute. intros H.
    repeat (destruct H as [H | H]; [discriminate H |]). exact H. }
  conjuncts; try assumption.
  exact (uploaded_garment_shows_under_its_tab POSE_INSTRUCTIONS Sample.friendly
           Sample.dressed Sample.dressed Scenario.onPants [Scenario.photo]
           "1700000000000" "blob:1" Scenario.photo
           (mkWardrobeItem "custom-1700000000000" "polo.png" "blob:1" pants)
           _ "jeans-0.png" H1 H2 H3).
Defined.
